(** * BodySystemCUDA: workload partitioning, lifecycle and data marshalling

    A shallow embedding of [5_Simulations/nbody/bodysystemcuda_impl.h].

    - 32-bit [unsigned int] values are integers of [Z] reduced modulo 2^32
      at every operation, as the C++ arithmetic does.
    - [float] values are IEEE-754 binary32 numbers, computed with the
      parameterised operations of [SpecFloat] at precision 24.
    - The CUDA runtime, OpenGL and the C library are an explicit [World]:
      a block-structured memory, the GL buffer objects, the registered
      interop resources and the trace of the calls issued.
    - A member function is a function from the object and the world to an
      [outcome]: normal return, a failed [assert], [exit(EXIT_FAILURE)] from
      [checkCudaErrors], or undefined behaviour. *)

From stdpp Require Import base option list gmap strings.
From Stdlib Require Import ZArith Lia SpecFloat.

Open Scope Z_scope.

(** ** Machine integers *)

Definition wrap32 (z : Z) : Z := z mod 2 ^ 32.
Definition wrap64 (z : Z) : Z := z mod 2 ^ 64.

(** Conversion of an [unsigned int] bit pattern to [int]. *)
Definition to_int32 (z : Z) : Z :=
  let u := wrap32 z in if u <? 2 ^ 31 then u else u - 2 ^ 32.

(** ** Single-precision floats *)

Module Float32.

Definition prec : Z := 24.
Definition emax : Z := 128.

Definition float : Type := spec_float.

Definition zero : float := S754_zero false.
Definition add : float -> float -> float := SFadd prec emax.
Definition mul : float -> float -> float := SFmul prec emax.
Definition div : float -> float -> float := SFdiv prec emax.

(** Conversion of an integer to [float], rounding to nearest even. *)
Definition of_Z (n : Z) : float := binary_normalize prec emax n 0 false.

(** The cast [(int)f]: truncation toward zero.  A value outside the range
    of [int], an infinity or a NaN has no defined result in C++; the model
    takes what the x86 conversion instruction returns, INT_MIN. *)
Definition to_int (f : float) : Z :=
  match f with
  | S754_zero _ => 0
  | S754_finite s m e =>
      let a := match e with
               | Z0 => Zpos m
               | Zpos p => Zpos m * 2 ^ Zpos p
               | Zneg p => Zpos m / 2 ^ Zpos p
               end in
      let v := if s then - a else a in
      if (- 2 ^ 31 <=? v) && (v <? 2 ^ 31) then v else - 2 ^ 31
  | _ => - 2 ^ 31
  end.

(** The literals of the constructor, [0.00125f] and [0.995f]: the binary32
    numbers nearest to the decimal fractions. *)
Definition lit_0_00125 : float := div (of_Z 125) (of_Z 100000).
Definition lit_0_995 : float := div (of_Z 995) (of_Z 1000).

End Float32.

(** ** The device partitioner of [_initialize] *)

Record cudaDeviceProp : Type := {
  multiProcessorCount : Z;
  major : Z
}.

(** Handles and addresses are integers; 0 is the null pointer. *)
Definition NULL : Z := 0.

Record DeviceData : Type := {
  dPos : Z * Z;
  dVel : Z;
  event : Z;
  offset : Z;
  numBodies : Z
}.

(** An element of [new DeviceData<T>[n]]: nothing is set yet. *)
Definition DeviceData_new : DeviceData :=
  {| dPos := (NULL, NULL); dVel := NULL; event := NULL; offset := 0; numBodies := 0 |}.

Definition set_range (off n : Z) (d : DeviceData) : DeviceData :=
  {| dPos := dPos d; dVel := dVel d; event := event d; offset := off; numBodies := n |}.

Definition set_event (e : Z) (d : DeviceData) : DeviceData :=
  {| dPos := dPos d; dVel := dVel d; event := e; offset := offset d; numBodies := numBodies d |}.

Definition set_dPos (p : Z * Z) (d : DeviceData) : DeviceData :=
  {| dPos := p; dVel := dVel d; event := event d; offset := offset d; numBodies := numBodies d |}.

Definition set_dVel (v : Z) (d : DeviceData) : DeviceData :=
  {| dPos := dPos d; dVel := v; event := event d; offset := offset d; numBodies := numBodies d |}.

(** [weights[i] = numSms[i] * (props.major >= 2 ? 4.f : 1.f)] *)
Definition weight (props : cudaDeviceProp) : Float32.float :=
  Float32.mul (Float32.of_Z (multiProcessorCount props))
              (if 2 <=? major props then Float32.of_Z 4 else Float32.of_Z 1).

(** [total += weights[i]], from [total = 0]. *)
Definition total_weight (weights : list Float32.float) : Float32.float :=
  fold_left Float32.add weights Float32.zero.

(** [(int)((weights[i] / total) * m_numBodies)], stored in an [unsigned int]. *)
Definition share (w total : Float32.float) (m_numBodies : Z) : Z :=
  wrap32 (Float32.to_int (Float32.mul (Float32.div w total) (Float32.of_Z m_numBodies))).

(** [round * ((count + round - 1) / round)] with [round = 256]. *)
Definition round_up (count : Z) : Z :=
  let round := 256 in
  wrap32 (round * (wrap32 (wrap32 (count + round) - 1) / round)).

(** The second loop of [_initialize]: device [i] and its successors, given
    the truncated shares still to be placed, the running [offset] and the
    bodies [remaining]. *)
Fixpoint partition_loop (m_numBodies m_numDevices : Z) (shares : list Z)
    (i offset remaining : Z) : list (Z * Z) :=
  match shares with
  | [] => []
  | count :: shares' =>
      let count := round_up count in
      let count := if remaining <? count then remaining else count in
      let remaining := wrap32 (remaining - count) in
      let slot_offset := offset in
      let slot_numBodies := count in
      let offset := wrap32 (offset + count) in
      let slot_numBodies :=
        if (i =? wrap32 (m_numDevices - 1)) && (offset <? wrap32 (m_numBodies - 1))
        then wrap32 (slot_numBodies + wrap32 (m_numBodies - offset))
        else slot_numBodies in
      (slot_offset, slot_numBodies)
        :: partition_loop m_numBodies m_numDevices shares' (i + 1) offset remaining
  end.

(** Both loops, from the weights: the [(offset, numBodies)] pair of every
    device. *)
Definition partition_weights (weights : list Float32.float) (m_numBodies : Z)
    : list (Z * Z) :=
  let total := total_weight weights in
  partition_loop m_numBodies (Z.of_nat (length weights))
    (map (fun w => share w total m_numBodies) weights) 0 0 m_numBodies.

Definition partition_devices (devices : list cudaDeviceProp) (m_numBodies : Z) : list (Z * Z) :=
  partition_weights (map weight devices) m_numBodies.

Definition slot_counts (table : list (Z * Z)) : list Z := map snd table.
Definition sum_counts (table : list (Z * Z)) : Z := foldr Z.add 0 (slot_counts table).

(** ** The scalar type [T] of the template *)

Class Scalar (T : Type) : Type := {
  sizeof : Z;
  scalar_mul : T -> T -> T;
  of_float : Float32.float -> T;
  to_float : T -> Float32.float;
  sizeof_range : 0 < sizeof < 2 ^ 32
}.

#[export] Instance Scalar_float : Scalar Float32.float := {|
  sizeof := 4;
  scalar_mul := Float32.mul;
  of_float := fun f => f;
  to_float := fun f => f;
  sizeof_range := ltac:(lia)
|}.

Record double : Type := Double { double_val : spec_float }.

(** [double] is binary64; a [float] converts to it exactly and back by
    rounding. *)
#[export] Instance Scalar_double : Scalar double := {|
  sizeof := 8;
  scalar_mul := fun a b => Double (SFmul 53 1024 (double_val a) (double_val b));
  of_float := Double;
  to_float := fun d =>
    match double_val d with
    | S754_finite s m e => binary_round Float32.prec Float32.emax s m e
    | f => f
    end;
  sizeof_range := ltac:(lia)
|}.

(** ** The platform: CUDA runtime, OpenGL, C library *)

Inductive cudaError_t : Type :=
| cudaSuccess
| cudaErrorInvalidValue
| cudaErrorInvalidDevice
| cudaErrorInvalidResourceHandle
| cudaErrorUnknown
| cudaErrorPeerAccessAlreadyEnabled.

#[export] Instance cudaError_t_eq_dec : EqDecision cudaError_t.
Proof. solve_decision. Defined.

Inductive cudaMemcpyKind : Type := cudaMemcpyHostToDevice | cudaMemcpyDeviceToHost.

Inductive cudaGraphicsMapFlags : Type :=
| cudaGraphicsMapFlagsNone
| cudaGraphicsMapFlagsReadOnly.

Inductive BodyArray : Type := BODYSYSTEM_POSITION | BODYSYSTEM_VELOCITY.

(** The three memory strategies, as the two flags of the constructor select
    them. *)
Inductive MemoryMode : Type := DeviceLocal | HostMapped | RenderShared.

Definition mode_flags (mode : MemoryMode) : bool * bool :=
  match mode with
  | DeviceLocal => (false, false)
  | HostMapped => (false, true)
  | RenderShared => (true, false)
  end.

(** [a[i]] on an array of two. *)
Definition idx2 (a : Z * Z) (i : Z) : option Z :=
  if i =? 0 then Some (fst a) else if i =? 1 then Some (snd a) else None.

Definition set_idx2 (a : Z * Z) (i : Z) (v : Z) : Z * Z :=
  if i =? 0 then (v, snd a) else (fst a, v).

Section BodySystem.

Context {T : Type} {ST : Scalar T}.

(** The calls that leave the class, with their arguments and the handles
    they return. *)
Inductive Call : Type :=
| cudaGetDeviceProperties_ (device : Z)
| cudaSetDevice_ (device : Z)
| cudaHostAlloc_ (ptr size : Z)
| cudaHostGetDevicePointer_ (pDevice pHost : Z)
| cudaMalloc_ (ptr size : Z)
| cudaFree_ (ptr : Z)
| cudaFreeHost_ (ptr : Z)
| cudaEventCreate_ (ev : Z)
| cudaEventDestroy_ (ev : Z)
| cudaDeviceEnablePeerAccess_ (peer : Z)
| cudaGetLastError_
| cudaMemcpy_ (dst src count : Z) (kind : cudaMemcpyKind)
| cudaGraphicsGLRegisterBuffer_ (resource buffer : Z) (flags : cudaGraphicsMapFlags)
| cudaGraphicsUnregisterResource_ (resource : Z)
| cudaGraphicsResourceSetMapFlags_ (resource : Z) (flags : cudaGraphicsMapFlags)
| cudaGraphicsMapResources_ (resource : Z)
| cudaGraphicsResourceGetMappedPointer_ (resource : Z)
| cudaGraphicsUnmapResources_ (resource : Z)
| glGenBuffers_ (b0 b1 : Z)
| glBindBuffer_ (buffer : Z)
| glBufferData_ (size data : Z)
| glBufferSubData_ (off size data : Z)
| glGetBufferParameteriv_
| glDeleteBuffers_ (b0 b1 : Z)
| new_ (ptr count : Z)
| delete_ (ptr : Z)
| memset_ (ptr size : Z)
| memcpy_ (dst src count : Z)
| fprintf_stderr_ (msg : string)
| setSofteningSquared_ (softeningSq : T)
| integrateNbodySystem_ (deviceData : list DeviceData) (pgres : Z * Z)
    (currentRead : Z) (deltaTime damping : Float32.float)
    (numBodies numDevices blockSize : Z) (bUsePBO : bool).

Record World : Type := {
  devices : list cudaDeviceProp;
  (** live blocks of host and device memory, by address *)
  memory : gmap Z (list Byte.byte);
  (** buffer object name to the address of its data store, once it has one *)
  gl_buffers : gmap Z (option Z);
  (** the buffer bound to GL_ARRAY_BUFFER, 0 for none *)
  gl_array_buffer : Z;
  (** interop resource to its buffer object, map flags, mapped or not *)
  resources : gmap Z (Z * cudaGraphicsMapFlags * bool);
  current_device : Z;
  (** devices that have peer access to device 0 enabled *)
  peer_access : list Z;
  next_handle : positive;
  trace : list Call
}.

Definition set_memory (m : gmap Z (list Byte.byte)) (w : World) : World :=
  {| devices := devices w; memory := m; gl_buffers := gl_buffers w;
     gl_array_buffer := gl_array_buffer w; resources := resources w;
     current_device := current_device w; peer_access := peer_access w;
     next_handle := next_handle w; trace := trace w |}.

Definition set_gl_buffers (b : gmap Z (option Z)) (w : World) : World :=
  {| devices := devices w; memory := memory w; gl_buffers := b;
     gl_array_buffer := gl_array_buffer w; resources := resources w;
     current_device := current_device w; peer_access := peer_access w;
     next_handle := next_handle w; trace := trace w |}.

Definition set_gl_array_buffer (b : Z) (w : World) : World :=
  {| devices := devices w; memory := memory w; gl_buffers := gl_buffers w;
     gl_array_buffer := b; resources := resources w;
     current_device := current_device w; peer_access := peer_access w;
     next_handle := next_handle w; trace := trace w |}.

Definition set_resources (r : gmap Z (Z * cudaGraphicsMapFlags * bool)) (w : World) : World :=
  {| devices := devices w; memory := memory w; gl_buffers := gl_buffers w;
     gl_array_buffer := gl_array_buffer w; resources := r;
     current_device := current_device w; peer_access := peer_access w;
     next_handle := next_handle w; trace := trace w |}.

Definition set_current_device (d : Z) (w : World) : World :=
  {| devices := devices w; memory := memory w; gl_buffers := gl_buffers w;
     gl_array_buffer := gl_array_buffer w; resources := resources w;
     current_device := d; peer_access := peer_access w;
     next_handle := next_handle w; trace := trace w |}.

Definition set_peer_access (p : list Z) (w : World) : World :=
  {| devices := devices w; memory := memory w; gl_buffers := gl_buffers w;
     gl_array_buffer := gl_array_buffer w; resources := resources w;
     current_device := current_device w; peer_access := p;
     next_handle := next_handle w; trace := trace w |}.

Definition set_next_handle (n : positive) (w : World) : World :=
  {| devices := devices w; memory := memory w; gl_buffers := gl_buffers w;
     gl_array_buffer := gl_array_buffer w; resources := resources w;
     current_device := current_device w; peer_access := peer_access w;
     next_handle := n; trace := trace w |}.

Definition set_trace (t : list Call) (w : World) : World :=
  {| devices := devices w; memory := memory w; gl_buffers := gl_buffers w;
     gl_array_buffer := gl_array_buffer w; resources := resources w;
     current_device := current_device w; peer_access := peer_access w;
     next_handle := next_handle w; trace := t |}.

(** *** Outcomes and the monad of member functions *)

Inductive outcome (A : Type) : Type :=
| Ok (a : A) (w : World)
| AssertionFailed
| ExitFailure
| Undefined.

Global Arguments Ok {A} a w.
Global Arguments AssertionFailed {A}.
Global Arguments ExitFailure {A}.
Global Arguments Undefined {A}.

Definition M (A : Type) : Type := World -> outcome A.

Definition ret {A} (a : A) : M A := fun w => Ok a w.

Definition bind {A B} (m : M A) (k : A -> M B) : M B :=
  fun w => match m w with
           | Ok a w' => k a w'
           | AssertionFailed => AssertionFailed
           | ExitFailure => ExitFailure
           | Undefined => Undefined
           end.

End BodySystem.

Notation "'do' x <- m ; k" := (bind m (fun x => k))
  (at level 10, x pattern, m at level 100, k at level 200).
Notation "m ;; k" := (bind m (fun _ => k))
  (at level 100, k at level 200, right associativity).

Section Platform.

Context {T : Type}.

#[local] Abbreviation World := (@World T).
#[local] Abbreviation M := (@M T).

Definition log (c : Call) : M unit :=
  fun w => Ok tt (set_trace (trace w ++ [c]) w).

Definition assert (b : bool) : M unit :=
  fun w => if b then Ok tt w else AssertionFailed.

(** [checkCudaErrors(e)]: [exit(EXIT_FAILURE)] unless [e] is [cudaSuccess]. *)
Definition checkCudaErrors (e : cudaError_t) : M unit :=
  fun w => if decide (e = cudaSuccess) then Ok tt w else ExitFailure.

(** An out-of-range array access or a copy outside a block. *)
Definition defined {A} (o : option A) : M A :=
  fun w => match o with Some a => Ok a w | None => Undefined end.

Definition fresh : M Z :=
  fun w => Ok (Zpos (next_handle w)) (set_next_handle (Pos.succ (next_handle w)) w).

(** A new block of [size] bytes.  Its contents are indeterminate in C++;
    the model starts it with zero bytes. *)
Definition alloc (size : Z) : M Z :=
  do p <- fresh;
  fun w => Ok p (set_memory (<[p := replicate (Z.to_nat size) Byte.x00]> (memory w)) w).

Definition fill_block (ptr size : Z) (m : gmap Z (list Byte.byte))
    : option (gmap Z (list Byte.byte)) :=
  match m !! ptr with
  | Some b =>
      if (0 <=? size) && (size <=? Z.of_nat (length b))
      then Some (<[ptr := replicate (Z.to_nat size) Byte.x00 ++ drop (Z.to_nat size) b]> m)
      else None
  | None => None
  end.

(** The first [count] bytes of block [src] replace those of block [dst]. *)
Definition copy_block (dst src count : Z) (m : gmap Z (list Byte.byte))
    : option (gmap Z (list Byte.byte)) :=
  match m !! src, m !! dst with
  | Some s, Some d =>
      if (0 <=? count) && (count <=? Z.of_nat (length s)) && (count <=? Z.of_nat (length d))
      then Some (<[dst := take (Z.to_nat count) s ++ drop (Z.to_nat count) d]> m)
      else None
  | _, _ => None
  end.

(** *** C library *)

Definition new_array (count : Z) (elt_size : Z) : M Z :=
  do p <- alloc (elt_size * count);
  log (new_ p count);;
  ret p.

Definition delete_array (ptr : Z) : M unit :=
  log (delete_ ptr);;
  if ptr =? NULL then ret tt
  else fun w => match memory w !! ptr with
                | Some _ => Ok tt (set_memory (delete ptr (memory w)) w)
                | None => Undefined
                end.

Definition memset_zero (ptr size : Z) : M unit :=
  log (memset_ ptr size);;
  fun w => match fill_block ptr size (memory w) with
           | Some m => Ok tt (set_memory m w)
           | None => Undefined
           end.

Definition memcpy (dst src count : Z) : M unit :=
  log (memcpy_ dst src count);;
  fun w => match copy_block dst src count (memory w) with
           | Some m => Ok tt (set_memory m w)
           | None => Undefined
           end.

Definition fprintf_stderr (msg : string) : M unit := log (fprintf_stderr_ msg).

(** *** CUDA runtime *)

Definition cudaGetDeviceProperties (device : Z) : M (cudaError_t * cudaDeviceProp) :=
  log (cudaGetDeviceProperties_ device);;
  fun w => match devices w !! Z.to_nat device with
           | Some props => Ok (cudaSuccess, props) w
           | None => Ok (cudaErrorInvalidDevice,
                         {| multiProcessorCount := 0; major := 0 |}) w
           end.

Definition cudaSetDevice (device : Z) : M cudaError_t :=
  log (cudaSetDevice_ device);;
  fun w => if (0 <=? device) && (device <? Z.of_nat (length (devices w)))
           then Ok cudaSuccess (set_current_device device w)
           else Ok cudaErrorInvalidDevice w.

Definition cudaHostAlloc (size : Z) : M (cudaError_t * Z) :=
  do p <- alloc size;
  log (cudaHostAlloc_ p size);;
  ret (cudaSuccess, p).

(** Mapped host memory is seen by a device at the address of the host
    block. *)
Definition cudaHostGetDevicePointer (pHost : Z) : M (cudaError_t * Z) :=
  fun w => match memory w !! pHost with
           | Some _ => (log (cudaHostGetDevicePointer_ pHost pHost);;
                        ret (cudaSuccess, pHost)) w
           | None => Ok (cudaErrorInvalidValue, NULL) w
           end.

Definition cudaMalloc (size : Z) : M (cudaError_t * Z) :=
  do p <- alloc size;
  log (cudaMalloc_ p size);;
  ret (cudaSuccess, p).

Definition release (ptr : Z) : M cudaError_t :=
  if ptr =? NULL then ret cudaSuccess
  else fun w => match memory w !! ptr with
                | Some _ => Ok cudaSuccess (set_memory (delete ptr (memory w)) w)
                | None => Ok cudaErrorInvalidValue w
                end.

Definition cudaFree (ptr : Z) : M cudaError_t := log (cudaFree_ ptr);; release ptr.
Definition cudaFreeHost (ptr : Z) : M cudaError_t := log (cudaFreeHost_ ptr);; release ptr.

Definition cudaEventCreate : M (cudaError_t * Z) :=
  do e <- fresh;
  log (cudaEventCreate_ e);;
  ret (cudaSuccess, e).

Definition cudaEventDestroy (ev : Z) : M cudaError_t :=
  log (cudaEventDestroy_ ev);; ret cudaSuccess.

Definition cudaDeviceEnablePeerAccess (peer : Z) : M cudaError_t :=
  log (cudaDeviceEnablePeerAccess_ peer);;
  fun w => if bool_decide (current_device w ∈ peer_access w)
           then Ok cudaErrorPeerAccessAlreadyEnabled w
           else Ok cudaSuccess (set_peer_access (current_device w :: peer_access w) w).

Definition cudaGetLastError : M unit := log cudaGetLastError_.

Definition cudaMemcpy (dst src count : Z) (kind : cudaMemcpyKind) : M cudaError_t :=
  log (cudaMemcpy_ dst src count kind);;
  fun w => match copy_block dst src count (memory w) with
           | Some m => Ok cudaSuccess (set_memory m w)
           | None => Ok cudaErrorInvalidValue w
           end.

Definition cudaGraphicsGLRegisterBuffer (buffer : Z) (flags : cudaGraphicsMapFlags)
    : M (cudaError_t * Z) :=
  fun w => match gl_buffers w !! buffer with
           | Some _ =>
               (do r <- fresh;
                log (cudaGraphicsGLRegisterBuffer_ r buffer flags);;
                fun w' => Ok (cudaSuccess, r)
                            (set_resources (<[r := (buffer, flags, false)]> (resources w')) w')) w
           | None => Ok (cudaErrorInvalidValue, NULL) w
           end.

Definition cudaGraphicsUnregisterResource (resource : Z) : M cudaError_t :=
  log (cudaGraphicsUnregisterResource_ resource);;
  fun w => match resources w !! resource with
           | Some _ => Ok cudaSuccess (set_resources (delete resource (resources w)) w)
           | None => Ok cudaErrorInvalidResourceHandle w
           end.

Definition cudaGraphicsResourceSetMapFlags (resource : Z) (flags : cudaGraphicsMapFlags)
    : M cudaError_t :=
  log (cudaGraphicsResourceSetMapFlags_ resource flags);;
  fun w => match resources w !! resource with
           | Some (b, _, false) =>
               Ok cudaSuccess (set_resources (<[resource := (b, flags, false)]> (resources w)) w)
           | Some (_, _, true) => Ok cudaErrorUnknown w
           | None => Ok cudaErrorInvalidResourceHandle w
           end.

Definition cudaGraphicsMapResources (resource : Z) : M cudaError_t :=
  log (cudaGraphicsMapResources_ resource);;
  fun w => match resources w !! resource with
           | Some (b, f, false) =>
               Ok cudaSuccess (set_resources (<[resource := (b, f, true)]> (resources w)) w)
           | Some (_, _, true) => Ok cudaErrorUnknown w
           | None => Ok cudaErrorInvalidResourceHandle w
           end.

(** The device pointer of a mapped resource is the data store of its buffer
    object: the render buffer and the compute buffer are one block. *)
Definition cudaGraphicsResourceGetMappedPointer (resource : Z) : M (cudaError_t * Z) :=
  log (cudaGraphicsResourceGetMappedPointer_ resource);;
  fun w => match resources w !! resource with
           | Some (b, _, true) =>
               match gl_buffers w !! b with
               | Some (Some store) => Ok (cudaSuccess, store) w
               | _ => Ok (cudaErrorUnknown, NULL) w
               end
           | Some (_, _, false) => Ok (cudaErrorUnknown, NULL) w
           | None => Ok (cudaErrorInvalidResourceHandle, NULL) w
           end.

Definition cudaGraphicsUnmapResources (resource : Z) : M cudaError_t :=
  log (cudaGraphicsUnmapResources_ resource);;
  fun w => match resources w !! resource with
           | Some (b, f, true) =>
               Ok cudaSuccess (set_resources (<[resource := (b, f, false)]> (resources w)) w)
           | Some (_, _, false) => Ok cudaErrorUnknown w
           | None => Ok cudaErrorInvalidResourceHandle w
           end.

(** *** OpenGL buffer objects.  A GL call never terminates the program: on
    an error it records the error and has no other effect. *)

Definition glGenBuffers2 : M (Z * Z) :=
  do b0 <- fresh;
  do b1 <- fresh;
  log (glGenBuffers_ b0 b1);;
  fun w => Ok (b0, b1) (set_gl_buffers (<[b1 := None]> (<[b0 := None]> (gl_buffers w))) w).

Definition glBindBuffer (buffer : Z) : M unit :=
  log (glBindBuffer_ buffer);;
  fun w => Ok tt (set_gl_array_buffer buffer w).

(** The data store of the bound buffer, if it has one. *)
Definition bound_store (w : World) : option Z :=
  match gl_buffers w !! gl_array_buffer w with
  | Some (Some store) => Some store
  | _ => None
  end.

Definition glBufferData (size data : Z) : M unit :=
  log (glBufferData_ size data);;
  fun w => match gl_buffers w !! gl_array_buffer w with
           | Some old =>
               match memory w !! data with
               | Some src =>
                   if (0 <=? size) && (size <=? Z.of_nat (length src))
                   then
                     let m := match old with
                              | Some store => delete store (memory w)
                              | None => memory w
                              end in
                     let store := Zpos (next_handle w) in
                     Ok tt (set_gl_buffers (<[gl_array_buffer w := Some store]> (gl_buffers w))
                              (set_memory (<[store := take (Z.to_nat size) src]> m)
                                 (set_next_handle (Pos.succ (next_handle w)) w)))
                   else Undefined
               | None => Undefined
               end
           | None => Ok tt w
           end.

Definition glBufferSubData (off size data : Z) : M unit :=
  log (glBufferSubData_ off size data);;
  fun w => match bound_store w with
           | Some store =>
               match memory w !! store with
               | Some d =>
                   if (off =? 0) && (size <=? Z.of_nat (length d))
                   then match copy_block store data size (memory w) with
                        | Some m => Ok tt (set_memory m w)
                        | None => Undefined
                        end
                   else Ok tt w
               | None => Ok tt w
               end
           | None => Ok tt w
           end.

(** [glGetBufferParameteriv(GL_ARRAY_BUFFER, GL_BUFFER_SIZE, &size)] applied
    to [size = 0]. *)
Definition glGetBufferParameteriv : M Z :=
  log glGetBufferParameteriv_;;
  fun w => match bound_store w with
           | Some store =>
               match memory w !! store with
               | Some d => Ok (to_int32 (Z.of_nat (length d))) w
               | None => Ok 0 w
               end
           | None => Ok 0 w
           end.

Definition glDeleteBuffers2 (b : Z * Z) : M unit :=
  log (glDeleteBuffers_ (fst b) (snd b));;
  fun w =>
    let stores := omap (fun n => mjoin (gl_buffers w !! n)) [fst b; snd b] in
    Ok tt (set_gl_buffers (delete (snd b) (delete (fst b) (gl_buffers w)))
             (set_memory (foldr delete (memory w) stores) w)).

End Platform.

(** ** The class [BodySystemCUDA<T>] *)

Section Class.

Context {T : Type} {ST : Scalar T}.

#[local] Abbreviation World := (@World T).
#[local] Abbreviation M := (@M T).

(** The kernel launcher of [bodysystemcuda.cu] is outside the class.  What it
    does to memory is a parameter: a function of the logged call, [None] when
    it ends the process on a platform error. *)
Variable integrate_memory :
  @Call T -> gmap Z (list Byte.byte) -> option (gmap Z (list Byte.byte)).

Record BodySystemCUDA : Type := {
  m_numBodies : Z;
  m_numDevices : Z;
  m_bInitialized : bool;
  m_bUsePBO : bool;
  m_bUseSysMem : bool;
  m_bUseP2P : bool;
  m_currentRead : Z;
  m_currentWrite : Z;
  m_blockSize : Z;
  m_devID : Z;
  m_hPos : Z * Z;
  m_hVel : Z;
  (** the array [m_deviceData] points to; empty for a null pointer *)
  m_deviceData : list DeviceData;
  m_pbo : Z * Z;
  m_pGRes : Z * Z;
  m_damping : T
}.

Definition set_m_numBodies (n : Z) (this : BodySystemCUDA) : BodySystemCUDA :=
  {| m_numBodies := n; m_numDevices := m_numDevices this;
     m_bInitialized := m_bInitialized this; m_bUsePBO := m_bUsePBO this;
     m_bUseSysMem := m_bUseSysMem this; m_bUseP2P := m_bUseP2P this;
     m_currentRead := m_currentRead this; m_currentWrite := m_currentWrite this;
     m_blockSize := m_blockSize this; m_devID := m_devID this;
     m_hPos := m_hPos this; m_hVel := m_hVel this; m_deviceData := m_deviceData this;
     m_pbo := m_pbo this; m_pGRes := m_pGRes this; m_damping := m_damping this |}.

Definition set_m_bInitialized (b : bool) (this : BodySystemCUDA) : BodySystemCUDA :=
  {| m_numBodies := m_numBodies this; m_numDevices := m_numDevices this;
     m_bInitialized := b; m_bUsePBO := m_bUsePBO this;
     m_bUseSysMem := m_bUseSysMem this; m_bUseP2P := m_bUseP2P this;
     m_currentRead := m_currentRead this; m_currentWrite := m_currentWrite this;
     m_blockSize := m_blockSize this; m_devID := m_devID this;
     m_hPos := m_hPos this; m_hVel := m_hVel this; m_deviceData := m_deviceData this;
     m_pbo := m_pbo this; m_pGRes := m_pGRes this; m_damping := m_damping this |}.

Definition set_current (r w : Z) (this : BodySystemCUDA) : BodySystemCUDA :=
  {| m_numBodies := m_numBodies this; m_numDevices := m_numDevices this;
     m_bInitialized := m_bInitialized this; m_bUsePBO := m_bUsePBO this;
     m_bUseSysMem := m_bUseSysMem this; m_bUseP2P := m_bUseP2P this;
     m_currentRead := r; m_currentWrite := w;
     m_blockSize := m_blockSize this; m_devID := m_devID this;
     m_hPos := m_hPos this; m_hVel := m_hVel this; m_deviceData := m_deviceData this;
     m_pbo := m_pbo this; m_pGRes := m_pGRes this; m_damping := m_damping this |}.

Definition set_m_damping (d : T) (this : BodySystemCUDA) : BodySystemCUDA :=
  {| m_numBodies := m_numBodies this; m_numDevices := m_numDevices this;
     m_bInitialized := m_bInitialized this; m_bUsePBO := m_bUsePBO this;
     m_bUseSysMem := m_bUseSysMem this; m_bUseP2P := m_bUseP2P this;
     m_currentRead := m_currentRead this; m_currentWrite := m_currentWrite this;
     m_blockSize := m_blockSize this; m_devID := m_devID this;
     m_hPos := m_hPos this; m_hVel := m_hVel this; m_deviceData := m_deviceData this;
     m_pbo := m_pbo this; m_pGRes := m_pGRes this; m_damping := d |}.

(** The buffers and handles acquired by [_initialize], stored together. *)
Definition set_buffers (hPos : Z * Z) (hVel : Z) (deviceData : list DeviceData)
    (pbo pGRes : Z * Z) (this : BodySystemCUDA) : BodySystemCUDA :=
  {| m_numBodies := m_numBodies this; m_numDevices := m_numDevices this;
     m_bInitialized := m_bInitialized this; m_bUsePBO := m_bUsePBO this;
     m_bUseSysMem := m_bUseSysMem this; m_bUseP2P := m_bUseP2P this;
     m_currentRead := m_currentRead this; m_currentWrite := m_currentWrite this;
     m_blockSize := m_blockSize this; m_devID := m_devID this;
     m_hPos := hPos; m_hVel := hVel; m_deviceData := deviceData;
     m_pbo := pbo; m_pGRes := pGRes; m_damping := m_damping this |}.

(** [m_numBodies*4*sizeof(T)]: the product by 4 is taken in [unsigned int],
    the product by the size in [size_t]. *)
Definition array_bytes (numBodies : Z) : Z :=
  wrap64 (wrap32 (numBodies * 4) * sizeof).

(** [4 * sizeof(T) * m_numBodies], all in [size_t]. *)
Definition buffer_bytes (numBodies : Z) : Z :=
  wrap64 (wrap64 (4 * sizeof) * numBodies).

(** *** [_initialize] *)

(** The first loop: the weight of every device, from its properties. *)
Fixpoint query_weights (n : nat) (i : Z) : M (list Float32.float) :=
  match n with
  | O => ret []
  | S n' =>
      do (e, props) <- cudaGetDeviceProperties i;
      checkCudaErrors e;;
      do weights <- query_weights n' (i + 1);
      ret (weight props :: weights)
  end.

(** Both workload loops: the array [m_deviceData] with the [offset] and
    [numBodies] of every device set. *)
Definition divide_workload (numDevices numBodies : Z) : M (list DeviceData) :=
  do weights <- query_weights (Z.to_nat numDevices) 0;
  ret (map (fun '(off, n) => set_range off n DeviceData_new)
           (partition_weights weights numBodies)).

(** The loop of the [m_bUseSysMem] branch over the devices. *)
Fixpoint map_host_buffers (numDevices : Z) (hPos : Z * Z) (hVel : Z)
    (ds : list DeviceData) (i : Z) : M (list DeviceData) :=
  match ds with
  | [] => ret []
  | d :: ds' =>
      (if 1 <? numDevices
       then do e <- cudaSetDevice i; checkCudaErrors e
       else ret tt);;
      do (e, ev) <- cudaEventCreate;
      checkCudaErrors e;;
      do (e, p0) <- cudaHostGetDevicePointer (fst hPos);
      checkCudaErrors e;;
      do (e, p1) <- cudaHostGetDevicePointer (snd hPos);
      checkCudaErrors e;;
      do (e, v) <- cudaHostGetDevicePointer hVel;
      checkCudaErrors e;;
      do ds'' <- map_host_buffers numDevices hPos hVel ds' (i + 1);
      ret (set_dVel v (set_dPos (p0, p1) (set_event ev d)) :: ds'')
  end.

(** One round of the loop that creates the pixel buffer objects. *)
Definition create_pbo (buffer memSize data : Z) : M Z :=
  glBindBuffer buffer;;
  glBufferData memSize data;;
  do size <- glGetBufferParameteriv;
  (if negb (wrap32 size =? memSize)
   then fprintf_stderr "WARNING: Pixel Buffer Object allocation failed!n"
   else ret tt);;
  glBindBuffer 0;;
  do (e, r) <- cudaGraphicsGLRegisterBuffer buffer cudaGraphicsMapFlagsNone;
  checkCudaErrors e;;
  ret r.

(** The loop of the [m_bUseP2P] branch, over devices 1 and up: [d0] is
    [m_deviceData[0]]. *)
Fixpoint share_with_peers (d0 : DeviceData) (ds : list DeviceData) (i : Z)
    : M (list DeviceData) :=
  match ds with
  | [] => ret []
  | d :: ds' =>
      do e <- cudaSetDevice i;
      checkCudaErrors e;;
      do error <- cudaDeviceEnablePeerAccess 0;
      (if decide (error = cudaErrorPeerAccessAlreadyEnabled)
       then cudaGetLastError
       else checkCudaErrors error);;
      do (e, ev) <- cudaEventCreate;
      checkCudaErrors e;;
      do ds'' <- share_with_peers d0 ds' (i + 1);
      ret (set_dVel (dVel d0) (set_dPos (dPos d0) (set_event ev d)) :: ds'')
  end.

Definition _initialize (numBodies : Z) (this : BodySystemCUDA) : M BodySystemCUDA :=
  assert (negb (m_bInitialized this));;
  let this := set_m_numBodies (wrap32 numBodies) this in
  let memSize := wrap32 (sizeof * 4 * numBodies) in
  do deviceData <- divide_workload (m_numDevices this) (m_numBodies this);
  do this <-
    (if m_bUseSysMem this
     then
       do (e, p0) <- cudaHostAlloc memSize;
       checkCudaErrors e;;
       do (e, p1) <- cudaHostAlloc memSize;
       checkCudaErrors e;;
       do (e, v) <- cudaHostAlloc memSize;
       checkCudaErrors e;;
       memset_zero p0 memSize;;
       memset_zero p1 memSize;;
       memset_zero v memSize;;
       do deviceData <- map_host_buffers (m_numDevices this) (p0, p1) v deviceData 0;
       ret (set_buffers (p0, p1) v deviceData (m_pbo this) (m_pGRes this) this)
     else
       do p0 <- new_array (wrap32 (m_numBodies this * 4)) sizeof;
       do v <- new_array (wrap32 (m_numBodies this * 4)) sizeof;
       memset_zero p0 memSize;;
       memset_zero v memSize;;
       do e <- cudaSetDevice (m_devID this);
       checkCudaErrors e;;
       do d0 <- defined (head deviceData);
       do (e, ev) <- cudaEventCreate;
       checkCudaErrors e;;
       let d0 := set_event ev d0 in
       do (d0, pbo, pGRes) <-
         (if m_bUsePBO this
          then
            do pbo <- glGenBuffers2;
            do r0 <- create_pbo (fst pbo) memSize p0;
            do r1 <- create_pbo (snd pbo) memSize p0;
            ret (d0, pbo, (r0, r1))
          else
            do (e, d0p) <- cudaMalloc memSize;
            checkCudaErrors e;;
            do (e, d1p) <- cudaMalloc memSize;
            checkCudaErrors e;;
            ret (set_dPos (d0p, d1p) d0, m_pbo this, m_pGRes this));
       do (e, dv) <- cudaMalloc memSize;
       checkCudaErrors e;;
       let d0 := set_dVel dv d0 in
       do peers <-
         (if m_bUseP2P this
          then share_with_peers d0 (tail deviceData) 1
          else ret (tail deviceData));
       ret (set_buffers (p0, snd (m_hPos this)) v (d0 :: peers) pbo pGRes this));
  ret (set_m_bInitialized true this).

(** *** [_finalize] *)

(** [cudaEventDestroy(m_deviceData[i].event)] for [n] devices from [i] on;
    the result is passed to [checkCudaErrors] when [checked]. *)
Fixpoint destroy_events (checked : bool) (ds : list DeviceData) (n : nat) (i : Z)
    : M unit :=
  match n with
  | O => ret tt
  | S n' =>
      do d <- defined (ds !! Z.to_nat i);
      do e <- cudaEventDestroy (event d);
      (if checked then checkCudaErrors e else ret tt);;
      destroy_events checked ds n' (i + 1)
  end.

Definition _finalize (this : BodySystemCUDA) : M BodySystemCUDA :=
  assert (m_bInitialized this);;
  (if m_bUseSysMem this
   then
     do e <- cudaFreeHost (fst (m_hPos this));
     checkCudaErrors e;;
     do e <- cudaFreeHost (snd (m_hPos this));
     checkCudaErrors e;;
     do e <- cudaFreeHost (m_hVel this);
     checkCudaErrors e;;
     destroy_events false (m_deviceData this) (Z.to_nat (m_numDevices this)) 0
   else
     delete_array (fst (m_hPos this));;
     delete_array (snd (m_hPos this));;
     delete_array (m_hVel this);;
     do d0 <- defined (m_deviceData this !! 0%nat);
     do e <- cudaFree (dVel d0);
     checkCudaErrors e;;
     if m_bUsePBO this
     then
       do e <- cudaGraphicsUnregisterResource (fst (m_pGRes this));
       checkCudaErrors e;;
       do e <- cudaGraphicsUnregisterResource (snd (m_pGRes this));
       checkCudaErrors e;;
       glDeleteBuffers2 (m_pbo this)
     else
       do e <- cudaFree (fst (dPos d0));
       checkCudaErrors e;;
       do e <- cudaFree (snd (dPos d0));
       checkCudaErrors e;;
       do e <- cudaEventDestroy (event d0);
       checkCudaErrors e;;
       if m_bUseP2P this
       then destroy_events true (m_deviceData this)
              (Z.to_nat (m_numDevices this - 1)) 1
       else ret tt);;
  ret (set_m_bInitialized false
         (set_buffers (m_hPos this) (m_hVel this) [] (m_pbo this) (m_pGRes this) this)).

(** *** The setters *)

Definition setSofteningSquared (softeningSq : T) : M cudaError_t :=
  log (setSofteningSquared_ softeningSq);; ret cudaSuccess.

Fixpoint setSoftening_loop (numDevices : Z) (softeningSq : T) (n : nat) (i : Z)
    : M unit :=
  match n with
  | O => ret tt
  | S n' =>
      (if 1 <? numDevices
       then do e <- cudaSetDevice i; checkCudaErrors e
       else ret tt);;
      do e <- setSofteningSquared softeningSq;
      checkCudaErrors e;;
      setSoftening_loop numDevices softeningSq n' (i + 1)
  end.

Definition setSoftening (softening : T) (this : BodySystemCUDA) : M BodySystemCUDA :=
  let softeningSq := scalar_mul softening softening in
  setSoftening_loop (m_numDevices this) softeningSq (Z.to_nat (m_numDevices this)) 0;;
  ret this.

Definition setDamping (damping : T) (this : BodySystemCUDA) : M BodySystemCUDA :=
  ret (set_m_damping damping this).

(** *** [update] *)

Definition integrateNbodySystem (deviceData : list DeviceData) (pgres : Z * Z)
    (currentRead : Z) (deltaTime damping : Float32.float)
    (numBodies numDevices blockSize : Z) (bUsePBO : bool) : M unit :=
  let c := integrateNbodySystem_ deviceData pgres currentRead deltaTime damping
             numBodies numDevices blockSize bUsePBO in
  log c;;
  fun w => match integrate_memory c (memory w) with
           | Some m => Ok tt (set_memory m w)
           | None => ExitFailure
           end.

Definition update (deltaTime : T) (this : BodySystemCUDA) : M BodySystemCUDA :=
  assert (m_bInitialized this);;
  integrateNbodySystem (m_deviceData this) (m_pGRes this) (m_currentRead this)
    (to_float deltaTime) (to_float (m_damping this))
    (m_numBodies this) (m_numDevices this) (m_blockSize this) (m_bUsePBO this);;
  (* std::swap(m_currentRead, m_currentWrite) *)
  ret (set_current (m_currentWrite this) (m_currentRead this) this).

(** *** [getArray] and [setArray] *)

Definition getArray (array : BodyArray) (this : BodySystemCUDA) : M Z :=
  assert (m_bInitialized this);;
  let currentReadHost :=
    if m_bUseSysMem this then to_int32 (m_currentRead this) else 0 in
  do (hdata, ddata, pgres) <-
    match array with
    | BODYSYSTEM_POSITION =>
        do hdata <- defined (idx2 (m_hPos this) currentReadHost);
        do d0 <- defined (m_deviceData this !! 0%nat);
        do ddata <- defined (idx2 (dPos d0) (m_currentRead this));
        do pgres <-
          (if m_bUsePBO this
           then defined (idx2 (m_pGRes this) (m_currentRead this))
           else ret NULL);
        ret (hdata, ddata, pgres)
    | BODYSYSTEM_VELOCITY =>
        do d0 <- defined (m_deviceData this !! 0%nat);
        ret (m_hVel this, dVel d0, NULL)
    end;
  (if negb (m_bUseSysMem this)
   then
     do ddata <-
       (if negb (pgres =? NULL)
        then
          do e <- cudaGraphicsResourceSetMapFlags pgres cudaGraphicsMapFlagsReadOnly;
          checkCudaErrors e;;
          do e <- cudaGraphicsMapResources pgres;
          checkCudaErrors e;;
          do (e, mapped) <- cudaGraphicsResourceGetMappedPointer pgres;
          checkCudaErrors e;;
          ret mapped
        else ret ddata);
     do e <- cudaMemcpy hdata ddata (array_bytes (m_numBodies this))
               cudaMemcpyDeviceToHost;
     checkCudaErrors e;;
     if negb (pgres =? NULL)
     then do e <- cudaGraphicsUnmapResources pgres; checkCudaErrors e
     else ret tt
   else ret tt);;
  ret hdata.

Definition setArray (array : BodyArray) (data : Z) (this : BodySystemCUDA)
    : M BodySystemCUDA :=
  assert (m_bInitialized this);;
  let this := set_current 0 1 this in
  match array with
  | BODYSYSTEM_POSITION =>
      if m_bUsePBO this
      then
        do buffer <- defined (idx2 (m_pbo this) (m_currentRead this));
        glBindBuffer buffer;;
        glBufferSubData 0 (buffer_bytes (m_numBodies this)) data;;
        do size <- glGetBufferParameteriv;
        (if negb (wrap32 size =? wrap64 (4 * wrap64 (sizeof * m_numBodies this)))
         then fprintf_stderr "WARNING: Pixel Buffer Object download failed!n"
         else ret tt);;
        glBindBuffer 0
      else if m_bUseSysMem this
      then
        do dst <- defined (idx2 (m_hPos this) (m_currentRead this));
        memcpy dst data (array_bytes (m_numBodies this))
      else
        do d0 <- defined (m_deviceData this !! 0%nat);
        do dst <- defined (idx2 (dPos d0) (m_currentRead this));
        do e <- cudaMemcpy dst data (array_bytes (m_numBodies this))
                  cudaMemcpyHostToDevice;
        checkCudaErrors e
  | BODYSYSTEM_VELOCITY =>
      if m_bUseSysMem this
      then memcpy (m_hVel this) data (array_bytes (m_numBodies this))
      else
        do d0 <- defined (m_deviceData this !! 0%nat);
        do e <- cudaMemcpy (dVel d0) data (array_bytes (m_numBodies this))
                  cudaMemcpyHostToDevice;
        checkCudaErrors e
  end;;
  ret this.

(** *** Constructor and destructor *)

(** The object after the member initialiser list and the three assignments
    that open the constructor body. *)
Definition BodySystemCUDA_members (numBodies numDevices blockSize : Z)
    (usePBO useSysMem useP2P : bool) (deviceId : Z) : BodySystemCUDA :=
  {| m_numBodies := numBodies; m_numDevices := numDevices;
     m_bInitialized := false; m_bUsePBO := usePBO;
     m_bUseSysMem := useSysMem; m_bUseP2P := useP2P;
     m_currentRead := 0; m_currentWrite := 1;
     m_blockSize := blockSize; m_devID := deviceId;
     m_hPos := (NULL, NULL); m_hVel := NULL; m_deviceData := [];
     (* the next three are not set yet *)
     m_pbo := (0, 0); m_pGRes := (NULL, NULL);
     m_damping := of_float Float32.zero |}.

Definition BodySystemCUDA_new (numBodies numDevices blockSize : Z)
    (usePBO useSysMem useP2P : bool) (deviceId : Z) : M BodySystemCUDA :=
  let this :=
    BodySystemCUDA_members numBodies numDevices blockSize usePBO useSysMem useP2P
      deviceId in
  do this <- _initialize (to_int32 numBodies) this;
  do this <- setSoftening (of_float Float32.lit_0_00125) this;
  setDamping (of_float Float32.lit_0_995) this.

Definition BodySystemCUDA_delete (this : BodySystemCUDA) : M BodySystemCUDA :=
  do this <- _finalize this;
  ret (set_m_numBodies 0 this).

End Class.

(** ** Reference definitions for the statements *)

(** The allocation rule as the design text words it, on the truncated
    shares: every device gets its share rounded up to a multiple of 256,
    capped by what is still unassigned. *)
Fixpoint claimed_counts (shares : list Z) (remaining : Z) : list Z :=
  match shares with
  | [] => []
  | c :: cs =>
      let k := Z.min (256 * ((c + 255) / 256)) remaining in
      k :: claimed_counts cs (remaining - k)
  end.

(** The same rule on the exact proportional share [n * w / sum w] of integer
    weights, rounded up to a multiple of 256 without truncating first. *)
Fixpoint claimed_counts_exact (n total : Z) (weights : list Z) (remaining : Z) : list Z :=
  match weights with
  | [] => []
  | w :: ws =>
      let k := Z.min (256 * ((n * w + 256 * total - 1) / (256 * total))) remaining in
      k :: claimed_counts_exact n total ws (remaining - k)
  end.

(** The calls of [setSoftening] for [n] devices from device [i] on. *)
Fixpoint softening_calls {T} (numDevices : Z) (softeningSq : T) (n : nat) (i : Z)
    : list (@Call T) :=
  match n with
  | O => []
  | S n' =>
      (if 1 <? numDevices then [cudaSetDevice_ i] else [])
        ++ setSofteningSquared_ softeningSq :: softening_calls numDevices softeningSq n' (i + 1)
  end.

(** A world with the given devices installed and nothing allocated. *)
Definition empty_world {T} (ds : list cudaDeviceProp) : @World T :=
  {| devices := ds; memory := ∅; gl_buffers := ∅; gl_array_buffer := 0;
     resources := ∅; current_device := 0; peer_access := [];
     next_handle := 1%positive; trace := [] |}.

(** A launcher that leaves memory as it is. *)
Definition idle_kernel {T} : @Call T -> gmap Z (list Byte.byte) -> option (gmap Z (list Byte.byte)) :=
  fun _ m => Some m.

Definition gpu (sms cc : Z) : cudaDeviceProp :=
  {| multiProcessorCount := sms; major := cc |}.


(** The three ways a member function can fail to return. *)
Inductive failure : Type := failed_assert | failed_exit | failed_undefined.

(** [wp m Q F w]: run from [w], [m] returns a result and a world that
    satisfy [Q], or it fails in a way [F] allows. *)
Definition wp {T A} (m : @M T A) (Q : A -> @World T -> Prop) (F : failure -> Prop)
    (w : @World T) : Prop :=
  match m w with
  | Ok a w' => Q a w'
  | AssertionFailed => F failed_assert
  | ExitFailure => F failed_exit
  | Undefined => F failed_undefined
  end.

(** Any failure is allowed: only what holds on return matters. *)
Definition any_failure : failure -> Prop := fun _ => True.

(** The function must return. *)
Definition no_failure : failure -> Prop := fun _ => False.

(** The world after one more logged call. *)
Definition logged {T} (c : @Call T) (w : @World T) : @World T :=
  set_trace (trace w ++ [c]) w.

(** The size [glGetBufferParameteriv] reports for buffer object [b]. *)
Definition observed_size {T} (w : @World T) (b : Z) : Z :=
  match gl_buffers w !! b with
  | Some (Some store) =>
      match memory w !! store with
      | Some d => to_int32 (Z.of_nat (length d))
      | None => 0
      end
  | _ => 0
  end.

Definition pbo_download_warning {T} : @Call T :=
  fprintf_stderr_ "WARNING: Pixel Buffer Object download failed!n".

Section Statements.

Context {T : Type} {ST : Scalar T}.

#[local] Abbreviation World := (@World T).
#[local] Abbreviation System := (@BodySystemCUDA T).

(** What [setArray] has done when it returns. *)
Definition setArray_effect (array : BodyArray) (data : Z) (s : System) (w w' : World)
    : Prop :=
  let n := m_numBodies s in
  match array, m_bUsePBO s, m_bUseSysMem s with
  | BODYSYSTEM_POSITION, true, _ =>
      let b := fst (m_pbo s) in
      trace w' = trace w
        ++ [glBindBuffer_ b; glBufferSubData_ 0 (buffer_bytes n) data;
            glGetBufferParameteriv_]
        ++ (if wrap32 (observed_size w b) =? wrap64 (4 * wrap64 (sizeof * n))
            then [] else [pbo_download_warning])
        ++ [glBindBuffer_ 0] /\
      (memory w' = memory w \/
       exists store, gl_buffers w !! b = Some (Some store) /\
                     copy_block store data (buffer_bytes n) (memory w) = Some (memory w'))
  | BODYSYSTEM_POSITION, false, true =>
      trace w' = trace w ++ [memcpy_ (fst (m_hPos s)) data (array_bytes n)] /\
      copy_block (fst (m_hPos s)) data (array_bytes n) (memory w) = Some (memory w')
  | BODYSYSTEM_POSITION, false, false =>
      exists d0, m_deviceData s !! 0%nat = Some d0 /\
        trace w' = trace w
          ++ [cudaMemcpy_ (fst (dPos d0)) data (array_bytes n) cudaMemcpyHostToDevice] /\
        copy_block (fst (dPos d0)) data (array_bytes n) (memory w) = Some (memory w')
  | BODYSYSTEM_VELOCITY, _, true =>
      trace w' = trace w ++ [memcpy_ (m_hVel s) data (array_bytes n)] /\
      copy_block (m_hVel s) data (array_bytes n) (memory w) = Some (memory w')
  | BODYSYSTEM_VELOCITY, _, false =>
      exists d0, m_deviceData s !! 0%nat = Some d0 /\
        trace w' = trace w
          ++ [cudaMemcpy_ (dVel d0) data (array_bytes n) cudaMemcpyHostToDevice] /\
        copy_block (dVel d0) data (array_bytes n) (memory w) = Some (memory w')
  end.

(** What [getArray(BODYSYSTEM_POSITION)] has done when it returns [p]. *)
Definition getArray_position_effect (s : System) (w : World) (p : Z) (w' : World)
    : Prop :=
  let n := m_numBodies s in
  let r := m_currentRead s in
  idx2 (m_hPos s) (if m_bUseSysMem s then r else 0) = Some p /\
  if m_bUseSysMem s then w' = w
  else
    exists d0 ddata,
      m_deviceData s !! 0%nat = Some d0 /\ idx2 (dPos d0) r = Some ddata /\
      let plain :=
        trace w' = trace w ++ [cudaMemcpy_ p ddata (array_bytes n) cudaMemcpyDeviceToHost] /\
        copy_block p ddata (array_bytes n) (memory w) = Some (memory w') in
      if m_bUsePBO s
      then
        exists pgres, idx2 (m_pGRes s) r = Some pgres /\
          if pgres =? NULL then plain
          else
            exists b f store,
              resources w !! pgres = Some (b, f, false) /\
              gl_buffers w !! b = Some (Some store) /\
              trace w' = trace w
                ++ [cudaGraphicsResourceSetMapFlags_ pgres cudaGraphicsMapFlagsReadOnly;
                    cudaGraphicsMapResources_ pgres;
                    cudaGraphicsResourceGetMappedPointer_ pgres;
                    cudaMemcpy_ p store (array_bytes n) cudaMemcpyDeviceToHost;
                    cudaGraphicsUnmapResources_ pgres] /\
              copy_block p store (array_bytes n) (memory w) = Some (memory w') /\
              resources w' !! pgres = Some (b, cudaGraphicsMapFlagsReadOnly, false)
      else plain.

(** Block [p] is live and has at least [size] bytes. *)
Definition holds (m : gmap Z (list Byte.byte)) (p size : Z) : Prop :=
  exists b, m !! p = Some b /\ size <= Z.of_nat (length b).

(** Block [p] is live and begins with the bytes [X]. *)
Definition begins_with (m : gmap Z (list Byte.byte)) (p : Z) (X : list Byte.byte) : Prop :=
  exists b, m !! p = Some b /\ take (length X) b = X.

(** Render buffer [b], registered as resource [r] and not mapped, has a data
    store of at least [size] bytes. *)
Definition render_buffer (w : World) (b r size : Z) : Prop :=
  r <> NULL /\
  exists f store,
    resources w !! r = Some (b, f, false) /\
    gl_buffers w !! b = Some (Some store) /\ holds (memory w) store size.

(** An initialised system in memory mode [mode]: the flag is set, the two
    indices are 0 and 1, there is a device, and the position buffers of the
    mode hold the [bodyCount * 4 * sizeof(T)] bytes of an array. *)
Definition Initialized (mode : MemoryMode) (s : System) (w : World) : Prop :=
  let size := m_numBodies s * 4 * sizeof in
  m_bInitialized s = true /\
  (m_bUsePBO s, m_bUseSysMem s) = mode_flags mode /\
  0 <= m_numBodies s < 2 ^ 30 /\
  ((m_currentRead s = 0 /\ m_currentWrite s = 1) \/
   (m_currentRead s = 1 /\ m_currentWrite s = 0)) /\
  holds (memory w) (fst (m_hPos s)) size /\
  exists d0, m_deviceData s !! 0%nat = Some d0 /\
    match mode with
    | HostMapped => holds (memory w) (snd (m_hPos s)) size
    | DeviceLocal =>
        holds (memory w) (fst (dPos d0)) size /\ holds (memory w) (snd (dPos d0)) size
    | RenderShared =>
        render_buffer w (fst (m_pbo s)) (fst (m_pGRes s)) size /\
        render_buffer w (snd (m_pbo s)) (snd (m_pGRes s)) size
    end.

(** The stores of two worlds agree: memory, buffer objects, resources. *)
Definition same_stores (w w' : World) : Prop :=
  memory w' = memory w /\ gl_buffers w' = gl_buffers w /\ resources w' = resources w.

(** The parts of the object that only the constructor and the setters
    choose. *)
Definition same_config (s s' : System) : Prop :=
  m_numDevices s' = m_numDevices s /\ m_bUsePBO s' = m_bUsePBO s /\
  m_bUseSysMem s' = m_bUseSysMem s /\ m_bUseP2P s' = m_bUseP2P s /\
  m_currentRead s' = m_currentRead s /\ m_currentWrite s' = m_currentWrite s /\
  m_blockSize s' = m_blockSize s /\ m_devID s' = m_devID s /\
  m_damping s' = m_damping s.

End Statements.

(** *** Sample runs, in single precision *)

(** The caller's array of one body: sixteen bytes at address 1000. *)
Definition sample_array : list Byte.byte :=
  [Byte.x01; Byte.x02; Byte.x03; Byte.x04; Byte.x05; Byte.x06; Byte.x07; Byte.x08;
   Byte.x09; Byte.x0a; Byte.x0b; Byte.x0c; Byte.x0d; Byte.x0e; Byte.x0f; Byte.x10].

Definition sample_world : @World Float32.float :=
  set_memory {[1000 := sample_array]} (empty_world [gpu 16 3; gpu 16 3]).

(** The system the constructor builds in [sample_world] for one body on
    [numDevices] devices, and the world it leaves. *)
Definition sample_system (mode : MemoryMode) (numDevices : Z)
    : @BodySystemCUDA Float32.float * @World Float32.float :=
  match BodySystemCUDA_new 1 numDevices 256 (fst (mode_flags mode))
          (snd (mode_flags mode)) false 0 sample_world with
  | Ok s w => (s, w)
  | _ => (BodySystemCUDA_members 1 numDevices 256 false false false 0, sample_world)
  end.

Definition is_glBufferSubData {T} (c : @Call T) : bool :=
  match c with
  | glBufferSubData_ _ _ _ => true
  | _ => false
  end.

(** ** Definitions for the further properties *)

(** *** [loadTipsyFile] *)

Section TipsyFile.

Context {T : Type} {ST : Scalar T}.

(** [read_tipsy_file] of [tipsy.h] is outside the class.  The model takes
    from it what the class uses: the addresses [&positions[0]] and
    [&velocities[0]] of the storage of the two vectors it fills, the storage
    of the vector [ids], and [nBodies].  A vector that stays empty has no
    storage: its address is [NULL]. *)
Variable read_tipsy_file : string -> @M T (Z * Z * Z * Z).

(** The destructor of a local [std::vector]: its storage is released. *)
Definition vector_delete (storage : Z) : @M T unit :=
  if storage =? NULL then ret tt
  else fun w => match memory w !! storage with
                | Some _ => Ok tt (set_memory (delete storage (memory w)) w)
                | None => Undefined
                end.

Definition loadTipsyFile (filename : string) (this : BodySystemCUDA)
    : @M T BodySystemCUDA :=
  do this <- (if m_bInitialized this then _finalize this else ret this);
  do (positions, velocities, ids, nBodies) <- read_tipsy_file filename;
  do this <- _initialize nBodies this;
  do this <- setArray BODYSYSTEM_POSITION positions this;
  do this <- setArray BODYSYSTEM_VELOCITY velocities this;
  (* [ids], [velocities] and [positions] go out of scope *)
  vector_delete ids;;
  vector_delete velocities;;
  vector_delete positions;;
  ret this.

End TipsyFile.

(** *** The buffers a system owns *)

Section Ownership.

Context {T : Type} {ST : Scalar T}.

#[local] Abbreviation World := (@World T).
#[local] Abbreviation System := (@BodySystemCUDA T).

(** Handles not handed out yet name nothing. *)
Definition fresh_world (w : World) : Prop :=
  forall k, Z.pos (next_handle w) <= k ->
    memory w !! k = None /\ gl_buffers w !! k = None /\ resources w !! k = None.

(** The data store of buffer object [b]. *)
Definition store_of (w : World) (b : Z) : Z :=
  match gl_buffers w !! b with
  | Some (Some store) => store
  | _ => NULL
  end.

(** [m_deviceData[0]]. *)
Definition device0 (s : System) : DeviceData :=
  default DeviceData_new (m_deviceData s !! 0%nat).

(** The memory blocks [_initialize] acquires in each mode, in the order in
    which [_finalize] releases them. *)
Definition own_blocks (mode : MemoryMode) (s : System) (w : World) : list Z :=
  match mode with
  | HostMapped => [fst (m_hPos s); snd (m_hPos s); m_hVel s]
  | DeviceLocal =>
      [fst (m_hPos s); m_hVel s; dVel (device0 s);
       fst (dPos (device0 s)); snd (dPos (device0 s))]
  | RenderShared =>
      [fst (m_hPos s); m_hVel s; dVel (device0 s);
       store_of w (fst (m_pbo s)); store_of w (snd (m_pbo s))]
  end.

(** The buffer objects and interop resources it acquires. *)
Definition own_buffers (mode : MemoryMode) (s : System) : list Z :=
  match mode with
  | RenderShared => [fst (m_pbo s); snd (m_pbo s)]
  | _ => []
  end.

Definition own_resources (mode : MemoryMode) (s : System) : list Z :=
  match mode with
  | RenderShared => [fst (m_pGRes s); snd (m_pGRes s)]
  | _ => []
  end.

(** A system as [_initialize] builds it in mode [mode]: initialised, with
    one array element per device, and with its own blocks distinct, not
    null, live and large enough for an array of [bodyCount * 4 * sizeof(T)]
    bytes.  With [m_bUseSysMem] device 0 sees the host buffers at their own
    addresses; without, [m_hPos[1]] is null; with [m_bUsePBO] the two buffer
    objects are registered, not mapped, and have their data stores. *)
Definition Constructed (mode : MemoryMode) (s : System) (w : World) : Prop :=
  let size := m_numBodies s * 4 * sizeof in
  m_bInitialized s = true /\
  (m_bUsePBO s, m_bUseSysMem s) = mode_flags mode /\
  0 <= m_numBodies s < 2 ^ 30 /\
  ((m_currentRead s = 0 /\ m_currentWrite s = 1) \/
   (m_currentRead s = 1 /\ m_currentWrite s = 0)) /\
  (0 < length (m_deviceData s))%nat /\
  length (m_deviceData s) = Z.to_nat (m_numDevices s) /\
  NoDup (own_blocks mode s w) /\
  Forall (fun p => p <> NULL /\ holds (memory w) p size) (own_blocks mode s w) /\
  match mode with
  | HostMapped => dPos (device0 s) = m_hPos s /\ dVel (device0 s) = m_hVel s
  | DeviceLocal => snd (m_hPos s) = NULL
  | RenderShared =>
      snd (m_hPos s) = NULL /\
      fst (m_pbo s) <> snd (m_pbo s) /\
      fst (m_pGRes s) <> snd (m_pGRes s) /\
      fst (m_pGRes s) <> NULL /\ snd (m_pGRes s) <> NULL /\
      (exists f0 st0, resources w !! fst (m_pGRes s) = Some (fst (m_pbo s), f0, false) /\
                      gl_buffers w !! fst (m_pbo s) = Some (Some st0)) /\
      (exists f1 st1, resources w !! snd (m_pGRes s) = Some (snd (m_pbo s), f1, false) /\
                      gl_buffers w !! snd (m_pbo s) = Some (Some st1))
  end.

(** What the system in world [w] has acquired since world [w0]: its blocks,
    buffer objects and resources were not there, and nothing else has
    changed in the three stores. *)
Definition built_from (mode : MemoryMode) (w0 : World) (s : System) (w : World) : Prop :=
  (forall q, q ∈ own_blocks mode s w -> memory w0 !! q = None) /\
  (forall q, q ∉ own_blocks mode s w -> memory w !! q = memory w0 !! q) /\
  (forall b, b ∈ own_buffers mode s -> gl_buffers w0 !! b = None) /\
  (forall b, b ∉ own_buffers mode s -> gl_buffers w !! b = gl_buffers w0 !! b) /\
  (forall r, r ∈ own_resources mode s -> resources w0 !! r = None) /\
  (forall r, r ∉ own_resources mode s -> resources w !! r = resources w0 !! r).

(** What [_finalize] leaves of world [w] in [w']: the blocks, buffer objects
    and resources of the system are gone and nothing else has changed. *)
Definition released (mode : MemoryMode) (s : System) (w w' : World) : Prop :=
  (forall q, memory w' !! q =
             if bool_decide (q ∈ own_blocks mode s w) then None else memory w !! q) /\
  (forall b, gl_buffers w' !! b =
             if bool_decide (b ∈ own_buffers mode s) then None else gl_buffers w !! b) /\
  (forall r, resources w' !! r =
             if bool_decide (r ∈ own_resources mode s) then None else resources w !! r).

(** The block [setArray] writes, by array and mode, and the block
    [getArray] returns. *)
Definition write_target (mode : MemoryMode) (array : BodyArray) (s : System) (w : World)
    : Z :=
  match array, mode with
  | BODYSYSTEM_POSITION, DeviceLocal => fst (dPos (device0 s))
  | BODYSYSTEM_POSITION, HostMapped => fst (m_hPos s)
  | BODYSYSTEM_POSITION, RenderShared => store_of w (fst (m_pbo s))
  | BODYSYSTEM_VELOCITY, HostMapped => m_hVel s
  | BODYSYSTEM_VELOCITY, _ => dVel (device0 s)
  end.

Definition host_buffer (mode : MemoryMode) (array : BodyArray) (s : System) : Z :=
  match array, mode with
  | BODYSYSTEM_POSITION, HostMapped =>
      if m_currentRead s =? 0 then fst (m_hPos s) else snd (m_hPos s)
  | BODYSYSTEM_POSITION, _ => fst (m_hPos s)
  | BODYSYSTEM_VELOCITY, _ => m_hVel s
  end.

(** The block [getArray] copies from, outside the [m_bUseSysMem] mode. *)
Definition read_source (mode : MemoryMode) (array : BodyArray) (s : System) (w : World)
    : Z :=
  let at_read (a : Z * Z) := if m_currentRead s =? 0 then fst a else snd a in
  match array, mode with
  | BODYSYSTEM_POSITION, RenderShared => store_of w (at_read (m_pbo s))
  | BODYSYSTEM_POSITION, _ => at_read (dPos (device0 s))
  | BODYSYSTEM_VELOCITY, _ => dVel (device0 s)
  end.

(** *** Events in a trace *)

Definition created_events (t : list (@Call T)) : list Z :=
  omap (fun c => match c with cudaEventCreate_ e => Some e | _ => None end) t.

Definition destroyed_events (t : list (@Call T)) : list Z :=
  omap (fun c => match c with cudaEventDestroy_ e => Some e | _ => None end) t.

(** The events of the devices for which [_initialize] creates one: all of
    them with [m_bUseSysMem] or [m_bUseP2P], device 0 alone otherwise. *)
Definition device_events (s : System) : list Z :=
  if m_bUseSysMem s || m_bUseP2P s then map event (m_deviceData s)
  else map event (take 1 (m_deviceData s)).

End Ownership.

(** A world with two caller arrays of one body each, at addresses 1 and 2,
    where handles are handed out from 1000 on. *)
Definition sample_velocity : list Byte.byte :=
  [Byte.x11; Byte.x12; Byte.x13; Byte.x14; Byte.x15; Byte.x16; Byte.x17; Byte.x18;
   Byte.x19; Byte.x1a; Byte.x1b; Byte.x1c; Byte.x1d; Byte.x1e; Byte.x1f; Byte.x20].

Definition staged_world : @World Float32.float :=
  set_next_handle 1000 (set_memory {[1 := sample_array; 2 := sample_velocity]}
                          (empty_world [gpu 16 3; gpu 16 3])).

(** The system the constructor builds in [staged_world]. *)
Definition staged_system (mode : MemoryMode) (numDevices : Z) (useP2P : bool)
    : @BodySystemCUDA Float32.float * @World Float32.float :=
  match BodySystemCUDA_new 1 numDevices 256 (fst (mode_flags mode))
          (snd (mode_flags mode)) useP2P 0 staged_world with
  | Ok s w => (s, w)
  | _ => (BodySystemCUDA_members 1 numDevices 256 false false false 0, staged_world)
  end.

(** A reader that finds one body: the two arrays of [staged_world] moved
    into vectors, and no identifiers. *)
Definition sample_reader : string -> @M Float32.float (Z * Z * Z * Z) :=
  fun _ => ret (1, 2, NULL, 1).

(** A system with [useSysMem] for 2^28 bodies on one device, as the
    constructor builds it in [staged_world]: an array of 2^28 bodies in single
    precision takes 2^32 bytes. *)
Definition large_system : @BodySystemCUDA Float32.float * @World Float32.float :=
  match BodySystemCUDA_new (2 ^ 28) 1 256 false true false 0 staged_world with
  | Ok s w => (s, w)
  | _ => (BodySystemCUDA_members (2 ^ 28) 1 256 false true false 0, staged_world)
  end.

(** A system for 2^30 bodies on one device, in device memory, as the
    constructor builds it in [sample_world]: the 32-bit products
    [m_numBodies * 4] and [sizeof(T) * 4 * numBodies] are both 0. *)
Definition wrapped_system : @BodySystemCUDA Float32.float * @World Float32.float :=
  match BodySystemCUDA_new (2 ^ 30) 1 256 false false false 0 sample_world with
  | Ok s w => (s, w)
  | _ => (BodySystemCUDA_members (2 ^ 30) 1 256 false false false 0, sample_world)
  end.
(** * Properties *)

(** ** Machine arithmetic *)

#[global] Arguments wrap32 : simpl never.
#[global] Arguments wrap64 : simpl never.
#[global] Arguments round_up : simpl never.

Lemma wrap32_range z : 0 <= wrap32 z < 2 ^ 32.
Proof. unfold wrap32. apply Z.mod_pos_bound. lia. Qed.

Lemma wrap32_small z : 0 <= z < 2 ^ 32 -> wrap32 z = z.
Proof. unfold wrap32. intros. apply Z.mod_small. lia. Qed.

Lemma wrap64_small z : 0 <= z < 2 ^ 64 -> wrap64 z = z.
Proof. unfold wrap64. intros. apply Z.mod_small. lia. Qed.

Lemma round_up_nonneg c : 0 <= round_up c.
Proof. unfold round_up. apply wrap32_range. Qed.

(** Up to the last multiple of 256 that fits in 32 bits, [round_up] is the
    least multiple of 256 that is not smaller. *)
Lemma round_up_multiple c :
  0 <= c <= 2 ^ 32 - 256 ->
  round_up c = 256 * ((c + 255) / 256) /\ c <= round_up c < c + 256 /\ round_up c mod 256 = 0.
Proof.
  intros Hc. unfold round_up.
  replace (wrap32 (wrap32 (c + 256) - 1)) with (wrap32 (c + 255))
    by (unfold wrap32; rewrite Zminus_mod_idemp_l; f_equal; lia).
  rewrite (wrap32_small (c + 255)) by lia.
  pose proof (Z.div_mod (c + 255) 256 ltac:(lia)) as Hdm.
  pose proof (Z.mod_pos_bound (c + 255) 256 ltac:(lia)) as Hm.
  rewrite wrap32_small by lia.
  split; [reflexivity|]. split; [lia|].
  rewrite Z.mul_comm. apply Z.mod_mul. lia.
Qed.

(** ** The partitioner *)

Lemma partition_loop_length n nd shares i off rem :
  length (partition_loop n nd shares i off rem) = length shares.
Proof.
  revert i off rem. induction shares as [|c cs IH]; intros; simpl; [reflexivity|].
  now rewrite IH.
Qed.

Lemma sum_counts_cons o c table : sum_counts ((o, c) :: table) = c + sum_counts table.
Proof. reflexivity. Qed.

Section PartitionLoop.

Variables n nd : Z.
Hypothesis n_range : 0 <= n < 2 ^ 32.
Hypothesis nd_range : 0 <= nd < 2 ^ 32.

(** One round of the loop keeps [offset + remaining = n] and stays inside
    32 bits. *)
Lemma loop_step c off rem :
  0 <= off -> 0 <= rem -> off + rem = n ->
  let k := if rem <? round_up c then rem else round_up c in
  k = Z.min (round_up c) rem /\ 0 <= k <= rem /\
  wrap32 (rem - k) = rem - k /\ wrap32 (off + k) = off + k.
Proof.
  intros Hoff Hrem Hsum k. pose proof (round_up_nonneg c) as Hc.
  assert (Hk : k = Z.min (round_up c) rem)
    by (unfold k; destruct (Z.ltb_spec rem (round_up c)); lia).
  split; [exact Hk|]. split; [lia|].
  split; apply wrap32_small; lia.
Qed.

(** A slot starts where the slots before it end.  It holds its rounded
    share capped by what remains; only the last slot can hold more, and
    then the table ends exactly at [n]. *)
Lemma partition_loop_slot shares i off rem k o cnt :
  0 <= off -> 0 <= rem -> off + rem = n ->
  0 <= i -> i + Z.of_nat (length shares) = nd ->
  partition_loop n nd shares i off rem !! k = Some (o, cnt) ->
  exists s, shares !! k = Some s /\
    o = off + sum_counts (take k (partition_loop n nd shares i off rem)) /\
    (cnt = Z.min (round_up s) (n - o) \/
     ((k + 1)%nat = length shares /\ Z.min (round_up s) (n - o) < cnt /\ o + cnt = n)).
Proof.
  revert i off rem k.
  induction shares as [|c cs IH]; intros i off rem k Hoff Hrem Hsum Hi Hnd Hl.
  - discriminate.
  - cbn [partition_loop] in Hl |- *.
    destruct (loop_step c off rem Hoff Hrem Hsum) as (Hmin & Hkr & Hw1 & Hw2).
    rewrite Hw1, Hw2 in Hl |- *.
    set (cn := if rem <? round_up c then rem else round_up c) in *.
    cbn [length] in Hnd.
    destruct k as [|k'].
    + cbn in Hl. exists c. split; [reflexivity|].
      cbn [take]. change (sum_counts []) with 0.
      destruct ((i =? wrap32 (nd - 1)) && (off + cn <? wrap32 (n - 1))) eqn:Hb.
      * apply andb_true_iff in Hb as [Hlast Hlt].
        apply Z.eqb_eq in Hlast. apply Z.ltb_lt in Hlt.
        rewrite wrap32_small in Hlast by lia.
        assert (Hcs : length cs = 0%nat) by lia.
        pose proof (wrap32_range (n - 1)).
        rewrite (wrap32_small (n - (off + cn))) in Hl by lia.
        rewrite wrap32_small in Hl by lia.
        inversion Hl; subst o cnt. split; [lia|].
        destruct (Z.eq_dec n 0) as [Hn0 | Hn0].
        -- left. lia.
        -- rewrite wrap32_small in Hlt by lia. right. cbn [length]. lia.
      * inversion Hl; subst o cnt. split; [lia|]. left. lia.
    + cbn [lookup list_lookup] in Hl.
      assert (Hlen : (k' < length cs)%nat).
      { apply lookup_lt_Some in Hl. now rewrite partition_loop_length in Hl. }
      replace (i =? wrap32 (nd - 1)) with false
        by (symmetry; apply Z.eqb_neq; rewrite wrap32_small by lia; lia).
      cbn [andb take]. rewrite sum_counts_cons.
      destruct (IH (i + 1) (off + cn) (rem - cn) k') as (s & Hs & Ho & Hc); try lia; try exact Hl.
      exists s. split; [exact Hs|]. split; [lia|].
      destruct Hc as [Hc | (Hk & Hc1 & Hc2)]; [left; exact Hc|].
      right. cbn [length]. split; [lia|]. split; assumption.
Qed.

(** The table never hands out more than is left, and misses at most one
    body. *)
Lemma partition_loop_sum shares i off rem :
  0 <= off -> 0 <= rem -> off + rem = n ->
  0 <= i -> i + Z.of_nat (length shares) = nd ->
  shares <> [] ->
  sum_counts (partition_loop n nd shares i off rem) = rem \/
  sum_counts (partition_loop n nd shares i off rem) = rem - 1.
Proof.
  revert i off rem. induction shares as [|c cs IH]; intros i off rem Hoff Hrem Hsum Hi Hnd Hne.
  - congruence.
  - cbn [partition_loop].
    destruct (loop_step c off rem Hoff Hrem Hsum) as (Hmin & Hkr & Hw1 & Hw2).
    rewrite Hw1, Hw2.
    set (cn := if rem <? round_up c then rem else round_up c) in *.
    cbn [length] in Hnd.
    destruct (decide (cs = [])) as [-> | Hcs].
    + cbn [length] in Hnd.
      replace (i =? wrap32 (nd - 1)) with true
        by (symmetry; apply Z.eqb_eq; rewrite wrap32_small by lia; lia).
      cbn [partition_loop andb sum_counts slot_counts map foldr snd].
      destruct (off + cn <? wrap32 (n - 1)) eqn:Hlt.
      * apply Z.ltb_lt in Hlt. pose proof (wrap32_range (n - 1)).
        rewrite (wrap32_small (n - (off + cn))) by lia.
        rewrite wrap32_small by lia. left. lia.
      * apply Z.ltb_ge in Hlt.
        assert (1 <= n).
        { destruct (Z.eq_dec n 0) as [->|]; [|lia].
          change (wrap32 (0 - 1)) with 4294967295 in Hlt. lia. }
        rewrite wrap32_small in Hlt by lia. lia.
    + assert (0 < Z.of_nat (length cs)) by (destruct cs; [congruence | cbn [length]; lia]).
      replace (i =? wrap32 (nd - 1)) with false
        by (symmetry; apply Z.eqb_neq; rewrite wrap32_small by lia; lia).
      cbn [andb]. rewrite sum_counts_cons.
      destruct (IH (i + 1) (off + cn) (rem - cn)) as [H' | H']; try lia; assumption.
Qed.

End PartitionLoop.

(** With no bodies, no slot gets any. *)
Lemma partition_loop_no_bodies nd shares i :
  partition_loop 0 nd shares i 0 0 = map (fun _ => (0, 0)) shares.
Proof.
  revert i. induction shares as [|c cs IH]; intros i; cbn [partition_loop map]; [reflexivity|].
  pose proof (round_up_nonneg c).
  assert (Hk : (if 0 <? round_up c then 0 else round_up c) = 0)
    by (destruct (Z.ltb_spec 0 (round_up c)); lia).
  rewrite Hk. change (wrap32 (0 - 0)) with 0. change (wrap32 (0 + 0)) with 0.
  rewrite IH. f_equal.
  destruct ((i =? wrap32 (nd - 1)) && (0 <? wrap32 (0 - 1))); reflexivity.
Qed.

(** C1. The last-device test [offset < m_numBodies - 1] leaves one body
    out when exactly one is left over: with one body and two equal devices
    both truncated shares are 0, so no slot holds the body and the counts
    sum to 0; with 257 bodies and weights 300 and 1 the slots hold 256 and
    0.  Otherwise the counts sum to the body count ([partition_loop_sum]). *)
Theorem C1_last_body_dropped :
  partition_devices [gpu 16 3; gpu 16 3] 1 = [(0, 0); (0, 0)] /\
  sum_counts (partition_devices [gpu 16 3; gpu 16 3] 1) <> 1 /\
  partition_devices [gpu 75 3; gpu 1 1] 257 = [(0, 256); (256, 0)] /\
  sum_counts (partition_devices [gpu 75 3; gpu 1 1] 257) <> 257.
Proof. vm_compute. repeat split; discriminate. Qed.

(** C3 (amended).  The weight of a device is its multiprocessor count times 4
    from compute capability 2 on and times 1 below.  Every slot starts at the
    sum of the counts before it.  Every slot but the last holds the
    single-precision proportional share, truncated to an integer, rounded
    up to a multiple of 256 and capped by the bodies still unassigned; the
    last slot holds that or, topped up, ends the table at the body count.
    With 1024 bodies and weights 4 and 1, device 0 gets all 1024 bodies and
    device 1 none. *)
Theorem C3_partition_shares (devs : list cudaDeviceProp) (n : Z) :
  0 <= n < 2 ^ 32 ->
  Z.of_nat (length devs) < 2 ^ 32 ->
  (forall k o cnt,
     partition_devices devs n !! k = Some (o, cnt) ->
     exists d s,
       devs !! k = Some d /\
       weight d = Float32.mul (Float32.of_Z (multiProcessorCount d))
                    (Float32.of_Z (if 2 <=? major d then 4 else 1)) /\
       s = share (weight d) (total_weight (map weight devs)) n /\
       (s <= 2 ^ 32 - 256 -> round_up s = 256 * ((s + 255) / 256)) /\
       o = sum_counts (take k (partition_devices devs n)) /\
       ((k + 1 < length devs)%nat -> cnt = Z.min (round_up s) (n - o)) /\
       (cnt = Z.min (round_up s) (n - o) \/
        (Z.min (round_up s) (n - o) < cnt /\ o + cnt = n))) /\
  (n = 1024 -> map weight devs = [Float32.of_Z 4; Float32.of_Z 1] ->
   partition_devices devs n = [(0, 1024); (1024, 0)]).
Proof.
  intros Hn Hlen. split.
  - intros k o cnt Hl. unfold partition_devices, partition_weights in Hl |- *.
    set (ws := map weight devs) in *.
    set (shares := map (fun w => share w (total_weight ws) n) ws) in *.
    assert (Hlw : length ws = length devs) by (unfold ws; now rewrite length_map).
    assert (Hls : length shares = length devs) by (unfold shares; now rewrite length_map).
    destruct (partition_loop_slot n (Z.of_nat (length ws)) Hn ltac:(lia)
                shares 0 0 n k o cnt) as (s & Hs & Ho & Hc); try lia; try exact Hl.
    unfold shares in Hs. rewrite list_lookup_fmap in Hs.
    unfold ws in Hs at 2. rewrite list_lookup_fmap in Hs.
    destruct (devs !! k) as [d|] eqn:Hd; [|discriminate].
    cbn in Hs. inversion Hs as [Hs']. clear Hs.
    exists d, s. split; [reflexivity|].
    split; [unfold weight; now destruct (2 <=? major d)|].
    split; [symmetry; exact Hs'|].
    split.
    { intros Hsmall. apply round_up_multiple. split; [|exact Hsmall].
      rewrite <- Hs'. unfold share. apply wrap32_range. }
    split; [lia|].
    split.
    + intros Hk. destruct Hc as [Hc | (Hk' & _)]; [exact Hc | lia].
    + destruct Hc as [Hc | (_ & Hc)]; [left | right]; assumption.
  - intros -> Hw. unfold partition_devices. rewrite Hw. vm_compute. reflexivity.
Qed.

Lemma C3_partition_shares_witness :
  partition_devices [gpu 1 2; gpu 1 1] 1024 = [(0, 1024); (1024, 0)].
Proof.
  apply (C3_partition_shares [gpu 1 2; gpu 1 1] 1024); [lia | simpl; lia | reflexivity | reflexivity].
Defined.

(** C3, as stated, fails: with two bodies on four equal devices every
    truncated share is 0, yet the last slot holds both bodies, where the
    stated rule gives it none; and the exact share 1/2, rounded up to 256 and
    capped, would give both bodies to the first slot, which the code leaves
    empty. *)
Lemma C3_counterexample :
  let devs := [gpu 1 2; gpu 1 2; gpu 1 2; gpu 1 2] in
  let ws := map weight devs in
  slot_counts (partition_devices devs 2) = [0; 0; 0; 2] /\
  slot_counts (partition_devices devs 2)
    <> claimed_counts (map (fun w => share w (total_weight ws) 2) ws) 2 /\
  slot_counts (partition_devices devs 2) <> claimed_counts_exact 2 16 [4; 4; 4; 4] 2.
Proof. vm_compute. repeat split; discriminate. Qed.

(** ** The monad of member functions *)

#[global] Arguments to_int32 : simpl never.
#[global] Arguments copy_block : simpl never.
#[global] Arguments fill_block : simpl never.

Section MonadLaws.

Context {T : Type}.

#[local] Abbreviation M := (@M T).
Implicit Types w : @World T.
Implicit Types F : failure -> Prop.

Lemma bind_Ok {A B} (m : M A) (k : A -> M B) w a w1 :
  m w = Ok a w1 -> bind m k w = k a w1.
Proof. unfold bind. now intros ->. Qed.

Lemma bind_Ok_inv {A B} (m : M A) (k : A -> M B) w b w' :
  bind m k w = Ok b w' -> exists a w1, m w = Ok a w1 /\ k a w1 = Ok b w'.
Proof. unfold bind. destruct (m w) as [a w1| | |]; try discriminate. eauto. Qed.

Lemma wp_Ok {A} (m : M A) Q F w a w' : wp m Q F w -> m w = Ok a w' -> Q a w'.
Proof. unfold wp. intros H E. now rewrite E in H. Qed.

Lemma wp_returns {A} (m : M A) Q w :
  wp m Q no_failure w -> exists a w', m w = Ok a w' /\ Q a w'.
Proof. unfold wp, no_failure. destruct (m w); [eauto | tauto..]. Qed.

Lemma wp_mono {A} (m : M A) (Q Q' : A -> World -> Prop) F w :
  wp m Q F w -> (forall a w', Q a w' -> Q' a w') -> wp m Q' F w.
Proof. unfold wp. destruct (m w); auto. Qed.

Lemma wp_ret {A} (a : A) Q F w : Q a w -> wp (ret a) Q F w.
Proof. auto. Qed.

Lemma wp_bind {A B} (m : M A) (k : A -> M B) Q F w :
  wp m (fun a => wp (k a) Q F) F w -> wp (bind m k) Q F w.
Proof. unfold wp, bind. destruct (m w); auto. Qed.

(** A step whose result and world do not matter. *)
Lemma wp_any {A} (m : M A) Q w :
  (forall a w', Q a w') -> wp m Q any_failure w.
Proof. unfold wp, any_failure. destruct (m w); auto. Qed.

Lemma wp_assert b Q F w :
  (b = true -> Q tt w) -> (b = false -> F failed_assert) -> wp (assert b) Q F w.
Proof. unfold wp, assert. destruct b; auto. Qed.

Lemma wp_checkCudaErrors e Q F w :
  (e = cudaSuccess -> Q tt w) -> (e <> cudaSuccess -> F failed_exit) ->
  wp (checkCudaErrors e) Q F w.
Proof. unfold wp, checkCudaErrors. destruct (decide _); auto. Qed.

Lemma wp_defined {A} (o : option A) Q F w :
  (forall a, o = Some a -> Q a w) -> (o = None -> F failed_undefined) ->
  wp (defined o) Q F w.
Proof. unfold wp, defined. destruct o; auto. Qed.

Lemma wp_log c Q F w : Q tt (logged c w) -> wp (log c) Q F w.
Proof. auto. Qed.

Lemma wp_weaken {A} (m : M A) Q (F F' : failure -> Prop) w :
  wp m Q F w -> (forall f, F f -> F' f) -> wp m Q F' w.
Proof. unfold wp. destruct (m w); auto. Qed.

Lemma wp_cudaSetDevice device Q F w :
  let w1 := logged (cudaSetDevice_ device) w in
  (0 <= device < Z.of_nat (length (devices w)) ->
   Q cudaSuccess (set_current_device device w1)) ->
  (~ 0 <= device < Z.of_nat (length (devices w)) -> Q cudaErrorInvalidDevice w1) ->
  wp (cudaSetDevice device) Q F w.
Proof.
  intros w1 HQ HE. unfold wp, cudaSetDevice, bind, log. simpl.
  destruct (Z.leb_spec 0 device), (Z.ltb_spec device (Z.of_nat (length (devices w))));
    cbn; first [apply HQ; lia | apply HE; lia].
Qed.

(** *** Allocation *)

Lemma wp_fresh Q F w :
  Q (Zpos (next_handle w)) (set_next_handle (Pos.succ (next_handle w)) w) ->
  wp fresh Q F w.
Proof. auto. Qed.

Lemma wp_alloc size Q F w :
  Q (Zpos (next_handle w))
    (set_memory (<[Zpos (next_handle w) := replicate (Z.to_nat size) Byte.x00]> (memory w))
       (set_next_handle (Pos.succ (next_handle w)) w)) ->
  wp (alloc size) Q F w.
Proof. auto. Qed.

Lemma fill_block_Some ptr size (m m' : gmap Z (list Byte.byte)) :
  fill_block ptr size m = Some m' ->
  exists b, m !! ptr = Some b /\ 0 <= size <= Z.of_nat (length b) /\
    m' = <[ptr := replicate (Z.to_nat size) Byte.x00 ++ drop (Z.to_nat size) b]> m.
Proof.
  unfold fill_block. destruct (m !! ptr) as [b|]; [|discriminate].
  destruct (Z.leb_spec 0 size); [|discriminate].
  destruct (Z.leb_spec size (Z.of_nat (length b))); [|discriminate].
  cbn. inversion 1. exists b. auto.
Qed.

Lemma wp_memset_zero ptr size Q F w :
  (forall m, fill_block ptr size (memory w) = Some m ->
             Q tt (set_memory m (logged (memset_ ptr size) w))) ->
  (fill_block ptr size (memory w) = None -> F failed_undefined) ->
  wp (memset_zero ptr size) Q F w.
Proof.
  intros HQ HF. unfold wp, memset_zero, bind, log. simpl.
  destruct (fill_block ptr size (memory w)); auto.
Qed.

Lemma wp_cudaHostGetDevicePointer pHost Q F w :
  (forall b, memory w !! pHost = Some b ->
             Q (cudaSuccess, pHost) (logged (cudaHostGetDevicePointer_ pHost pHost) w)) ->
  (memory w !! pHost = None -> Q (cudaErrorInvalidValue, NULL) w) ->
  wp (cudaHostGetDevicePointer pHost) Q F w.
Proof.
  intros HQ HE. unfold wp, cudaHostGetDevicePointer.
  destruct (memory w !! pHost) as [b|]; [|auto].
  apply (HQ b eq_refl).
Qed.

Lemma wp_cudaDeviceEnablePeerAccess peer Q F w :
  let w1 := logged (cudaDeviceEnablePeerAccess_ peer) w in
  Q cudaErrorPeerAccessAlreadyEnabled w1 ->
  Q cudaSuccess (set_peer_access (current_device w :: peer_access w) w1) ->
  wp (cudaDeviceEnablePeerAccess peer) Q F w.
Proof.
  intros w1 HA HS. unfold wp, cudaDeviceEnablePeerAccess, bind, log. simpl.
  destruct (bool_decide _); auto.
Qed.

(** *** Transfers *)

Lemma wp_memcpy dst src count Q F w :
  (forall m, copy_block dst src count (memory w) = Some m ->
             Q tt (set_memory m (logged (memcpy_ dst src count) w))) ->
  (copy_block dst src count (memory w) = None -> F failed_undefined) ->
  wp (memcpy dst src count) Q F w.
Proof.
  intros HQ HF. unfold wp, memcpy, bind, log. simpl.
  destruct (copy_block dst src count (memory w)); auto.
Qed.

Lemma wp_cudaMemcpy dst src count kind Q F w :
  (forall m, copy_block dst src count (memory w) = Some m ->
             Q cudaSuccess (set_memory m (logged (cudaMemcpy_ dst src count kind) w))) ->
  (copy_block dst src count (memory w) = None ->
   Q cudaErrorInvalidValue (logged (cudaMemcpy_ dst src count kind) w)) ->
  wp (cudaMemcpy dst src count kind) Q F w.
Proof.
  intros HQ HE. unfold wp, cudaMemcpy, bind, log. simpl.
  destruct (copy_block dst src count (memory w)); auto.
Qed.

(** *** Buffer objects *)

Lemma wp_glBindBuffer buffer Q F w :
  Q tt (set_gl_array_buffer buffer (logged (glBindBuffer_ buffer) w)) ->
  wp (glBindBuffer buffer) Q F w.
Proof. auto. Qed.

(** The update reaches the data store when the bound buffer has one and the
    range fits; otherwise GL records an error and nothing is written. *)
Lemma wp_glBufferSubData size data Q F w :
  let w1 := logged (glBufferSubData_ 0 size data) w in
  (forall store d m,
     gl_buffers w !! gl_array_buffer w = Some (Some store) ->
     memory w !! store = Some d -> size <= Z.of_nat (length d) ->
     copy_block store data size (memory w) = Some m ->
     Q tt (set_memory m w1)) ->
  ((forall store d, gl_buffers w !! gl_array_buffer w = Some (Some store) ->
                    memory w !! store = Some d -> Z.of_nat (length d) < size) ->
   Q tt w1) ->
  (forall store d,
     gl_buffers w !! gl_array_buffer w = Some (Some store) ->
     memory w !! store = Some d -> size <= Z.of_nat (length d) ->
     copy_block store data size (memory w) = None -> F failed_undefined) ->
  wp (glBufferSubData 0 size data) Q F w.
Proof.
  intros w1 HQ HN HF. unfold wp, glBufferSubData, bind, log, bound_store. simpl.
  fold (logged (glBufferSubData_ 0 size data) w). fold w1.
  destruct (gl_buffers w !! gl_array_buffer w) as [[store|]|] eqn:Hb.
  - destruct (memory w !! store) as [d|] eqn:Hd.
    + destruct (Z.leb_spec size (Z.of_nat (length d))).
      * destruct (copy_block store data size (memory w)) eqn:Hc; eauto.
      * apply HN. intros store' d' Hs' Hd'. congruence.
    + apply HN. intros store' d' Hs' Hd'. congruence.
  - apply HN. intros store' d' Hs' Hd'. congruence.
  - apply HN. intros store' d' Hs' Hd'. congruence.
Qed.

Lemma wp_glGetBufferParameteriv Q F w :
  Q (observed_size w (gl_array_buffer w)) (logged glGetBufferParameteriv_ w) ->
  wp glGetBufferParameteriv Q F w.
Proof.
  intros HQ. unfold wp, glGetBufferParameteriv, bind, log, bound_store. simpl.
  unfold observed_size in HQ.
  destruct (gl_buffers w !! gl_array_buffer w) as [[store|]|]; auto.
  destruct (memory w !! store); auto.
Qed.

Lemma wp_glGenBuffers2 Q F w :
  let b0 := Zpos (next_handle w) in
  let b1 := Zpos (Pos.succ (next_handle w)) in
  Q (b0, b1)
    (set_gl_buffers (<[b1 := None]> (<[b0 := None]> (gl_buffers w)))
       (logged (glGenBuffers_ b0 b1)
          (set_next_handle (Pos.succ (Pos.succ (next_handle w))) w))) ->
  wp glGenBuffers2 Q F w.
Proof. auto. Qed.

(** [glBufferData] gives the bound buffer a new data store, a copy of the
    first [size] bytes of [data]; the old store, if any, is released. *)
Lemma wp_glBufferData size data Q F w :
  let w1 := logged (glBufferData_ size data) w in
  (gl_buffers w !! gl_array_buffer w = None -> Q tt w1) ->
  (forall old src,
     gl_buffers w !! gl_array_buffer w = Some old ->
     memory w !! data = Some src -> 0 <= size <= Z.of_nat (length src) ->
     let store := Zpos (next_handle w) in
     Q tt (set_gl_buffers (<[gl_array_buffer w := Some store]> (gl_buffers w))
             (set_memory
                (<[store := take (Z.to_nat size) src]>
                   (match old with
                    | Some o => delete o (memory w)
                    | None => memory w
                    end))
                (set_next_handle (Pos.succ (next_handle w)) w1)))) ->
  (forall old, gl_buffers w !! gl_array_buffer w = Some old ->
     (forall src, memory w !! data = Some src ->
                  ~ 0 <= size <= Z.of_nat (length src)) ->
     F failed_undefined) ->
  wp (glBufferData size data) Q F w.
Proof.
  intros w1 HN HQ HF. unfold wp, glBufferData, bind, log. simpl.
  destruct (gl_buffers w !! gl_array_buffer w) as [old|] eqn:Hb; [|auto].
  destruct (memory w !! data) as [src|] eqn:Hd.
  - destruct (Z.leb_spec 0 size), (Z.leb_spec size (Z.of_nat (length src))); cbn.
    + apply (HQ old src); auto.
    + apply (HF old eq_refl). intros src' E. inversion E; subst. lia.
    + apply (HF old eq_refl). intros src' E. inversion E; subst. lia.
    + apply (HF old eq_refl). intros src' E. inversion E; subst. lia.
  - apply (HF old eq_refl). intros src' E. discriminate.
Qed.

(** *** Interop resources *)

Lemma wp_cudaGraphicsGLRegisterBuffer buffer flags Q F w :
  (forall st, gl_buffers w !! buffer = Some st ->
     let r := Zpos (next_handle w) in
     Q (cudaSuccess, r)
       (set_resources (<[r := (buffer, flags, false)]> (resources w))
          (logged (cudaGraphicsGLRegisterBuffer_ r buffer flags)
             (set_next_handle (Pos.succ (next_handle w)) w)))) ->
  (gl_buffers w !! buffer = None -> Q (cudaErrorInvalidValue, NULL) w) ->
  wp (cudaGraphicsGLRegisterBuffer buffer flags) Q F w.
Proof.
  intros HQ HE. unfold wp, cudaGraphicsGLRegisterBuffer.
  destruct (gl_buffers w !! buffer) as [st|]; [|auto].
  apply (HQ st eq_refl).
Qed.

Lemma wp_cudaGraphicsResourceSetMapFlags r flags Q F w :
  let w1 := logged (cudaGraphicsResourceSetMapFlags_ r flags) w in
  (forall b f, resources w !! r = Some (b, f, false) ->
               Q cudaSuccess (set_resources (<[r := (b, flags, false)]> (resources w)) w1)) ->
  ((forall b f, resources w !! r <> Some (b, f, false)) ->
   forall e, e <> cudaSuccess -> Q e w1) ->
  wp (cudaGraphicsResourceSetMapFlags r flags) Q F w.
Proof.
  intros w1 HQ HE. unfold wp, cudaGraphicsResourceSetMapFlags, bind, log. simpl.
  destruct (resources w !! r) as [[[b f] [|]]|]; eauto; now apply HE.
Qed.

Lemma wp_cudaGraphicsMapResources r Q F w :
  let w1 := logged (cudaGraphicsMapResources_ r) w in
  (forall b f, resources w !! r = Some (b, f, false) ->
               Q cudaSuccess (set_resources (<[r := (b, f, true)]> (resources w)) w1)) ->
  ((forall b f, resources w !! r <> Some (b, f, false)) ->
   forall e, e <> cudaSuccess -> Q e w1) ->
  wp (cudaGraphicsMapResources r) Q F w.
Proof.
  intros w1 HQ HE. unfold wp, cudaGraphicsMapResources, bind, log. simpl.
  destruct (resources w !! r) as [[[b f] [|]]|]; eauto; now apply HE.
Qed.

Lemma wp_cudaGraphicsResourceGetMappedPointer r Q F w :
  let w1 := logged (cudaGraphicsResourceGetMappedPointer_ r) w in
  (forall b f store, resources w !! r = Some (b, f, true) ->
                     gl_buffers w !! b = Some (Some store) ->
                     Q (cudaSuccess, store) w1) ->
  ((forall b f store, resources w !! r = Some (b, f, true) ->
                      gl_buffers w !! b <> Some (Some store)) ->
   forall e p, e <> cudaSuccess -> Q (e, p) w1) ->
  wp (cudaGraphicsResourceGetMappedPointer r) Q F w.
Proof.
  intros w1 HQ HE. unfold wp, cudaGraphicsResourceGetMappedPointer, bind, log. simpl.
  destruct (resources w !! r) as [[[b f] [|]]|]; try (now apply HE).
  destruct (gl_buffers w !! b) as [[store|]|] eqn:Hb.
  - eauto.
  - apply HE; [|discriminate]. intros b' f' store' Hr. inversion Hr; subst. now rewrite Hb.
  - apply HE; [|discriminate]. intros b' f' store' Hr. inversion Hr; subst. now rewrite Hb.
Qed.

Lemma wp_cudaGraphicsUnmapResources r Q F w :
  let w1 := logged (cudaGraphicsUnmapResources_ r) w in
  (forall b f, resources w !! r = Some (b, f, true) ->
               Q cudaSuccess (set_resources (<[r := (b, f, false)]> (resources w)) w1)) ->
  ((forall b f, resources w !! r <> Some (b, f, true)) ->
   forall e, e <> cudaSuccess -> Q e w1) ->
  wp (cudaGraphicsUnmapResources r) Q F w.
Proof.
  intros w1 HQ HE. unfold wp, cudaGraphicsUnmapResources, bind, log. simpl.
  destruct (resources w !! r) as [[[b f] [|]]|]; eauto; now apply HE.
Qed.

End MonadLaws.

(** One step of symbolic execution. *)
Ltac wp_step :=
  lazymatch goal with
  | |- wp (bind _ _) _ _ _ => apply wp_bind
  | |- wp (ret _) _ _ _ => apply wp_ret
  | |- wp (assert _) _ _ _ => apply wp_assert; [intros ? | intros ?]
  | |- wp (checkCudaErrors _) _ _ _ => apply wp_checkCudaErrors; [intros ? | intros ?]
  | |- wp (defined _) _ _ _ => apply wp_defined; [intros ? ? | intros ?]
  | |- wp (log _) _ _ _ => apply wp_log
  | |- wp (fprintf_stderr _) _ _ _ => apply wp_log
  | |- wp cudaGetLastError _ _ _ => apply wp_log
  | |- wp (setSofteningSquared _) _ _ _ => unfold setSofteningSquared
  | |- wp (cudaSetDevice _) _ _ _ => apply wp_cudaSetDevice; [intros ? | intros ?]
  | |- wp fresh _ _ _ => apply wp_fresh
  | |- wp (alloc _) _ _ _ => apply wp_alloc
  | |- wp (new_array _ _) _ _ _ => unfold new_array
  | |- wp (cudaHostAlloc _) _ _ _ => unfold cudaHostAlloc
  | |- wp (cudaMalloc _) _ _ _ => unfold cudaMalloc
  | |- wp cudaEventCreate _ _ _ => unfold cudaEventCreate
  | |- wp (memset_zero _ _) _ _ _ => apply wp_memset_zero; [intros ? ? | intros ?]
  | |- wp (cudaHostGetDevicePointer _) _ _ _ =>
      apply wp_cudaHostGetDevicePointer; [intros ? ? | intros ?]
  | |- wp (cudaDeviceEnablePeerAccess _) _ _ _ => apply wp_cudaDeviceEnablePeerAccess
  | |- wp glGenBuffers2 _ _ _ => apply wp_glGenBuffers2
  | |- wp (cudaGraphicsGLRegisterBuffer _ _) _ _ _ =>
      apply wp_cudaGraphicsGLRegisterBuffer; [intros ? ? | intros ?]
  | |- wp (memcpy _ _ _) _ _ _ => apply wp_memcpy; [intros ? ? | intros ?]
  | |- wp (cudaMemcpy _ _ _ _) _ _ _ => apply wp_cudaMemcpy; [intros ? ? | intros ?]
  | |- wp (glBindBuffer _) _ _ _ => apply wp_glBindBuffer
  | |- wp glGetBufferParameteriv _ _ _ => apply wp_glGetBufferParameteriv
  | |- wp (cudaGraphicsResourceSetMapFlags _ _) _ _ _ =>
      apply wp_cudaGraphicsResourceSetMapFlags; [intros ? ? ? | intros ? ? ?]
  | |- wp (cudaGraphicsMapResources _) _ _ _ =>
      apply wp_cudaGraphicsMapResources; [intros ? ? ? | intros ? ? ?]
  | |- wp (cudaGraphicsResourceGetMappedPointer _) _ _ _ =>
      apply wp_cudaGraphicsResourceGetMappedPointer; [intros ? ? ? ? ? | intros ? ? ? ?]
  | |- wp (cudaGraphicsUnmapResources _) _ _ _ =>
      apply wp_cudaGraphicsUnmapResources; [intros ? ? ? | intros ? ? ?]
  | |- wp (if negb (NULL =? NULL) then _ else _) _ _ _ =>
      change (negb (NULL =? NULL)) with false; cbv iota
  | |- wp (if decide (?a = ?b) then _ else _) _ _ _ => destruct (decide (a = b))
  | |- wp (if true then _ else _) _ _ _ => cbv iota
  | |- wp (if false then _ else _) _ _ _ => cbv iota
  end.

Ltac wp_steps := repeat (wp_step; cbn beta iota; try exact I; try congruence).

(** Projections of an updated world. *)
Ltac world_simpl :=
  cbn [devices memory gl_buffers gl_array_buffer resources current_device
       peer_access next_handle trace
       set_memory set_gl_buffers set_gl_array_buffer set_resources
       set_current_device set_peer_access set_next_handle set_trace logged] in *.

(** Results of array accesses that are already known. *)
Ltac unify_defs :=
  repeat match goal with
         | E : idx2 _ 0 = Some _ |- _ => cbn in E; injection E as <-
         | E : idx2 _ 1 = Some _ |- _ => cbn in E; injection E as <-
         | E : <[?k := _]> _ !! ?k = _ |- _ => rewrite lookup_insert_eq in E
         | E : Some _ = Some _ |- _ => simplify_eq
         | E1 : ?o = Some ?x, E2 : ?o = Some ?y |- _ => rewrite E1 in E2; simplify_eq
         end.

(** A branch that cannot be taken. *)
Ltac wp_absurd :=
  exfalso; world_simpl;
  repeat match goal with
         | E : idx2 _ 0 = _ |- _ => cbn in E
         | E : idx2 _ 1 = _ |- _ => cbn in E
         | E : context [<[?k := _]> _ !! ?k] |- _ => rewrite lookup_insert_eq in E
         end;
  first
    [ congruence
    | match goal with
      | E : forall b f, _ <> Some (b, f, _) |- _ =>
          eapply E; first [reflexivity | eassumption]
      | E : forall b f store, _ = Some (b, f, true) -> _ <> Some (Some store) |- _ =>
          eapply E; first [reflexivity | eassumption]
      end ].

(** Symbolic execution when every access and call is known to succeed. *)
Ltac wp_run :=
  repeat (wp_step; cbn beta iota; world_simpl; unify_defs;
          try exact I; try wp_absurd).

(** Steps whose results do not matter for the property at hand. *)
Ltac wp_skip :=
  repeat first
    [ progress cbn beta iota
    | lazymatch goal with
      | |- wp (bind _ _) _ _ _ => apply wp_bind; apply wp_any; intros ? ?
      | |- wp (match ?a with _ => _ end) _ _ _ => destruct a
      | |- wp (ret _) _ _ _ => apply wp_ret
      end ].

(** Symbolic execution that keeps the world in normal form. *)
Ltac wp_exec := repeat (wp_step; cbn beta iota; world_simpl; try exact I).

(** ** Memory blocks *)

Lemma copy_block_Some dst src count (m m' : gmap Z (list Byte.byte)) :
  copy_block dst src count m = Some m' ->
  exists s d, m !! src = Some s /\ m !! dst = Some d /\
    0 <= count <= Z.of_nat (length s) /\ count <= Z.of_nat (length d) /\
    m' = <[dst := take (Z.to_nat count) s ++ drop (Z.to_nat count) d]> m.
Proof.
  unfold copy_block. destruct (m !! src) as [s|]; [|discriminate].
  destruct (m !! dst) as [d|]; [|discriminate].
  destruct (0 <=? count) eqn:H0; [|discriminate].
  destruct (count <=? Z.of_nat (length s)) eqn:H1; [|discriminate].
  destruct (count <=? Z.of_nat (length d)) eqn:H2; [|discriminate].
  cbn. inversion 1. exists s, d. repeat split; try reflexivity; lia.
Qed.

(** A copy changes no block's length. *)
Lemma copy_block_length dst src count (m m' : gmap Z (list Byte.byte)) p :
  copy_block dst src count m = Some m' ->
  length <$> (m' !! p) = length <$> (m !! p).
Proof.
  intros H. apply copy_block_Some in H as (s & d & Hs & Hd & Hc & Hc' & ->).
  destruct (decide (dst = p)) as [-> | Hne].
  - rewrite lookup_insert_eq, Hd. cbn. f_equal.
    rewrite length_app, length_take, length_drop. lia.
  - now rewrite lookup_insert_ne.
Qed.

Section ClassProperties.

Context {T : Type} {ST : Scalar T}.

#[local] Abbreviation World := (@World T).
#[local] Abbreviation System := (@BodySystemCUDA T).

Variable kernel : @Call T -> gmap Z (list Byte.byte) -> option (gmap Z (list Byte.byte)).

(** Below 2^30 bodies neither byte count wraps. *)
Lemma array_bytes_exact n :
  0 <= n < 2 ^ 30 -> array_bytes n = n * 4 * sizeof /\ buffer_bytes n = n * 4 * sizeof.
Proof.
  intros Hn. pose proof sizeof_range as Hs. unfold array_bytes, buffer_bytes.
  rewrite (wrap32_small (n * 4)) by lia.
  rewrite (wrap64_small (4 * sizeof)) by lia.
  split; (rewrite wrap64_small; [lia | nia]).
Qed.

(** *** [update] *)

Lemma update_run (dt : T) (s : System) (w : World) :
  m_bInitialized s = true ->
  let c := integrateNbodySystem_ (m_deviceData s) (m_pGRes s) (m_currentRead s)
             (to_float dt) (to_float (m_damping s))
             (m_numBodies s) (m_numDevices s) (m_blockSize s) (m_bUsePBO s) in
  update kernel dt s w =
    match kernel c (memory w) with
    | Some m => Ok (set_current (m_currentWrite s) (m_currentRead s) s)
                   (set_memory m (logged c w))
    | None => ExitFailure
    end.
Proof.
  intros Hi c. unfold update, integrateNbodySystem, bind, assert, log, ret.
  rewrite Hi. cbn. fold c. now destruct (kernel c (memory w)).
Qed.

(** C4. On an initialised system [update] calls the launcher once and then
    exchanges the two indices, whatever the device count and the memory
    flags: it returns exactly when the launcher does, the object differs
    from the one before only in the two indices, which are exchanged, and a
    second [update] brings both back. *)
Theorem C4_update_swaps (dt : T) (s : System) (w : World) :
  m_bInitialized s = true ->
  (forall s1 w1,
     update kernel dt s w = Ok s1 w1 ->
     s1 = set_current (m_currentWrite s) (m_currentRead s) s /\
     m_currentRead s1 = m_currentWrite s /\
     m_currentWrite s1 = m_currentRead s /\
     forall dt' s2 w2,
       update kernel dt' s1 w1 = Ok s2 w2 ->
       m_currentRead s2 = m_currentRead s /\ m_currentWrite s2 = m_currentWrite s) /\
  ((exists s1 w1, update kernel dt s w = Ok s1 w1) <->
   (exists m,
      kernel (integrateNbodySystem_ (m_deviceData s) (m_pGRes s) (m_currentRead s)
                (to_float dt) (to_float (m_damping s))
                (m_numBodies s) (m_numDevices s) (m_blockSize s) (m_bUsePBO s))
             (memory w) = Some m)).
Proof.
  intros Hi. split.
  - intros s1 w1 H. rewrite (update_run dt s w Hi) in H. cbv zeta in H.
    destruct (kernel _ (memory w)) as [m|]; [|discriminate].
    inversion H; subst s1 w1; clear H.
    do 3 (split; [reflexivity|]).
    intros dt' s2 w2 H2. rewrite update_run in H2 by exact Hi. cbv zeta in H2.
    destruct (kernel _ _) as [m2|]; [|discriminate].
    inversion H2; subst s2 w2. cbn. split; reflexivity.
  - rewrite (update_run dt s w Hi). cbv zeta.
    destruct (kernel _ (memory w)) as [m|].
    + split; eauto.
    + split; [intros (? & ? & ?); discriminate | intros (? & ?); discriminate].
Qed.

(** *** [setArray] *)

Lemma observed_size_copy (w : World) b dst src count m :
  copy_block dst src count (memory w) = Some m ->
  forall w1 : World, gl_buffers w1 = gl_buffers w -> memory w1 = m ->
  observed_size w1 b = observed_size w b.
Proof.
  intros Hc w1 Hg Hm. unfold observed_size. rewrite Hg, Hm.
  destruct (gl_buffers w !! b) as [[store|]|]; try reflexivity.
  pose proof (copy_block_length _ _ _ _ _ store Hc) as Hl.
  destruct (m !! store), (memory w !! store); cbn in Hl; try discriminate; try reflexivity.
  inversion Hl as [Hl']. now rewrite Hl'.
Qed.

Lemma setArray_wp (array : BodyArray) (data : Z) (s : System) (w : World) :
  m_bInitialized s = true ->
  wp (setArray array data s)
     (fun s' w' => s' = set_current 0 1 s /\ setArray_effect array data s w w')
     any_failure w.
Proof.
  intros Hi. unfold setArray, setArray_effect. rewrite Hi.
  wp_step. wp_step; [|exact I]. cbn [m_bUsePBO m_bUseSysMem set_current m_numBodies
    m_currentRead m_pbo m_hPos m_hVel m_deviceData].
  destruct array, (m_bUsePBO s) eqn:Hpbo, (m_bUseSysMem s) eqn:Hsys; wp_steps;
    repeat match goal with
           | E : idx2 _ 0 = Some _ |- _ => cbn in E; injection E as <-
           end;
    try (split; [reflexivity|]; first
           [ split; [reflexivity | cbn; assumption]
           | eexists; split; [eassumption|]; split; [reflexivity | cbn; assumption] ]).
  (* the two runs through the pixel buffer object *)
  all: apply wp_glBufferSubData; cbn zeta; [intros store d m Hb Hd Hsz Hc | intros _ | intros; exact I].
  all: wp_steps.
  all: try match goal with
           | |- context [observed_size (set_memory ?m ?w1) ?b] =>
               rewrite (observed_size_copy w b _ _ _ m Hc (set_memory m w1))
                 by reflexivity
           end.
  all: change (observed_size (logged _ (set_gl_array_buffer _ (logged _ w))) ?b)
         with (observed_size w b) || idtac.
  all: cbn [gl_array_buffer set_memory set_gl_array_buffer logged set_trace].
  all: destruct (wrap32 (observed_size w (m_pbo s).1) =? _) eqn:Hsize; cbn [negb];
    wp_steps; (split; [reflexivity|]).
  all: split; [cbn; rewrite <- ?app_assoc; reflexivity|].
  all: first [ left; reflexivity | right; exists store; split; [exact Hb | exact Hc] ].
Qed.

(** In the pixel-buffer path nothing ends the program: [setArray] returns,
    unless the caller's array is too short for the copy. *)
Lemma setArray_pbo_returns (data : Z) (s : System) (w : World) :
  m_bInitialized s = true -> m_bUsePBO s = true ->
  wp (setArray BODYSYSTEM_POSITION data s) (fun _ _ => True)
     (fun f => f = failed_undefined) w.
Proof.
  intros Hi Hpbo. unfold setArray. rewrite Hi.
  wp_step. wp_step; [|discriminate].
  cbn [m_bUsePBO m_bUseSysMem set_current m_numBodies m_currentRead m_pbo].
  rewrite Hpbo. wp_steps.
  apply wp_glBufferSubData; cbn zeta; [intros store d m Hb Hd Hsz Hc | intros _ | reflexivity].
  all: wp_steps; destruct (negb _); wp_steps.
Qed.

(** C6 (amended).  On an initialised system [setArray] first sets the read
    index to 0 and the write index to 1, whatever they were and whichever
    array is written, and changes nothing else in the object.  It then
    issues one write of [m_numBodies*4*sizeof(T)] bytes (the mathematical
    product below 2^30 bodies) to a destination chosen by the flags and the
    array: [memcpy] into the host buffer with [m_bUseSysMem]; a
    host-to-device [cudaMemcpy] into device 0's buffer otherwise; for the
    position array with [m_bUsePBO], [glBufferSubData] at offset 0 into
    pixel buffer object 0, while the velocity array still goes by [memcpy]
    or [cudaMemcpy] into the velocity buffer.  In the pixel-buffer path a
    size that differs from the expected byte count adds the warning to the
    calls and nothing else: the function neither exits nor aborts. *)
Theorem C6_setArray_writes (array : BodyArray) (data : Z) (s : System) (w : World) :
  m_bInitialized s = true ->
  (forall s' w',
     setArray array data s w = Ok s' w' ->
     s' = set_current 0 1 s /\ m_currentRead s' = 0 /\ m_currentWrite s' = 1 /\
     setArray_effect array data s w w') /\
  (0 <= m_numBodies s < 2 ^ 30 ->
   array_bytes (m_numBodies s) = m_numBodies s * 4 * sizeof /\
   buffer_bytes (m_numBodies s) = m_numBodies s * 4 * sizeof) /\
  (m_bUsePBO s = true ->
   setArray BODYSYSTEM_POSITION data s w <> ExitFailure /\
   setArray BODYSYSTEM_POSITION data s w <> AssertionFailed).
Proof.
  intros Hi. split; [|split].
  - intros s' w' H.
    destruct (wp_Ok _ _ _ _ _ _ (setArray_wp array data s w Hi) H) as [-> He].
    auto.
  - apply array_bytes_exact.
  - intros Hpbo. pose proof (setArray_pbo_returns data s w Hi Hpbo) as H.
    unfold wp in H.
    destruct (setArray BODYSYSTEM_POSITION data s w); split; congruence.
Qed.

(** *** [getArray] *)

Lemma to_int32_bit r : r = 0 \/ r = 1 -> to_int32 r = r.
Proof. intros [-> | ->]; reflexivity. Qed.

Lemma getArray_position_wp (s : System) (w : World) :
  m_bInitialized s = true ->
  m_currentRead s = 0 \/ m_currentRead s = 1 ->
  wp (getArray BODYSYSTEM_POSITION s) (getArray_position_effect s w) any_failure w.
Proof.
  intros Hi Hr. unfold getArray, getArray_position_effect. rewrite Hi.
  rewrite (to_int32_bit _ Hr). cbv zeta.
  wp_step. wp_step; [|exact I].
  destruct (m_bUseSysMem s) eqn:Hsys, (m_bUsePBO s) eqn:Hpbo; cbn [negb]; wp_steps.
  all: try (split; [assumption | reflexivity]).
  2: { change (negb (NULL =? NULL)) with false. cbv iota. wp_steps.
       split; [assumption|]. eexists _, _. do 2 (split; [eassumption|]).
       split; [reflexivity | cbn; assumption]. }
  destruct (a2 =? NULL) eqn:Hnull; cbn [negb]; wp_steps.
  { split; [assumption|]. eexists _, _. do 2 (split; [eassumption|]).
    eexists. split; [eassumption|]. rewrite Hnull.
    split; [reflexivity | cbn; assumption]. }
  world_simpl. simplify_map_eq.
  split; [assumption|]. eexists _, _. split; [reflexivity|]. split; [eassumption|].
  eexists. split; [eassumption|]. rewrite Hnull.
  eexists _, _, _. do 2 (split; [eassumption|]).
  split; [rewrite <- ?app_assoc; reflexivity|].
  split; [assumption|]. apply lookup_insert_eq.
Qed.

(** C7. On an initialised system [getArray(BODYSYSTEM_POSITION)] returns
    [m_hPos[m_currentRead]] with [m_bUseSysMem] and [m_hPos[0]] without.
    With [m_bUseSysMem] it does nothing else.  Without, it copies
    [m_numBodies*4*sizeof(T)] bytes (the mathematical product below 2^30
    bodies), device to host, into that buffer: from device 0's
    [dPos[m_currentRead]], or, with [m_bUsePBO] and a registered resource
    [m_pGRes[m_currentRead]], from the data store of its buffer object,
    between [cudaGraphicsMapResources] and [cudaGraphicsUnmapResources],
    after setting the map flags to read-only, which they still are on
    return. *)
Theorem C7_getArray_position (s : System) (w : World) (p : Z) (w' : World) :
  m_bInitialized s = true ->
  m_currentRead s = 0 \/ m_currentRead s = 1 ->
  getArray BODYSYSTEM_POSITION s w = Ok p w' ->
  getArray_position_effect s w p w' /\
  (0 <= m_numBodies s < 2 ^ 30 ->
   array_bytes (m_numBodies s) = m_numBodies s * 4 * sizeof).
Proof.
  intros Hi Hr H. split.
  - exact (wp_Ok _ _ _ _ _ _ (getArray_position_wp s w Hi Hr) H).
  - intros Hn. apply (array_bytes_exact _ Hn).
Qed.

(** *** Round trip *)

Lemma copy_block_defined (m : gmap Z (list Byte.byte)) dst src count s d :
  m !! src = Some s -> m !! dst = Some d ->
  0 <= count <= Z.of_nat (length s) -> count <= Z.of_nat (length d) ->
  copy_block dst src count m
  = Some (<[dst := take (Z.to_nat count) s ++ drop (Z.to_nat count) d]> m).
Proof.
  intros Hs Hd Hc Hc'. unfold copy_block. rewrite Hs, Hd.
  destruct (Z.leb_spec 0 count); [|lia].
  destruct (Z.leb_spec count (Z.of_nat (length s))); [|lia].
  destruct (Z.leb_spec count (Z.of_nat (length d))); [|lia].
  reflexivity.
Qed.

(** A copy of [length X] bytes from a block that begins with [X] makes the
    destination begin with [X]; every block keeps its size. *)
Lemma copy_block_begins (m : gmap Z (list Byte.byte)) dst src count X :
  begins_with m src X -> holds m dst count -> Z.of_nat (length X) = count ->
  exists m', copy_block dst src count m = Some m' /\
    begins_with m' dst X /\
    (forall p size, holds m p size -> holds m' p size).
Proof.
  intros (sb & Hs & Hsx) (d & Hd & Hdlen) Hlen.
  assert (Hsl : (length X <= length sb)%nat).
  { rewrite <- Hsx at 1. rewrite length_take. lia. }
  eexists. split; [|split].
  - apply (copy_block_defined _ _ _ _ sb d Hs Hd); lia.
  - exists (take (Z.to_nat count) sb ++ drop (Z.to_nat count) d).
    rewrite lookup_insert_eq. split; [reflexivity|].
    replace (Z.to_nat count) with (length X) by lia.
    rewrite take_app_le by (rewrite length_take; lia).
    rewrite take_take. now rewrite Nat.min_id.
  - intros p size (b & Hb & Hbl). unfold holds.
    destruct (decide (dst = p)) as [<- | Hne].
    + rewrite lookup_insert_eq. eexists. split; [reflexivity|].
      assert (b = d) by congruence. subst b.
      rewrite length_app, length_take, length_drop. lia.
    + rewrite lookup_insert_ne by exact Hne. eauto.
Qed.

Ltac enter_getArray Hi Hpbo Hsys Ha :=
  unfold getArray;
  cbn [m_bUsePBO m_bUseSysMem set_current m_numBodies m_currentRead m_pbo m_hPos
       m_hVel m_deviceData m_bInitialized m_pGRes];
  rewrite Hi, Hpbo, Hsys, ?Ha; cbn [negb]; change (to_int32 0) with 0.

Lemma round_trip_wp (mode : MemoryMode) (s : System) (w : World) (data : Z)
    (X : list Byte.byte) :
  Initialized mode s w ->
  memory w !! data = Some X ->
  Z.of_nat (length X) = m_numBodies s * 4 * sizeof ->
  wp (do s1 <- setArray BODYSYSTEM_POSITION data s; getArray BODYSYSTEM_POSITION s1)
     (fun p w2 => begins_with (memory w2) p X)
     no_failure w.
Proof.
  intros (Hi & Hflags & Hn & _ & Hh0 & d0 & Hd0 & Hmode) HX HlenX.
  destruct (array_bytes_exact _ Hn) as [Ha Hb].
  set (N := m_numBodies s * 4 * sizeof) in *.
  assert (Hdata : begins_with (memory w) data X).
  { exists X. split; [exact HX | apply firstn_all]. }
  wp_step. unfold setArray. rewrite Hi.
  cbn [m_bUsePBO m_bUseSysMem set_current m_numBodies m_currentRead m_pbo m_hPos
       m_hVel m_deviceData].
  rewrite Ha, Hb.
  destruct mode; cbn in Hflags; injection Hflags as Hpbo Hsys; rewrite Hpbo, ?Hsys.
  - (* DeviceLocal *)
    destruct Hmode as (Hp0 & _).
    destruct (copy_block_begins _ (dPos d0).1 data N X Hdata Hp0 HlenX)
      as (m1 & Hc1 & Hb1 & Hkeep).
    destruct (copy_block_begins m1 (m_hPos s).1 (dPos d0).1 N X Hb1
                (Hkeep _ _ Hh0) HlenX) as (m2 & Hc2 & Hb2 & _).
    wp_run.
    enter_getArray Hi Hpbo Hsys Ha.
    wp_run. exact Hb2.
  - (* HostMapped *)
    destruct (copy_block_begins _ (m_hPos s).1 data N X Hdata Hh0 HlenX)
      as (m1 & Hc1 & Hb1 & Hkeep).
    wp_run.
    enter_getArray Hi Hpbo Hsys Ha.
    wp_run. exact Hb1.
  - (* RenderShared *)
    destruct Hmode as ((Hr0 & f0 & store & Hres & Hgl & Hst) & _).
    destruct (copy_block_begins _ store data N X Hdata Hst HlenX)
      as (m1 & Hc1 & Hb1 & Hkeep).
    destruct (copy_block_begins m1 (m_hPos s).1 store N X Hb1
                (Hkeep _ _ Hh0) HlenX) as (m2 & Hc2 & Hb2 & _).
    wp_run.
    apply wp_glBufferSubData; cbn zeta; world_simpl;
      [intros store' d m Hb' Hd' Hsz Hc | intros Hno | intros store' d Hb' Hd' Hsz Hc].
    2: { exfalso. destruct Hst as (d & Hd & Hdl). specialize (Hno store d Hgl Hd). lia. }
    2: { exfalso. congruence. }
    assert (store' = store) by congruence. subst store'.
    assert (m = m1) by congruence. subst m. clear Hc.
    wp_run.
    match goal with
    | |- wp (if ?c then _ else _) _ _ _ => destruct c
    end; wp_run.
    all: enter_getArray Hi Hpbo Hsys Ha.
    all: wp_run.
    all: rewrite (proj2 (Z.eqb_neq _ _) Hr0); cbn [negb].
    all: wp_run.
    all: exact Hb2.
Qed.

(** C5. In each of the three memory modes, on an initialised system that
    has a device 0 and whose buffers hold [bodyCount * 4 * sizeof(T)] bytes,
    with [bodyCount] below 2^30:
    [setArray(BODYSYSTEM_POSITION, data)] followed by
    [getArray(BODYSYSTEM_POSITION)] both return, and the array [getArray]
    returns begins with the very bytes [X] of the caller's array, whatever
    they are. *)
Theorem C5_position_round_trip (mode : MemoryMode) (s : System) (w : World)
    (data : Z) (X : list Byte.byte) :
  Initialized mode s w ->
  memory w !! data = Some X ->
  Z.of_nat (length X) = m_numBodies s * 4 * sizeof ->
  exists s1 w1 p w2,
    setArray BODYSYSTEM_POSITION data s w = Ok s1 w1 /\
    getArray BODYSYSTEM_POSITION s1 w1 = Ok p w2 /\
    exists b, memory w2 !! p = Some b /\ take (length X) b = X.
Proof.
  intros Hinit HX Hlen.
  destruct (wp_returns _ _ _ (round_trip_wp mode s w data X Hinit HX Hlen))
    as (p & w2 & Hrun & Hp).
  apply bind_Ok_inv in Hrun as (s1 & w1 & Hset & Hget).
  exists s1, w1, p, w2. auto.
Qed.


End ClassProperties.

(** ** Lifecycle *)

Section Lifecycle.

Context {T : Type} {ST : Scalar T}.

#[local] Abbreviation World := (@World T).
#[local] Abbreviation System := (@BodySystemCUDA T).

Variable kernel : @Call T -> gmap Z (list Byte.byte) -> option (gmap Z (list Byte.byte)).

Lemma initialize_state (n : Z) (s : System) (w : World) :
  wp (_initialize n s)
     (fun s' _ => m_bInitialized s = false /\ m_bInitialized s' = true /\
                  m_numBodies s' = wrap32 n /\ same_config s s')
     any_failure w.
Proof.
  unfold _initialize. wp_step. wp_step; [|exact I].
  match goal with H : negb _ = true |- _ => apply negb_true_iff in H; rename H into Hi end.
  cbv zeta. apply wp_bind, wp_any. intros deviceData w1. apply wp_bind.
  cbn [m_bUseSysMem m_bUsePBO m_bUseP2P set_m_numBodies].
  wp_skip.
  all: unfold same_config; cbn; repeat split; assumption.
Qed.

Lemma initialize_asserts (n : Z) (s : System) (w : World) :
  m_bInitialized s = true -> _initialize n s w = AssertionFailed.
Proof. intros Hi. unfold _initialize, bind, assert. now rewrite Hi. Qed.

Lemma finalize_state (s : System) (w : World) :
  wp (_finalize s)
     (fun s' _ => m_bInitialized s = true /\ m_bInitialized s' = false /\
                  m_numBodies s' = m_numBodies s /\ same_config s s')
     any_failure w.
Proof.
  unfold _finalize. wp_step. wp_step; [|exact I].
  apply wp_bind, wp_any. intros _ w1. apply wp_ret.
  unfold same_config. cbn. repeat split; assumption.
Qed.

Lemma finalize_asserts (s : System) (w : World) :
  m_bInitialized s = false -> _finalize s w = AssertionFailed.
Proof. intros Hi. unfold _finalize, bind, assert. now rewrite Hi. Qed.

(** *** The setters *)

(** [setSoftening] returns or exits; what it issues is one
    [setSofteningSquared] per device, after [cudaSetDevice] when there are
    several. *)
Lemma setSoftening_loop_wp (nd : Z) (sq : T) (n : nat) (i : Z) (w : World) :
  wp (setSoftening_loop nd sq n i)
     (fun _ w' => trace w' = trace w ++ softening_calls nd sq n i /\
                  memory w' = memory w /\ gl_buffers w' = gl_buffers w /\
                  resources w' = resources w)
     (fun f => f = failed_exit) w.
Proof.
  revert i w. induction n as [|n IH]; intros i w; cbn [setSoftening_loop softening_calls].
  - apply wp_ret. rewrite app_nil_r. auto.
  - destruct (1 <? nd); wp_steps.
    all: eapply wp_mono; [apply IH|].
    all: intros ? w' (Ht & Hm & Hg & Hr); world_simpl; rewrite Ht, Hm, Hg, Hr.
    all: rewrite <- ?app_assoc; auto.
Qed.

Lemma setSoftening_wp (x : T) (s : System) (w : World) :
  wp (setSoftening x s)
     (fun s' w' =>
        s' = s /\
        trace w' = trace w
          ++ softening_calls (m_numDevices s) (scalar_mul x x)
               (Z.to_nat (m_numDevices s)) 0 /\
        memory w' = memory w /\ gl_buffers w' = gl_buffers w /\
        resources w' = resources w)
     (fun f => f = failed_exit) w.
Proof.
  unfold setSoftening. cbv zeta. wp_step.
  eapply wp_mono; [apply setSoftening_loop_wp|].
  intros ? w' H. apply wp_ret. auto.
Qed.

Lemma setDamping_run (x : T) (s : System) (w : World) :
  setDamping x s w = Ok (set_m_damping x s) w.
Proof. reflexivity. Qed.

(** C8 (amended).  [_initialize] asserts that the system is not
    initialised and [_finalize], [update], [getArray] and [setArray] assert
    that it is: called in the other state each fails its assertion.
    [setSoftening] and [setDamping] carry no such guard: in either state
    [setDamping] returns and [setSoftening] returns or exits on a platform
    error, never on an assertion.  [_initialize] leaves the flag set,
    [_finalize] leaves it cleared, and no other operation changes it. *)
Theorem C8_initialized_guards (s : System) (w : World) :
  (m_bInitialized s = true -> forall n, _initialize n s w = AssertionFailed) /\
  (m_bInitialized s = false ->
   _finalize s w = AssertionFailed /\
   (forall dt, update kernel dt s w = AssertionFailed) /\
   (forall a, getArray a s w = AssertionFailed) /\
   (forall a d, setArray a d s w = AssertionFailed)) /\
  (forall n s' w', _initialize n s w = Ok s' w' ->
     m_bInitialized s = false /\ m_bInitialized s' = true) /\
  (forall s' w', _finalize s w = Ok s' w' ->
     m_bInitialized s = true /\ m_bInitialized s' = false) /\
  (forall dt s' w', update kernel dt s w = Ok s' w' ->
     m_bInitialized s = true /\ m_bInitialized s' = true) /\
  (forall a d s' w', setArray a d s w = Ok s' w' ->
     m_bInitialized s = true /\ m_bInitialized s' = true) /\
  (forall a p w', getArray a s w = Ok p w' -> m_bInitialized s = true) /\
  (forall x, setSoftening x s w <> AssertionFailed /\
             forall s' w', setSoftening x s w = Ok s' w' -> s' = s) /\
  (forall x, setDamping x s w = Ok (set_m_damping x s) w /\
             m_bInitialized (set_m_damping x s) = m_bInitialized s).
Proof.
  split; [intros Hi n; now apply initialize_asserts|].
  split.
  { intros Hi. split; [now apply finalize_asserts|].
    split; [|split]; intros; unfold update, getArray, setArray, bind, assert;
      now rewrite Hi. }
  split.
  { intros n s' w' H.
    destruct (wp_Ok _ _ _ _ _ _ (initialize_state n s w) H) as (? & ? & _). auto. }
  split.
  { intros s' w' H.
    destruct (wp_Ok _ _ _ _ _ _ (finalize_state s w) H) as (? & ? & _). auto. }
  assert (Hguard : forall (A : Type) (m : M A) (a : A) (w' : World),
            (assert (m_bInitialized s);; m) w = Ok a w' ->
            m_bInitialized s = true /\ m w = Ok a w').
  { intros A m a w' H. unfold bind, assert in H.
    destruct (m_bInitialized s); [auto | discriminate]. }
  split.
  { intros dt s' w' H. apply Hguard in H as [Hi H]. split; [exact Hi|].
    apply bind_Ok_inv in H as (? & ? & _ & H). inversion H. exact Hi. }
  split.
  { intros a d s' w' H. pose proof H as H'. apply Hguard in H' as [Hi _].
    split; [exact Hi|].
    destruct (wp_Ok _ _ _ _ _ _ (setArray_wp a d s w Hi) H) as [-> _]. exact Hi. }
  split.
  { intros a p w' H. now apply Hguard in H as [Hi _]. }
  split.
  { intros x. pose proof (setSoftening_wp x s w) as H. unfold wp in H. split.
    - destruct (setSoftening x s w); congruence.
    - intros s' w' E. rewrite E in H. tauto. }
  intros x. split; reflexivity.
Qed.

(** *** Constructor and destructor *)

(** C10. When the constructor returns it has run [_initialize] on the
    object as the member initialisers leave it and then [setSoftening(0.00125f)] and
    [setDamping(0.995f)]: the system is initialised, the read index is 0 and
    the write index 1, the damping is 0.995, and after the calls of
    [_initialize] the trace ends with one [setSofteningSquared] of the
    squared softening per device.  The destructor is [_finalize] followed
    by clearing the body count: on a system that is not initialised it
    fails the assertion of [_finalize], and when it returns the system is
    no longer initialised. *)
Theorem C10_constructor_defaults (numBodies numDevices blockSize : Z)
    (usePBO useSysMem useP2P : bool) (deviceId : Z) (w : World) :
  (forall s w',
     BodySystemCUDA_new numBodies numDevices blockSize usePBO useSysMem useP2P
       deviceId w = Ok s w' ->
     (exists s1 w1,
        _initialize (to_int32 numBodies)
          (BodySystemCUDA_members numBodies numDevices blockSize usePBO useSysMem
             useP2P deviceId) w = Ok s1 w1 /\
        s = set_m_damping (of_float Float32.lit_0_995) s1 /\
        let softening := of_float Float32.lit_0_00125 in
        trace w' = trace w1
          ++ softening_calls numDevices (scalar_mul softening softening)
               (Z.to_nat numDevices) 0) /\
     m_bInitialized s = true /\
     m_currentRead s = 0 /\ m_currentWrite s = 1 /\
     m_damping s = of_float Float32.lit_0_995) /\
  (forall s : System,
     BodySystemCUDA_delete s w
     = (do s' <- _finalize s; ret (set_m_numBodies 0 s')) w /\
     (m_bInitialized s = false -> BodySystemCUDA_delete s w = AssertionFailed) /\
     (forall s' w', BodySystemCUDA_delete s w = Ok s' w' ->
        m_bInitialized s = true /\ m_bInitialized s' = false /\ m_numBodies s' = 0)).
Proof.
  split.
  - intros s w' H. unfold BodySystemCUDA_new in H. cbv zeta in H.
    apply bind_Ok_inv in H as (s1 & w1 & Hinit & H).
    apply bind_Ok_inv in H as (s2 & w2 & Hsoft & H).
    rewrite setDamping_run in H. inversion H; subst s w'; clear H.
    pose proof (wp_Ok _ _ _ _ _ _ (setSoftening_wp _ s1 w1) Hsoft) as (-> & Ht & _).
    pose proof (wp_Ok _ _ _ _ _ _ (initialize_state _ _ w) Hinit)
      as (_ & Hi & _ & Hnd & _ & _ & _ & Hr & Hw & _).
    cbn in Hnd, Hr, Hw.
    split.
    { exists s1, w1. split; [exact Hinit|]. split; [reflexivity|].
      cbv zeta. rewrite Ht, Hnd. reflexivity. }
    cbn. auto.
  - intros s. split; [reflexivity|]. split.
    + intros Hi. unfold BodySystemCUDA_delete. unfold bind at 1.
      now rewrite finalize_asserts.
    + intros s' w' H. unfold BodySystemCUDA_delete in H.
      apply bind_Ok_inv in H as (s1 & w1 & Hfin & H). inversion H; subst s' w'.
      destruct (wp_Ok _ _ _ _ _ _ (finalize_state s w) Hfin) as (? & ? & _).
      cbn. auto.
Qed.

(** C2 (amended).  The constructor does not look at the combination of
    [usePBO] and the device count.  With [usePBO] and more than one device,
    whenever it returns the system is initialised, [m_bUsePBO] is still set,
    the other flags and the device count are the ones requested: it was
    neither rejected nor turned into a device-local system. *)
Theorem C2_render_shared_multi_device (numBodies numDevices blockSize : Z)
    (useSysMem useP2P : bool) (deviceId : Z) (w : World) (s : System) (w' : World) :
  1 < numDevices ->
  BodySystemCUDA_new numBodies numDevices blockSize true useSysMem useP2P deviceId w
  = Ok s w' ->
  m_bInitialized s = true /\ m_bUsePBO s = true /\ m_bUseSysMem s = useSysMem /\
  m_bUseP2P s = useP2P /\ m_numDevices s = numDevices.
Proof.
  intros _ H. unfold BodySystemCUDA_new in H. cbv zeta in H.
  apply bind_Ok_inv in H as (s1 & w1 & Hinit & H).
  apply bind_Ok_inv in H as (s2 & w2 & Hsoft & H).
  rewrite setDamping_run in H. inversion H; subst s w'; clear H.
  pose proof (wp_Ok _ _ _ _ _ _ (setSoftening_wp _ s1 w1) Hsoft) as (-> & _).
  pose proof (wp_Ok _ _ _ _ _ _ (initialize_state _ _ w) Hinit)
    as (_ & Hi & _ & Hnd & Hpbo & Hsys & Hp2p & _).
  cbn in *. auto.
Qed.

(** *** The partitioner inside [_initialize] *)

Lemma wp_cudaGetDeviceProperties device Q F (w : World) :
  let w1 := logged (cudaGetDeviceProperties_ device) w in
  (forall props, devices w !! Z.to_nat device = Some props -> Q (cudaSuccess, props) w1) ->
  (devices w !! Z.to_nat device = None ->
   Q (cudaErrorInvalidDevice, {| multiProcessorCount := 0; major := 0 |}) w1) ->
  wp (cudaGetDeviceProperties device) Q F w.
Proof.
  intros w1 HQ HE. unfold wp, cudaGetDeviceProperties, bind, log. simpl.
  destruct (devices w !! Z.to_nat device); auto.
Qed.

(** The first loop returns one weight per device and touches no memory; it
    exits only when a device is not there. *)
Lemma query_weights_wp (n : nat) (i : Z) (w : World) :
  0 <= i ->
  wp (query_weights n i)
     (fun ws w' => length ws = n /\ memory w' = memory w /\ devices w' = devices w)
     (fun f => f = failed_exit /\ Z.of_nat (length (devices w)) < i + Z.of_nat n) w.
Proof.
  revert i w. induction n as [|n IH]; intros i w Hi; cbn [query_weights].
  - apply wp_ret. auto.
  - wp_step. apply wp_cudaGetDeviceProperties; cbv zeta.
    + intros props Hp. cbn beta iota. wp_step. wp_step; [|congruence].
      wp_step. eapply wp_mono; [eapply wp_weaken; [apply (IH (i + 1)); lia|]|].
      * intros f [-> Hlen]. world_simpl. split; [reflexivity | lia].
      * intros ws w' (Hl & Hm & Hd). apply wp_ret. world_simpl.
        cbn [length]. rewrite Hl, Hm, Hd. auto.
    + intros Hnone. cbn beta iota. wp_step. wp_step; [congruence|].
      split; [reflexivity|]. apply lookup_ge_None in Hnone. lia.
Qed.

(** With no device or with no body the partitioner returns normally,
    provided the devices asked for exist: it allocates nothing and gives no
    slot any bodies.  With no device the table is empty and nothing at all
    has happened; with no body every device has a slot with offset 0 and
    count 0. *)
Lemma divide_workload_idle (numDevices bodies : Z) (w : World) :
  numDevices = 0 \/ bodies = 0 ->
  0 <= numDevices <= Z.of_nat (length (devices w)) ->
  exists table w',
    divide_workload numDevices bodies w = Ok table w' /\
    length table = Z.to_nat numDevices /\
    Forall (fun d => numBodies d = 0 /\ offset d = 0) table /\
    memory w' = memory w /\
    (numDevices = 0 -> table = [] /\ w' = w).
Proof.
  intros Hcase Hnd.
  assert (Hwp : wp (divide_workload numDevices bodies)
            (fun table w' =>
               length table = Z.to_nat numDevices /\
               Forall (fun d => numBodies d = 0 /\ offset d = 0) table /\
               memory w' = memory w /\
               (numDevices = 0 -> table = [] /\ w' = w))
            no_failure w).
  { unfold divide_workload. wp_step.
    destruct (decide (numDevices = 0)) as [-> | Hnz].
    - cbn. apply wp_ret. repeat split; auto.
    - destruct Hcase as [-> | ->]; [congruence|].
      eapply wp_mono; [eapply wp_weaken; [apply query_weights_wp; lia|]|].
      + intros f [_ Hlt]. unfold no_failure. lia.
      + intros ws w' (Hl & Hm & _). apply wp_ret.
        unfold partition_weights. rewrite partition_loop_no_bodies.
        rewrite !length_map, Hl. split; [reflexivity|].
        split; [|split; [exact Hm|]].
        * rewrite !Forall_fmap. apply Forall_true. intros x. cbn. auto.
        * intros ->. congruence. }
  destruct (wp_returns _ _ _ Hwp) as (table & w' & Hrun & Hq).
  exists table, w'. split; [exact Hrun | exact Hq].
Qed.

End Lifecycle.

(** ** What the constructor establishes *)

Lemma holds_insert_ne (m : gmap Z (list Byte.byte)) p size k b :
  p <> k -> holds m p size -> holds (<[k := b]> m) p size.
Proof. intros Hne (c & Hc & Hl). exists c. now rewrite lookup_insert_ne. Qed.

Lemma holds_insert_eq (m : gmap Z (list Byte.byte)) k b size :
  size <= Z.of_nat (length b) -> holds (<[k := b]> m) k size.
Proof. intros Hl. exists b. now rewrite lookup_insert_eq. Qed.

Lemma holds_fill (m m' : gmap Z (list Byte.byte)) q n p size :
  fill_block q n m = Some m' -> holds m p size -> holds m' p size.
Proof.
  intros Hf (c & Hc & Hl). apply fill_block_Some in Hf as (b & Hb & Hn & ->).
  destruct (decide (q = p)) as [-> | Hne].
  - eexists. rewrite lookup_insert_eq. split; [reflexivity|].
    assert (c = b) by congruence. subst c.
    rewrite length_app, length_replicate, length_drop. lia.
  - exists c. now rewrite lookup_insert_ne.
Qed.

Section Construction.

Context {T : Type} {ST : Scalar T}.

#[local] Abbreviation World := (@World T).
#[local] Abbreviation System := (@BodySystemCUDA T).

Lemma wp_conj {A} (m : M A) (Q Q' : A -> World -> Prop) F w :
  wp m Q F w -> wp m Q' F w -> wp m (fun a w' => Q a w' /\ Q' a w') F w.
Proof. unfold wp. destruct (m w); auto. Qed.

Lemma divide_workload_length (nd n : Z) (w : World) :
  0 <= nd ->
  wp (divide_workload nd n) (fun ds _ => length ds = Z.to_nat nd) any_failure w.
Proof.
  intros Hnd. unfold divide_workload. wp_step.
  eapply wp_mono; [eapply wp_weaken; [apply query_weights_wp; lia | easy]|].
  intros ws w' (Hl & _). apply wp_ret.
  unfold partition_weights. now rewrite length_map, partition_loop_length, length_map.
Qed.

Lemma map_host_buffers_wp (nd : Z) (hPos : Z * Z) (hVel : Z) (ds : list DeviceData)
    (i : Z) (w : World) :
  wp (map_host_buffers nd hPos hVel ds i)
     (fun ds' w' => length ds' = length ds /\ same_stores w w') any_failure w.
Proof.
  revert i w. induction ds as [|d ds IH]; intros i w; cbn [map_host_buffers].
  - apply wp_ret. unfold same_stores. auto.
  - destruct (1 <? nd); wp_steps.
    all: eapply wp_mono; [apply IH|].
    all: intros ds' w' (Hl & Hm & Hg & Hr); apply wp_ret; world_simpl.
    all: cbn [length]; rewrite Hl; unfold same_stores; auto.
Qed.

Lemma share_with_peers_wp (d0 : DeviceData) (ds : list DeviceData) (i : Z) (w : World) :
  wp (share_with_peers d0 ds i)
     (fun ds' w' => length ds' = length ds /\ same_stores w w') any_failure w.
Proof.
  revert i w. induction ds as [|d ds IH]; intros i w; cbn [share_with_peers].
  - apply wp_ret. unfold same_stores. auto.
  - wp_steps.
    all: eapply wp_mono; [apply IH|].
    all: intros ds' w' (Hl & Hm & Hg & Hr); apply wp_ret; world_simpl.
    all: cbn [length]; rewrite Hl; unfold same_stores; auto.
Qed.

(** A buffer object without a data store gets one, a copy of [data], and is
    registered with CUDA. *)
Lemma create_pbo_wp (buffer memSize data : Z) (src : list Byte.byte) (w : World)
    (Q : Z -> World -> Prop) :
  gl_buffers w !! buffer = Some None ->
  memory w !! data = Some src -> 0 <= memSize <= Z.of_nat (length src) ->
  (forall w', 
     memory w' = <[Z.pos (next_handle w) := take (Z.to_nat memSize) src]> (memory w) ->
     gl_buffers w' = <[buffer := Some (Z.pos (next_handle w))]> (gl_buffers w) ->
     resources w' = <[Z.pos (Pos.succ (next_handle w)) :=
                        (buffer, cudaGraphicsMapFlagsNone, false)]> (resources w) ->
     next_handle w' = Pos.succ (Pos.succ (next_handle w)) ->
     devices w' = devices w ->
     Q (Z.pos (Pos.succ (next_handle w))) w') ->
  wp (create_pbo buffer memSize data) Q any_failure w.
Proof.
  intros Hb Hd Hs HQ. unfold create_pbo.
  wp_step. wp_step. wp_step. apply wp_glBufferData; cbn zeta; world_simpl.
  { intros E. congruence. }
  intros old src' Hold Hsrc _. assert (old = None) by congruence.
  assert (src' = src) by congruence. subst old src'.
  2: { intros; exact I. }
  wp_step. wp_step. world_simpl.
  match goal with |- context [negb ?b] => destruct (negb b) end.
  all: wp_steps; world_simpl.
  all: wp_exec.
  all: apply HQ; world_simpl; reflexivity.
Qed.

(** A block is live in a memory built by allocations and fills. *)
Ltac prove_holds :=
  repeat first
    [ eassumption
    | eapply holds_fill; [eassumption|]
    | apply holds_insert_eq; rewrite ?length_replicate, ?length_take; lia
    | apply holds_insert_ne; [lia|] ].

Ltac prove_lookup :=
  repeat first [rewrite lookup_insert_eq | rewrite lookup_insert_ne by lia];
  reflexivity.

Lemma initialize_initialized (mode : MemoryMode) (n : Z) (s : System) (w : World) :
  (m_bUsePBO s, m_bUseSysMem s) = mode_flags mode ->
  m_currentRead s = 0 -> m_currentWrite s = 1 ->
  1 <= m_numDevices s ->
  0 <= n -> sizeof * 4 * n < 2 ^ 32 ->
  wp (_initialize n s) (fun s' w' => Initialized mode s' w') any_failure w.
Proof.
  intros Hflags Hr Hw Hnd Hn Hsize.
  pose proof sizeof_range as Hsz.
  assert (Hn30 : n < 2 ^ 30) by nia.
  set (N := n * 4 * sizeof).
  assert (HN : wrap32 (sizeof * 4 * n) = N)
    by (rewrite wrap32_small by nia; unfold N; lia).
  assert (Hn32 : wrap32 n = n) by (apply wrap32_small; lia).
  assert (Hcount : wrap32 (n * 4) = n * 4) by (apply wrap32_small; lia).
  unfold _initialize. wp_step. wp_step; [|exact I].
  cbv zeta. cbn [m_numBodies m_numDevices set_m_numBodies m_bUseSysMem m_bUsePBO
                 m_bUseP2P m_devID m_hPos m_pbo m_pGRes].
  rewrite HN, Hn32, ?Hcount.
  wp_step. eapply wp_mono; [apply divide_workload_length; lia|].
  intros ds w1 Hds. cbn beta.
  destruct ds as [|d0 ds]; [cbn in Hds; lia|]. clear Hds.
  destruct mode; cbn in Hflags; injection Hflags as Hpbo Hsys; rewrite ?Hpbo, ?Hsys.
  2: { (* HostMapped *)
    wp_exec.
    eapply wp_mono; [apply map_host_buffers_wp|].
    intros ds' w' (Hl & Hm & _). world_simpl. wp_exec.
    destruct ds' as [|d0' ds']; [discriminate|].
    unfold Initialized. cbn. rewrite Hpbo, Hsys, Hr, Hw, Hm. fold N.
    split; [reflexivity|]. split; [reflexivity|]. split; [lia|]. split; [auto|].
    split; [prove_holds|]. exists d0'. split; [reflexivity|]. prove_holds. }
  - (* DeviceLocal *)
    wp_exec. cbn in H4. injection H4 as <-.
    destruct (m_bUseP2P s).
    + eapply wp_mono; [apply share_with_peers_wp|].
      intros ds' w' (Hl & Hm & _). world_simpl. wp_exec.
      unfold Initialized. cbn. rewrite Hpbo, Hsys, Hr, Hw, Hm. fold N.
      split; [reflexivity|]. split; [reflexivity|]. split; [lia|]. split; [auto|].
      split; [prove_holds|]. eexists. split; [reflexivity|]. cbn. split; prove_holds.
    + wp_exec.
      unfold Initialized. cbn. rewrite Hpbo, Hsys, Hr, Hw. fold N.
      split; [reflexivity|]. split; [reflexivity|]. split; [lia|]. split; [auto|].
      split; [prove_holds|]. eexists. split; [reflexivity|]. cbn. split; prove_holds.
  - (* RenderShared *)
    wp_exec. cbn in H4. injection H4 as <-. cbn [fst snd].
    assert (Hh : holds m0 (Z.pos (next_handle w1)) N) by prove_holds.
    destruct Hh as (src & Hsrc & Hlen).
    eapply create_pbo_wp with (src := src); world_simpl.
    { rewrite lookup_insert_ne by lia. apply lookup_insert_eq. }
    { exact Hsrc. }
    { lia. }
    intros w2 Hm2 Hg2 Hr2 Hn2 _. wp_step.
    eapply create_pbo_wp with (src := src); world_simpl.
    { rewrite Hg2, lookup_insert_ne by lia. apply lookup_insert_eq. }
    { rewrite Hm2, lookup_insert_ne by lia. exact Hsrc. }
    { lia. }
    intros w3 Hm3 Hg3 Hr3 Hn3 _. rewrite Hn2 in *. wp_exec.
    assert (Hfinal : forall (peers : list DeviceData) (w' : World),
      memory w' = <[Z.pos (next_handle w3) := replicate (Z.to_nat N) Byte.x00]> (memory w3) ->
      gl_buffers w' = gl_buffers w3 -> resources w' = resources w3 ->
      Initialized RenderShared
        (set_m_bInitialized true
          (set_buffers (Z.pos (next_handle w1), (m_hPos s).2)
             (Z.pos (Pos.succ (next_handle w1)))
             (set_dVel (Z.pos (next_handle w3))
                (set_event (Z.pos (Pos.succ (Pos.succ (next_handle w1)))) d0) :: peers)
             (Z.pos (Pos.succ (Pos.succ (Pos.succ (next_handle w1)))),
              Z.pos (Pos.succ (Pos.succ (Pos.succ (Pos.succ (next_handle w1))))))
             (Z.pos (Pos.succ (Pos.succ (Pos.succ (Pos.succ (Pos.succ (Pos.succ
                (next_handle w1))))))),
              Z.pos (Pos.succ (Pos.succ (Pos.succ (Pos.succ (Pos.succ (Pos.succ
                (Pos.succ (Pos.succ (next_handle w1))))))))))
             (set_m_numBodies n s))) w').
    { intros peers w' Hm Hg Hres.
      unfold Initialized, render_buffer. cbn.
      rewrite Hpbo, Hsys, Hr, Hw, Hm, Hg, Hres. fold N.
      rewrite Hm3, Hg3, Hr3, Hm2, Hg2, Hr2, Hn3.
      split; [reflexivity|]. split; [reflexivity|]. split; [lia|]. split; [auto|].
      split; [prove_holds|].
      eexists. split; [reflexivity|].
      split; (split; [unfold NULL; lia|]); do 2 eexists.
      all: split; [prove_lookup | split; [prove_lookup | prove_holds]]. }
    destruct (m_bUseP2P s).
    + eapply wp_mono; [apply share_with_peers_wp|].
      intros ds' w' (Hl & Hm & Hg & Hres). world_simpl. wp_exec.
      now apply Hfinal.
    + wp_exec. apply Hfinal; world_simpl; reflexivity.
Qed.

(** Neither the damping nor calls that leave the stores alone disturb an
    initialised system. *)
Lemma Initialized_same_stores (mode : MemoryMode) (x : T) (s : System) (w w' : World) :
  same_stores w w' -> Initialized mode s w -> Initialized mode (set_m_damping x s) w'.
Proof.
  intros (Hm & Hg & Hres). unfold Initialized, render_buffer. cbn.
  now rewrite Hm, Hg, Hres.
Qed.

(** The constructor hands back an initialised system whenever it returns: for
    every memory mode, with at least one device and a body count whose array
    size fits 32 bits. *)
Lemma constructor_initialized (mode : MemoryMode) (numBodies numDevices blockSize : Z)
    (useP2P : bool) (deviceId : Z) (w : World) :
  1 <= numDevices -> 0 <= numBodies -> sizeof * 4 * numBodies < 2 ^ 32 ->
  wp (BodySystemCUDA_new numBodies numDevices blockSize (mode_flags mode).1
        (mode_flags mode).2 useP2P deviceId)
     (fun s' w' => Initialized mode s' w' /\ m_numBodies s' = numBodies)
     any_failure w.
Proof.
  intros Hnd Hn Hsize. pose proof sizeof_range as Hsz.
  assert (Hconv : to_int32 numBodies = numBodies).
  { unfold to_int32. rewrite wrap32_small by nia.
    destruct (Z.ltb_spec numBodies (2 ^ 31)); [reflexivity | nia]. }
  unfold BodySystemCUDA_new. cbv zeta. rewrite Hconv. wp_step.
  eapply wp_mono.
  { apply wp_conj; [apply (initialize_initialized mode) | apply initialize_state].
    all: cbn; try lia. now destruct mode. }
  intros s1 w1 (Hinit & _ & _ & Hbodies & _). cbn beta in *.
  rewrite wrap32_small in Hbodies by nia. wp_step.
  eapply wp_mono; [eapply wp_weaken; [apply setSoftening_wp | easy]|].
  intros s2 w2 (-> & _ & Hm & Hg & Hres). cbn beta.
  unfold setDamping. apply wp_ret. split.
  - apply (Initialized_same_stores mode _ s1 w1 w2); [unfold same_stores; auto | assumption].
  - exact Hbodies.
Qed.

End Construction.

(** ** Sample runs *)

Lemma sample_system_built (mode : MemoryMode) (numDevices : Z) :
  numDevices = 1 \/ numDevices = 2 ->
  BodySystemCUDA_new 1 numDevices 256 (fst (mode_flags mode)) (snd (mode_flags mode))
    false 0 sample_world
  = Ok (sample_system mode numDevices).1 (sample_system mode numDevices).2.
Proof. intros [-> | ->]; destruct mode; vm_compute; reflexivity. Qed.

Lemma sample_holds (m : gmap Z (list Byte.byte)) (p : Z) (b : list Byte.byte) :
  m !! p = Some b -> (16 <=? Z.of_nat (length b)) = true -> holds m p 16.
Proof. intros Hb Hl. exists b. split; [exact Hb | now apply Z.leb_le]. Qed.

Lemma sample_system_initialized (mode : MemoryMode) :
  Initialized mode (sample_system mode 1).1 (sample_system mode 1).2.
Proof.
  unfold Initialized. cbv zeta.
  split; [destruct mode; vm_compute; reflexivity|].
  split; [destruct mode; vm_compute; reflexivity|].
  split; [destruct mode; vm_compute; (split; [discriminate | reflexivity])|].
  split; [left; destruct mode; vm_compute; (split; reflexivity)|].
  assert (Hsize : forall mode, m_numBodies (sample_system mode 1).1 * 4 * @sizeof Float32.float _ = 16)
    by (intros []; vm_compute; reflexivity).
  rewrite Hsize.
  split.
  { destruct mode; eapply sample_holds; vm_compute; reflexivity. }
  destruct mode.
  - eexists. split; [vm_compute; reflexivity|].
    split; eapply sample_holds; vm_compute; reflexivity.
  - eexists. split; [vm_compute; reflexivity|].
    eapply sample_holds; vm_compute; reflexivity.
  - eexists. split; [vm_compute; reflexivity|].
    split; (split; [vm_compute; discriminate|]); eexists _, _;
      (split; [vm_compute; reflexivity|]); (split; [vm_compute; reflexivity|]);
      eapply sample_holds; vm_compute; reflexivity.
Qed.

Lemma sample_array_there (mode : MemoryMode) :
  memory (sample_system mode 1).2 !! 1000 = Some sample_array.
Proof. destruct mode; vm_compute; reflexivity. Qed.

(** C2, as stated, fails: with [usePBO] and two devices the constructor
    returns, and the system it returns is initialised, has [m_bUsePBO] set
    and two devices. *)
Lemma C2_counterexample :
  exists s w',
    BodySystemCUDA_new 1 2 256 true false false 0 sample_world = Ok s w' /\
    m_bInitialized s = true /\ m_bUsePBO s = true /\ m_numDevices s = 2.
Proof.
  eexists _, _. split; [apply (sample_system_built RenderShared 2); auto|].
  vm_compute. auto.
Qed.

Lemma C2_render_shared_multi_device_witness :
  m_bInitialized (sample_system RenderShared 2).1 = true /\
  m_bUsePBO (sample_system RenderShared 2).1 = true /\
  m_bUseSysMem (sample_system RenderShared 2).1 = false /\
  m_bUseP2P (sample_system RenderShared 2).1 = false /\
  m_numDevices (sample_system RenderShared 2).1 = 2.
Proof.
  apply (C2_render_shared_multi_device 1 2 256 false false 0 sample_world
           (sample_system RenderShared 2).1 (sample_system RenderShared 2).2);
    [lia | apply (sample_system_built RenderShared 2); auto].
Defined.

Lemma C4_update_swaps_witness :
  exists s1 w1,
    update idle_kernel Float32.lit_0_995 (sample_system DeviceLocal 1).1
      (sample_system DeviceLocal 1).2 = Ok s1 w1 /\
    m_currentRead s1 = m_currentWrite (sample_system DeviceLocal 1).1 /\
    m_currentWrite s1 = m_currentRead (sample_system DeviceLocal 1).1.
Proof.
  set (s := (sample_system DeviceLocal 1).1). set (w := (sample_system DeviceLocal 1).2).
  assert (Hi : m_bInitialized s = true) by (vm_compute; reflexivity).
  destruct (C4_update_swaps idle_kernel Float32.lit_0_995 s w Hi) as [Hswap Hret].
  destruct (proj2 Hret) as (s1 & w1 & Hrun); [eexists; reflexivity|].
  exists s1, w1. split; [exact Hrun|].
  destruct (Hswap s1 w1 Hrun) as (_ & Hr & Hw & _). auto.
Defined.

Lemma C5_position_round_trip_witness :
  (exists s1 w1 p w2,
     setArray BODYSYSTEM_POSITION 1000 (sample_system DeviceLocal 1).1
       (sample_system DeviceLocal 1).2 = Ok s1 w1 /\
     getArray BODYSYSTEM_POSITION s1 w1 = Ok p w2 /\
     exists b, memory w2 !! p = Some b /\ take (length sample_array) b = sample_array) /\
  (exists s1 w1 p w2,
     setArray BODYSYSTEM_POSITION 1000 (sample_system HostMapped 1).1
       (sample_system HostMapped 1).2 = Ok s1 w1 /\
     getArray BODYSYSTEM_POSITION s1 w1 = Ok p w2 /\
     exists b, memory w2 !! p = Some b /\ take (length sample_array) b = sample_array) /\
  (exists s1 w1 p w2,
     setArray BODYSYSTEM_POSITION 1000 (sample_system RenderShared 1).1
       (sample_system RenderShared 1).2 = Ok s1 w1 /\
     getArray BODYSYSTEM_POSITION s1 w1 = Ok p w2 /\
     exists b, memory w2 !! p = Some b /\ take (length sample_array) b = sample_array).
Proof.
  split; [|split].
  - apply (C5_position_round_trip DeviceLocal _ _ 1000 sample_array);
      [apply sample_system_initialized | apply sample_array_there | vm_compute; reflexivity].
  - apply (C5_position_round_trip HostMapped _ _ 1000 sample_array);
      [apply sample_system_initialized | apply sample_array_there | vm_compute; reflexivity].
  - apply (C5_position_round_trip RenderShared _ _ 1000 sample_array);
      [apply sample_system_initialized | apply sample_array_there | vm_compute; reflexivity].
Defined.

(** C6, as stated, fails for the velocity array: on a system with
    [m_bUsePBO], [setArray(BODYSYSTEM_VELOCITY, data)] issues one
    host-to-device [cudaMemcpy] into the velocity buffer of device 0 and no
    [glBufferSubData] at all. *)
Lemma C6_counterexample :
  Initialized RenderShared (sample_system RenderShared 1).1
    (sample_system RenderShared 1).2 /\
  exists s' w' d0,
    m_deviceData (sample_system RenderShared 1).1 !! 0%nat = Some d0 /\
    setArray BODYSYSTEM_VELOCITY 1000 (sample_system RenderShared 1).1
      (sample_system RenderShared 1).2 = Ok s' w' /\
    trace w' = trace (sample_system RenderShared 1).2
                 ++ [cudaMemcpy_ (dVel d0) 1000 16 cudaMemcpyHostToDevice] /\
    forallb (fun c => negb (is_glBufferSubData c)) (trace w') = true.
Proof.
  split; [apply sample_system_initialized|].
  eexists _, _, _. split; [vm_compute; reflexivity|].
  split; [vm_compute; reflexivity|].
  split; vm_compute; reflexivity.
Qed.

Lemma C6_setArray_writes_witness :
  array_bytes (T:=Float32.float) (m_numBodies (sample_system RenderShared 1).1) = 16 /\
  setArray BODYSYSTEM_POSITION 1000 (sample_system RenderShared 1).1
    (sample_system RenderShared 1).2 <> ExitFailure /\
  setArray BODYSYSTEM_POSITION 1000 (sample_system RenderShared 1).1
    (sample_system RenderShared 1).2 <> AssertionFailed.
Proof.
  set (s := (sample_system RenderShared 1).1). set (w := (sample_system RenderShared 1).2).
  assert (Hi : m_bInitialized s = true) by (vm_compute; reflexivity).
  destruct (C6_setArray_writes BODYSYSTEM_POSITION 1000 s w Hi) as (_ & Hbytes & Hpbo).
  split.
  - rewrite (proj1 (Hbytes ltac:(vm_compute; split; [discriminate | reflexivity]))).
    vm_compute. reflexivity.
  - apply Hpbo. vm_compute. reflexivity.
Defined.

Lemma C7_getArray_position_witness :
  exists p w',
    getArray BODYSYSTEM_POSITION (sample_system RenderShared 1).1
      (sample_system RenderShared 1).2 = Ok p w' /\
    getArray_position_effect (sample_system RenderShared 1).1
      (sample_system RenderShared 1).2 p w'.
Proof.
  set (s := (sample_system RenderShared 1).1). set (w := (sample_system RenderShared 1).2).
  assert (Hrun : exists p w', getArray BODYSYSTEM_POSITION s w = Ok p w')
    by (vm_compute; eexists _, _; reflexivity).
  destruct Hrun as (p & w' & Hrun). exists p, w'. split; [exact Hrun|].
  apply (C7_getArray_position s w p w'); [vm_compute; reflexivity | | exact Hrun].
  left. vm_compute. reflexivity.
Defined.

(** C8, as stated, fails for the two setters: on the object as the member
    initialisers leave it, not initialised, [setDamping] returns with the
    new damping stored and [setSoftening] returns after issuing
    [setSofteningSquared]. *)
Lemma C8_counterexample :
  m_bInitialized (BodySystemCUDA_members 1 1 256 false false false 0) = false /\
  (exists s',
     setDamping Float32.lit_0_995 (BodySystemCUDA_members 1 1 256 false false false 0)
       sample_world = Ok s' sample_world /\
     m_damping s' = Float32.lit_0_995) /\
  (exists s' w',
     setSoftening Float32.lit_0_00125 (BodySystemCUDA_members 1 1 256 false false false 0)
       sample_world = Ok s' w' /\
     trace w' = [setSofteningSquared_
                   (Float32.mul Float32.lit_0_00125 Float32.lit_0_00125)]).
Proof.
  split; [reflexivity|]. split.
  - eexists. split; reflexivity.
  - eexists _, _. split; vm_compute; reflexivity.
Qed.

Lemma C8_initialized_guards_witness :
  _initialize 1 (sample_system HostMapped 1).1 (sample_system HostMapped 1).2
  = AssertionFailed /\
  _finalize (BodySystemCUDA_members 1 1 256 false true false 0)
    (sample_system HostMapped 1).2 = AssertionFailed.
Proof.
  set (s := (sample_system HostMapped 1).1). set (w := (sample_system HostMapped 1).2).
  split.
  - apply (C8_initialized_guards idle_kernel s w). vm_compute. reflexivity.
  - apply (C8_initialized_guards idle_kernel
             (BodySystemCUDA_members 1 1 256 false true false 0) w).
    reflexivity.
Defined.

Lemma C10_constructor_defaults_witness :
  m_bInitialized (sample_system RenderShared 2).1 = true /\
  m_currentRead (sample_system RenderShared 2).1 = 0 /\
  m_currentWrite (sample_system RenderShared 2).1 = 1 /\
  m_damping (sample_system RenderShared 2).1 = Float32.lit_0_995.
Proof.
  destruct (C10_constructor_defaults 1 2 256 true false false 0 sample_world) as [Hnew _].
  destruct (Hnew _ _ (sample_system_built RenderShared 2 ltac:(auto))) as (_ & H).
  exact H.
Defined.

(** The two literals of the constructor, as bit patterns: 0x3A A3D70A and
    0x3F 7EB852. *)
Example lit_0_00125_bits : Float32.lit_0_00125 = S754_finite false 10737418 (-33).
Proof. reflexivity. Qed.

Example lit_0_995_bits : Float32.lit_0_995 = S754_finite false 16693330 (-24).
Proof. reflexivity. Qed.
(** * Further properties *)

(** ** The partitioner: what holds for every device list *)

(** A rounded share is a multiple of 256 even when the addition wraps. *)
Lemma round_up_mod c : round_up c mod 256 = 0.
Proof.
  unfold round_up, wrap32. cbv zeta.
  rewrite Z.mod_mod_divide by (exists (2 ^ 24); lia).
  rewrite Z.mul_comm. apply Z.mod_mul. lia.
Qed.

Section PartitionRanges.

Variables n nd : Z.
Hypothesis n_range : 0 <= n < 2 ^ 32.
Hypothesis nd_range : 0 <= nd < 2 ^ 32.

(** Unless the body count is one more than a multiple of 256, the loop hands
    out everything that remains: the running offset is a multiple of 256
    until a slot is capped, and a capped slot takes all that is left. *)
Lemma partition_loop_exact shares i off rem :
  n mod 256 <> 1 ->
  0 <= off -> 0 <= rem -> off + rem = n ->
  0 <= i -> i + Z.of_nat (length shares) = nd ->
  shares <> [] ->
  off mod 256 = 0 \/ rem = 0 ->
  sum_counts (partition_loop n nd shares i off rem) = rem.
Proof.
  intros Hmod. revert i off rem.
  induction shares as [|c cs IH]; intros i off rem Hoff Hrem Hsum Hi Hnd Hne Hinv.
  - congruence.
  - cbn [partition_loop].
    destruct (loop_step n n_range c off rem Hoff Hrem Hsum) as (Hmin & Hkr & Hw1 & Hw2).
    rewrite Hw1, Hw2.
    set (cn := if rem <? round_up c then rem else round_up c) in *.
    cbn [length] in Hnd.
    assert (Hnext : (off + cn) mod 256 = 0 \/ rem - cn = 0).
    { destruct (Z.eq_dec cn rem) as [-> | Hlt]; [right; lia|].
      left. destruct Hinv as [Hinv | ->]; [|lia].
      assert (cn = round_up c) by lia.
      rewrite Z.add_mod, Hinv by lia. replace cn with (round_up c) by lia.
      rewrite round_up_mod. reflexivity. }
    destruct (decide (cs = [])) as [-> | Hcs].
    + cbn [length] in Hnd.
      replace (i =? wrap32 (nd - 1)) with true
        by (symmetry; apply Z.eqb_eq; rewrite wrap32_small by lia; lia).
      cbn [partition_loop andb sum_counts slot_counts map foldr snd].
      destruct (off + cn <? wrap32 (n - 1)) eqn:Hlt.
      * apply Z.ltb_lt in Hlt. pose proof (wrap32_range (n - 1)).
        rewrite (wrap32_small (n - (off + cn))) by lia.
        rewrite wrap32_small by lia. lia.
      * apply Z.ltb_ge in Hlt.
        assert (1 <= n).
        { destruct (Z.eq_dec n 0) as [E|]; [|lia]. rewrite E in Hlt.
          change (wrap32 (0 - 1)) with 4294967295 in Hlt. lia. }
        rewrite wrap32_small in Hlt by lia.
        destruct Hnext as [Hnext | Hnext]; [|lia].
        destruct (Z.eq_dec (off + cn) n) as [E | E]; [lia|].
        exfalso. apply Hmod.
        replace n with (off + cn + 1) by lia.
        rewrite Z.add_mod, Hnext by lia. reflexivity.
    + assert (0 < Z.of_nat (length cs)) by (destruct cs; [congruence | cbn [length]; lia]).
      replace (i =? wrap32 (nd - 1)) with false
        by (symmetry; apply Z.eqb_neq; rewrite wrap32_small by lia; lia).
      cbn [andb]. rewrite sum_counts_cons.
      rewrite (IH (i + 1) (off + cn) (rem - cn)); try lia; assumption.
Qed.

(** Every slot lies between the running offset and the body count. *)
Lemma partition_loop_bounds shares i off rem k o cnt :
  0 <= off -> 0 <= rem -> off + rem = n ->
  0 <= i -> i + Z.of_nat (length shares) = nd ->
  partition_loop n nd shares i off rem !! k = Some (o, cnt) ->
  off <= o /\ 0 <= cnt /\ o + cnt <= n.
Proof.
  revert i off rem k.
  induction shares as [|c cs IH]; intros i off rem k Hoff Hrem Hsum Hi Hnd Hl.
  - discriminate.
  - cbn [partition_loop] in Hl.
    destruct (loop_step n n_range c off rem Hoff Hrem Hsum) as (Hmin & Hkr & Hw1 & Hw2).
    rewrite Hw1, Hw2 in Hl.
    set (cn := if rem <? round_up c then rem else round_up c) in *.
    cbn [length] in Hnd.
    destruct k as [|k'].
    + cbn in Hl.
      destruct ((i =? wrap32 (nd - 1)) && (off + cn <? wrap32 (n - 1))) eqn:Hb.
      * apply andb_true_iff in Hb as [_ Hlt]. apply Z.ltb_lt in Hlt.
        pose proof (wrap32_range (n - 1)).
        destruct (Z.eq_dec n 0) as [Hn0 | Hn0].
        -- assert (off = 0 /\ cn = 0) as [E1 E2] by lia.
           rewrite E1, E2, Hn0 in Hl.
           change (wrap32 (0 + wrap32 (0 - (0 + 0)))) with 0 in Hl.
           inversion Hl; subst o cnt. lia.
        -- rewrite wrap32_small in Hlt by lia.
           rewrite (wrap32_small (n - (off + cn))) in Hl by lia.
           rewrite wrap32_small in Hl by lia.
           inversion Hl; subst o cnt. lia.
      * inversion Hl; subst o cnt. lia.
    + cbn [lookup list_lookup] in Hl.
      destruct (IH (i + 1) (off + cn) (rem - cn) k') as (Ho & Hc & Hn); try lia; exact Hl.
Qed.

(** A later slot starts where an earlier one has ended, or after. *)
Lemma partition_loop_ordered shares i off rem k k' o cnt o' cnt' :
  0 <= off -> 0 <= rem -> off + rem = n ->
  0 <= i -> i + Z.of_nat (length shares) = nd ->
  (k < k')%nat ->
  partition_loop n nd shares i off rem !! k = Some (o, cnt) ->
  partition_loop n nd shares i off rem !! k' = Some (o', cnt') ->
  o + cnt <= o'.
Proof.
  revert i off rem k k'.
  induction shares as [|c cs IH]; intros i off rem k k' Hoff Hrem Hsum Hi Hnd Hk Hl Hl'.
  - discriminate.
  - cbn [partition_loop] in Hl, Hl'.
    destruct (loop_step n n_range c off rem Hoff Hrem Hsum) as (Hmin & Hkr & Hw1 & Hw2).
    rewrite Hw1, Hw2 in Hl, Hl'.
    set (cn := if rem <? round_up c then rem else round_up c) in *.
    cbn [length] in Hnd.
    destruct k' as [|j']; [lia|]. cbn [lookup list_lookup] in Hl'.
    assert (Hlen : (j' < length cs)%nat).
    { apply lookup_lt_Some in Hl'. now rewrite partition_loop_length in Hl'. }
    destruct k as [|j].
    + cbn in Hl.
      replace (i =? wrap32 (nd - 1)) with false in Hl
        by (symmetry; apply Z.eqb_neq; rewrite wrap32_small by lia; lia).
      cbn [andb] in Hl. inversion Hl; subst o cnt.
      destruct (partition_loop_bounds cs (i + 1) (off + cn) (rem - cn) j' o' cnt');
        try lia; assumption.
    + cbn [lookup list_lookup] in Hl.
      eapply (IH (i + 1) (off + cn) (rem - cn) j j'); try eassumption; lia.
Qed.

End PartitionRanges.

(** X1. For at least one device the slots hold all bodies or all but one,
    and they hold all of them whenever the body count is not one more than a
    multiple of 256: the comparison [offset < m_numBodies - 1] can only
    leave a body out when the offset, a multiple of 256, is exactly
    [m_numBodies - 1]. *)
Theorem partition_devices_sum (devs : list cudaDeviceProp) (n : Z) :
  devs <> [] -> 0 <= n < 2 ^ 32 -> Z.of_nat (length devs) < 2 ^ 32 ->
  (sum_counts (partition_devices devs n) = n \/
   sum_counts (partition_devices devs n) = n - 1) /\
  (n mod 256 <> 1 -> sum_counts (partition_devices devs n) = n).
Proof.
  intros Hne Hn Hlen. unfold partition_devices, partition_weights.
  set (ws := map weight devs).
  set (shares := map (fun w => share w (total_weight ws) n) ws).
  assert (Hls : length shares = length devs) by (unfold shares, ws; now rewrite !length_map).
  assert (Hlw : length ws = length devs) by (unfold ws; now rewrite length_map).
  assert (Hsne : shares <> []) by (destruct devs; [congruence | discriminate]).
  split.
  - apply (partition_loop_sum n (Z.of_nat (length ws))); try lia; assumption.
  - intros Hmod.
    apply (partition_loop_exact n (Z.of_nat (length ws))); try lia; try assumption.
    left. reflexivity.
Qed.

Lemma partition_devices_sum_witness :
  sum_counts (partition_devices [gpu 16 3; gpu 8 1] 1000) = 1000.
Proof.
  apply (partition_devices_sum [gpu 16 3; gpu 8 1] 1000);
    [discriminate | lia | simpl; lia | vm_compute; discriminate].
Defined.

(** X2. No body is given to two devices and none lies outside the system:
    every slot is a range inside [[0, m_numBodies]] with a count that is not
    negative, and a slot of a later device starts at or after the end of the
    slot of an earlier one. *)
Theorem partition_devices_disjoint (devs : list cudaDeviceProp) (n : Z)
    (k k' : nat) (o cnt o' cnt' : Z) :
  0 <= n < 2 ^ 32 -> Z.of_nat (length devs) < 2 ^ 32 ->
  partition_devices devs n !! k = Some (o, cnt) ->
  partition_devices devs n !! k' = Some (o', cnt') ->
  (0 <= o /\ 0 <= cnt /\ o + cnt <= n) /\
  ((k < k')%nat -> o + cnt <= o').
Proof.
  intros Hn Hlen. unfold partition_devices, partition_weights.
  set (ws := map weight devs).
  set (shares := map (fun w => share w (total_weight ws) n) ws).
  assert (Hls : length shares = length devs) by (unfold shares, ws; now rewrite !length_map).
  assert (Hlw : length ws = length devs) by (unfold ws; now rewrite length_map).
  intros Hl Hl'. split.
  - eapply (partition_loop_bounds n (Z.of_nat (length ws))); try eassumption; lia.
  - intros Hk.
    eapply (partition_loop_ordered n (Z.of_nat (length ws))) with (k := k) (k' := k');
      try eassumption; lia.
Qed.

Lemma partition_devices_disjoint_witness :
  (0 <= 0 /\ 0 <= 512 /\ 0 + 512 <= 1000) /\ ((0 < 1)%nat -> 0 + 512 <= 512).
Proof.
  apply (partition_devices_disjoint [gpu 16 3; gpu 16 3] 1000 0 1 0 512 512 488);
    [lia | simpl; lia | vm_compute; reflexivity | vm_compute; reflexivity].
Defined.

(** ** Blocks that are live *)

Lemma fill_block_defined (m : gmap Z (list Byte.byte)) ptr size b :
  m !! ptr = Some b -> 0 <= size <= Z.of_nat (length b) ->
  fill_block ptr size m
  = Some (<[ptr := replicate (Z.to_nat size) Byte.x00 ++ drop (Z.to_nat size) b]> m).
Proof.
  intros Hb Hs. unfold fill_block. rewrite Hb.
  destruct (Z.leb_spec 0 size); [|lia].
  destruct (Z.leb_spec size (Z.of_nat (length b))); [|lia].
  reflexivity.
Qed.

(** Clearing a block that was just allocated with the same size. *)
Lemma fill_block_new (m : gmap Z (list Byte.byte)) ptr size :
  0 <= size ->
  m !! ptr = Some (replicate (Z.to_nat size) Byte.x00) ->
  fill_block ptr size m = Some (<[ptr := replicate (Z.to_nat size) Byte.x00]> m).
Proof.
  intros Hs Hb. rewrite (fill_block_defined m ptr size _ Hb)
    by (rewrite length_replicate; lia).
  rewrite drop_ge by (rewrite length_replicate; lia).
  now rewrite app_nil_r.
Qed.

Lemma fill_block_holds (m : gmap Z (list Byte.byte)) ptr size :
  0 <= size -> holds m ptr size -> fill_block ptr size m <> None.
Proof.
  intros Hs (b & Hb & Hl). now rewrite (fill_block_defined m ptr size b Hb) by lia.
Qed.

(** A block is live in a memory built by allocations and fills. *)
Ltac block_holds :=
  repeat first
    [ eassumption
    | eapply holds_fill; [eassumption|]
    | apply holds_insert_eq; rewrite ?length_take, ?length_replicate; lia
    | apply holds_insert_ne; [lia|] ].

(** A [memset] inside a block that is live cannot be undefined. *)
Ltac fill_absurd :=
  match goal with
  | E : fill_block _ _ _ = None |- _ =>
      exfalso; revert E; apply fill_block_holds; [lia | block_holds]
  end.

(** An error code that is known not to be the one tested for. *)
Ltac code_absurd :=
  match goal with
  | H : ?x <> ?x |- _ => exfalso; exact (H eq_refl)
  | H : @eq cudaError_t _ _ |- _ => discriminate H
  end.

(** Symbolic execution of a run that must return. *)
Ltac wp_sure :=
  repeat (wp_step; cbn beta iota; world_simpl;
          try code_absurd; try fill_absurd).


(** ** Devices that are not there *)

Section Failures.

Context {T : Type} {ST : Scalar T}.

#[local] Abbreviation World := (@World T).
#[local] Abbreviation System := (@BodySystemCUDA T).
#[local] Abbreviation M := (@M T).

(** A function that can neither return nor fail otherwise exits. *)
Lemma wp_exits {A} (m : M A) (w : World) :
  wp m (fun _ _ => False) (fun f => f = failed_exit) w -> m w = ExitFailure.
Proof. unfold wp. destruct (m w); [tauto | discriminate | reflexivity | discriminate]. Qed.

Lemma wp_is_undefined {A} (m : M A) (w : World) :
  wp m (fun _ _ => False) (fun f => f = failed_undefined) w -> m w = Undefined.
Proof. unfold wp. destruct (m w); [tauto | discriminate | discriminate | reflexivity]. Qed.

(** The first loop of [_initialize] exits at the first device the platform
    does not have. *)
Lemma query_weights_exits (n : nat) (i : Z) (w : World) :
  0 <= i <= Z.of_nat (length (devices w)) ->
  Z.of_nat (length (devices w)) < i + Z.of_nat n ->
  wp (query_weights n i) (fun _ _ => False) (fun f => f = failed_exit) w.
Proof.
  revert i w. induction n as [|n IH]; intros i w Hi Hlen; cbn [query_weights].
  - lia.
  - wp_step. apply wp_cudaGetDeviceProperties; cbv zeta.
    + intros props Hp. cbn beta iota. wp_step. wp_step; [|congruence].
      apply lookup_lt_Some in Hp.
      wp_step. eapply wp_mono; [apply (IH (i + 1)); world_simpl; lia|].
      intros ws w' [].
    + intros Hnone. cbn beta iota. wp_step. wp_step; [congruence | reflexivity].
Qed.

(** X3. Asking for more devices than the platform has ends the process:
    [cudaGetDeviceProperties] fails for the first missing device and
    [checkCudaErrors] exits, before anything is allocated.  This holds for
    [_initialize] on a system that is not initialised and so for the
    constructor, whatever the flags. *)
Theorem initialize_missing_device (w : World) :
  (forall (n : Z) (s : System),
     m_bInitialized s = false ->
     Z.of_nat (length (devices w)) < m_numDevices s ->
     _initialize n s w = ExitFailure) /\
  (forall (numBodies numDevices blockSize : Z) (usePBO useSysMem useP2P : bool)
          (deviceId : Z),
     Z.of_nat (length (devices w)) < numDevices ->
     BodySystemCUDA_new numBodies numDevices blockSize usePBO useSysMem useP2P
       deviceId w = ExitFailure).
Proof.
  assert (Hinit : forall (n : Z) (s : System),
            m_bInitialized s = false ->
            Z.of_nat (length (devices w)) < m_numDevices s ->
            _initialize n s w = ExitFailure).
  { intros n s Hi Hlen. apply wp_exits. unfold _initialize. rewrite Hi.
    wp_step. wp_step; [|discriminate]. cbv zeta. cbn [m_numDevices set_m_numBodies].
    wp_step. unfold divide_workload. wp_step.
    eapply wp_mono; [apply query_weights_exits; lia|]. intros ws w' []. }
  split; [exact Hinit|].
  intros numBodies numDevices blockSize usePBO useSysMem useP2P deviceId Hlen.
  unfold BodySystemCUDA_new. cbv zeta. unfold bind at 1.
  rewrite Hinit; [reflexivity | reflexivity | exact Hlen].
Qed.


(** ** No device at all *)

Lemma initialize_no_device_host (n : Z) (s : System) (w : World) :
  m_bInitialized s = false -> m_numDevices s = 0 -> m_bUseSysMem s = true ->
  wp (_initialize n s)
     (fun s' w' => m_bInitialized s' = true /\ m_deviceData s' = [] /\
                   m_bUseSysMem s' = true /\ m_numDevices s' = 0 /\
                   m_currentRead s' = m_currentRead s)
     no_failure w.
Proof.
  intros Hi Hnd Hsys. unfold _initialize. rewrite Hi.
  wp_step. wp_step; [|discriminate]. cbv zeta.
  cbn [m_numBodies m_numDevices set_m_numBodies m_bUseSysMem m_bUsePBO m_bUseP2P
       m_devID m_hPos m_pbo m_pGRes].
  rewrite Hnd, Hsys. unfold divide_workload.
  pose proof (wrap32_range (sizeof * 4 * n)) as Hm.
  set (N := wrap32 (sizeof * 4 * n)) in *.
  change (Z.to_nat 0) with 0%nat. cbn [query_weights].
  wp_step. wp_step.
  change (partition_weights [] (wrap32 n)) with (@nil (Z * Z)). cbn [map].
  wp_step. wp_sure.
  cbn [map_host_buffers]. wp_sure. cbn. auto.
Qed.

Lemma initialize_no_device_local (n : Z) (s : System) (w : World) :
  m_bInitialized s = false -> m_numDevices s = 0 -> m_bUseSysMem s = false ->
  0 <= m_devID s < Z.of_nat (length (devices w)) ->
  _initialize n s w = Undefined.
Proof.
  intros Hi Hnd Hsys Hdev. apply wp_is_undefined. unfold _initialize. rewrite Hi.
  wp_step. wp_step; [|discriminate]. cbv zeta.
  cbn [m_numBodies m_numDevices set_m_numBodies m_bUseSysMem m_bUsePBO m_bUseP2P
       m_devID m_hPos m_pbo m_pGRes].
  rewrite Hnd, Hsys. unfold divide_workload.
  change (Z.to_nat 0) with 0%nat. cbn [query_weights].
  wp_step. wp_step.
  change (partition_weights [] (wrap32 n)) with (@nil (Z * Z)). cbn [map].
  set (N := wrap32 (sizeof * 4 * n)). set (C := wrap32 (wrap32 n * 4)).
  wp_step. wp_exec; try reflexivity; try code_absurd.
  - match goal with
    | E : head _ = Some ?a |- _ => change (head (@nil DeviceData) = Some a) in E; discriminate E
    end.
  - lia.
Qed.

(** X4. With [numDevices = 0] the array [m_deviceData] has no element.
    Outside the [m_bUseSysMem] branch [_initialize] still writes
    [m_deviceData[0].event]: once [cudaSetDevice(m_devID)] has succeeded the
    constructor runs into undefined behaviour.  In the [m_bUseSysMem] branch
    every loop is empty and the constructor returns an initialised system
    without a device, on which every [getArray] reads [m_deviceData[0]] and is
    undefined as well. *)
Theorem constructor_no_device (numBodies blockSize : Z) (usePBO useP2P : bool)
    (deviceId : Z) (w : World) :
  (0 <= deviceId < Z.of_nat (length (devices w)) ->
   BodySystemCUDA_new numBodies 0 blockSize usePBO false useP2P deviceId w = Undefined) /\
  (exists s w',
     BodySystemCUDA_new numBodies 0 blockSize usePBO true useP2P deviceId w = Ok s w' /\
     m_bInitialized s = true /\ m_deviceData s = [] /\
     forall a w'', getArray a s w'' = Undefined).
Proof.
  split.
  - intros Hdev. unfold BodySystemCUDA_new. cbv zeta. unfold bind at 1.
    rewrite initialize_no_device_local; [reflexivity..|exact Hdev].
  - assert (Hwp : wp (BodySystemCUDA_new numBodies 0 blockSize usePBO true useP2P deviceId)
              (fun s _ => m_bInitialized s = true /\ m_deviceData s = [] /\
                          m_bUseSysMem s = true /\ m_currentRead s = 0)
              no_failure w).
    { unfold BodySystemCUDA_new. cbv zeta. wp_step.
      eapply wp_mono; [apply initialize_no_device_host; reflexivity|].
      intros s1 w1 (Hi & Hdd & Hsys & Hnd & Hr). cbn beta.
      unfold setSoftening. cbv zeta. rewrite Hnd.
      change (Z.to_nat 0) with 0%nat. cbn [setSoftening_loop].
      wp_step. wp_step. wp_step. wp_step. unfold setDamping. wp_step.
      cbn. auto. }
    destruct (wp_returns _ _ _ Hwp) as (s & w' & Hrun & Hi & Hdd & Hsys & Hr).
    exists s, w'. split; [exact Hrun|]. split; [exact Hi|]. split; [exact Hdd|].
    intros a w''. unfold getArray, bind, assert, defined, ret.
    rewrite Hi, Hsys, Hdd, Hr. destruct a; reflexivity.
Qed.

(** ** The device left current *)

(** The loop of [setSoftening] selects every device it visits when there is
    more than one, and exits at the first that is not there. *)
Lemma setSoftening_loop_devices (nd : Z) (sq : T) (n : nat) (i : Z) (w : World) :
  0 <= i ->
  wp (setSoftening_loop nd sq n i)
     (fun _ w' =>
        devices w' = devices w /\
        (1 < nd -> i + Z.of_nat n <= Z.of_nat (length (devices w)) \/ n = 0%nat) /\
        current_device w' =
          (if (1 <? nd) && (0 <? Z.of_nat n) then i + Z.of_nat n - 1
           else current_device w))
     (fun f => f = failed_exit /\ 1 < nd /\
               Z.of_nat (length (devices w)) < i + Z.of_nat n) w.
Proof.
  revert i w. induction n as [|n IH]; intros i w Hi; cbn [setSoftening_loop].
  - apply wp_ret. rewrite andb_false_r. auto.
  - destruct (Z.ltb_spec 1 nd) as [Hnd | Hnd].
    + wp_sure.
      * eapply wp_mono; [eapply wp_weaken; [apply (IH (i + 1)); lia|]|].
        -- intros f (-> & _ & Hlen). world_simpl. split; [reflexivity|]. split; lia.
        -- intros ? w' (Hd & Hall & Hc). world_simpl.
           split; [exact Hd|]. split.
           ++ intros _. left. destruct (Hall Hnd) as [Hle | ->]; lia.
           ++ rewrite Hc. cbn [andb].
              destruct (Z.ltb_spec 0 (Z.of_nat n)), (Z.ltb_spec 0 (Z.of_nat (S n))); lia.
      * split; [reflexivity|]. split; lia.
    + wp_sure.
      eapply wp_mono; [eapply wp_weaken; [apply (IH (i + 1)); lia|]|].
      * intros f (_ & Hlt & _). lia.
      * intros ? w' (Hd & Hall & Hc). world_simpl.
        split; [exact Hd|]. split; [lia|]. exact Hc.
Qed.

Lemma setSoftening_outcome (x : T) (s : System) (w : World) :
  (m_numDevices s <= 1 ->
   exists w', setSoftening x s w = Ok s w' /\ current_device w' = current_device w) /\
  (1 < m_numDevices s <= Z.of_nat (length (devices w)) ->
   exists w', setSoftening x s w = Ok s w' /\ current_device w' = m_numDevices s - 1) /\
  (1 < m_numDevices s -> Z.of_nat (length (devices w)) < m_numDevices s ->
   setSoftening x s w = ExitFailure).
Proof.
  pose proof (setSoftening_loop_devices (m_numDevices s) (scalar_mul x x)
                (Z.to_nat (m_numDevices s)) 0 w ltac:(lia)) as Hloop.
  unfold setSoftening. cbv zeta. unfold bind, ret. unfold wp in Hloop.
  destruct (setSoftening_loop _ _ _ _ w) as [[] w'| | |].
  - destruct Hloop as (_ & Hall & Hc).
    split; [|split].
    + intros Hnd. exists w'. split; [reflexivity|]. rewrite Hc.
      destruct (Z.ltb_spec 1 (m_numDevices s)); [lia | reflexivity].
    + intros Hnd. exists w'. split; [reflexivity|]. rewrite Hc.
      destruct (Z.ltb_spec 1 (m_numDevices s)); [|lia].
      destruct (Z.ltb_spec 0 (Z.of_nat (Z.to_nat (m_numDevices s)))); cbn [andb]; lia.
    + intros Hnd Hlen. destruct (Hall Hnd); lia.
  - destruct Hloop as [? _]; discriminate.
  - destruct Hloop as (_ & Hnd & Hlen).
    split; [|split]; [lia | lia | reflexivity].
  - destruct Hloop as [? _]; discriminate.
Qed.

(** X5. [setSoftening] never changes the object.  With at most one device
    it selects no device: it returns and the current device is the one
    before.  With more than one, all of them present, it returns and leaves
    the last device, [m_numDevices - 1], current: the selection is not
    undone.  With more devices than the platform has it exits. *)
Theorem setSoftening_current_device (x : T) (s : System) (w : World) :
  (m_numDevices s <= 1 ->
   exists w', setSoftening x s w = Ok s w' /\ current_device w' = current_device w) /\
  (1 < m_numDevices s <= Z.of_nat (length (devices w)) ->
   exists w', setSoftening x s w = Ok s w' /\ current_device w' = m_numDevices s - 1) /\
  (1 < m_numDevices s -> Z.of_nat (length (devices w)) < m_numDevices s ->
   setSoftening x s w = ExitFailure).
Proof. exact (setSoftening_outcome x s w). Qed.


(** X6. The constructor ends with [setSoftening], so a system built on more
    than one device leaves device [numDevices - 1] current when the
    constructor returns, whatever [deviceId] was asked for and whatever the
    memory flags are. *)
Theorem constructor_current_device (numBodies numDevices blockSize : Z)
    (usePBO useSysMem useP2P : bool) (deviceId : Z) (w : World) (s : System) (w' : World) :
  1 < numDevices ->
  BodySystemCUDA_new numBodies numDevices blockSize usePBO useSysMem useP2P deviceId w
  = Ok s w' ->
  current_device w' = numDevices - 1 /\ m_devID s = deviceId.
Proof.
  intros Hnd H. unfold BodySystemCUDA_new in H. cbv zeta in H.
  apply bind_Ok_inv in H as (s1 & w1 & Hinit & H).
  apply bind_Ok_inv in H as (s2 & w2 & Hsoft & H).
  rewrite setDamping_run in H. inversion H; subst s w'; clear H.
  pose proof (wp_Ok _ _ _ _ _ _ (initialize_state _ _ w) Hinit)
    as (_ & _ & _ & Hn & _ & _ & _ & _ & _ & _ & Hdev & _).
  cbn in Hn, Hdev.
  pose proof (wp_Ok _ _ _ _ _ _ (setSoftening_wp _ s1 w1) Hsoft) as (-> & _).
  destruct (setSoftening_outcome (of_float Float32.lit_0_00125) s1 w1)
    as (_ & Hmany & Hexit).
  rewrite Hn in Hmany, Hexit.
  destruct (Z_lt_le_dec (Z.of_nat (length (devices w1))) numDevices) as [Hlt | Hle].
  - rewrite (Hexit Hnd Hlt) in Hsoft. discriminate.
  - destruct (Hmany ltac:(lia)) as (w2' & Hrun & Hc).
    rewrite Hrun in Hsoft. inversion Hsoft; subst w2'.
    split; [exact Hc | exact Hdev].
Qed.

End Failures.

Lemma initialize_missing_device_witness :
  BodySystemCUDA_new 1 3 256 false false false 0 sample_world = ExitFailure.
Proof.
  apply (initialize_missing_device sample_world). simpl. lia.
Defined.

Lemma constructor_no_device_witness :
  BodySystemCUDA_new 1 0 256 false false false 0 sample_world = Undefined.
Proof.
  apply (constructor_no_device 1 256 false false 0 sample_world). simpl. lia.
Defined.

Lemma setSoftening_current_device_witness :
  exists w',
    setSoftening Float32.lit_0_00125 (sample_system HostMapped 2).1
      (set_current_device 0 (sample_system HostMapped 2).2)
    = Ok (sample_system HostMapped 2).1 w' /\
    current_device w' = m_numDevices (sample_system HostMapped 2).1 - 1.
Proof.
  apply (setSoftening_current_device Float32.lit_0_00125 (sample_system HostMapped 2).1
           (set_current_device 0 (sample_system HostMapped 2).2)).
  vm_compute. split; [reflexivity | discriminate].
Defined.

Lemma constructor_current_device_witness :
  current_device (sample_system DeviceLocal 2).2 = 2 - 1 /\
  m_devID (sample_system DeviceLocal 2).1 = 0.
Proof.
  apply (constructor_current_device 1 2 256 false false false 0 sample_world
           (sample_system DeviceLocal 2).1 (sample_system DeviceLocal 2).2);
    [lia | apply (sample_system_built DeviceLocal 2); auto].
Defined.

(** ** Releasing what was acquired *)

Section ReleaseRules.

Context {T : Type}.

#[local] Abbreviation M := (@M T).
Implicit Types w : @World T.
Implicit Types F : failure -> Prop.

Lemma wp_delete_array ptr Q F w :
  let w1 := logged (delete_ ptr) w in
  (ptr = NULL -> Q tt w1) ->
  (forall b, ptr <> NULL -> memory w !! ptr = Some b ->
             Q tt (set_memory (delete ptr (memory w)) w1)) ->
  (ptr <> NULL -> memory w !! ptr = None -> F failed_undefined) ->
  wp (delete_array ptr) Q F w.
Proof.
  intros w1 HN HQ HF. unfold wp, delete_array, bind, log. simpl.
  destruct (Z.eqb_spec ptr NULL) as [E | E]; [now apply HN|].
  simpl. destruct (memory w !! ptr) as [b|] eqn:Hb; [now apply (HQ b) | now apply HF].
Qed.

Lemma wp_release ptr Q F w :
  (ptr = NULL -> Q cudaSuccess w) ->
  (forall b, ptr <> NULL -> memory w !! ptr = Some b ->
             Q cudaSuccess (set_memory (delete ptr (memory w)) w)) ->
  (ptr <> NULL -> memory w !! ptr = None -> Q cudaErrorInvalidValue w) ->
  wp (release ptr) Q F w.
Proof.
  intros HN HQ HE. unfold wp, release.
  destruct (Z.eqb_spec ptr NULL) as [E | E]; [now apply HN|].
  destruct (memory w !! ptr) as [b|] eqn:Hb; [now apply (HQ b) | now apply HE].
Qed.

Lemma wp_cudaFree ptr Q F w :
  let w1 := logged (cudaFree_ ptr) w in
  (ptr = NULL -> Q cudaSuccess w1) ->
  (forall b, ptr <> NULL -> memory w !! ptr = Some b ->
             Q cudaSuccess (set_memory (delete ptr (memory w)) w1)) ->
  (ptr <> NULL -> memory w !! ptr = None -> Q cudaErrorInvalidValue w1) ->
  wp (cudaFree ptr) Q F w.
Proof.
  intros w1 HN HQ HE. unfold cudaFree. apply wp_bind, wp_log. fold w1.
  apply wp_release; assumption.
Qed.

Lemma wp_cudaFreeHost ptr Q F w :
  let w1 := logged (cudaFreeHost_ ptr) w in
  (ptr = NULL -> Q cudaSuccess w1) ->
  (forall b, ptr <> NULL -> memory w !! ptr = Some b ->
             Q cudaSuccess (set_memory (delete ptr (memory w)) w1)) ->
  (ptr <> NULL -> memory w !! ptr = None -> Q cudaErrorInvalidValue w1) ->
  wp (cudaFreeHost ptr) Q F w.
Proof.
  intros w1 HN HQ HE. unfold cudaFreeHost. apply wp_bind, wp_log. fold w1.
  apply wp_release; assumption.
Qed.

Lemma wp_cudaEventDestroy ev Q F w :
  Q cudaSuccess (logged (cudaEventDestroy_ ev) w) -> wp (cudaEventDestroy ev) Q F w.
Proof. auto. Qed.

Lemma wp_cudaGraphicsUnregisterResource r Q F w :
  let w1 := logged (cudaGraphicsUnregisterResource_ r) w in
  (forall x, resources w !! r = Some x ->
             Q cudaSuccess (set_resources (delete r (resources w)) w1)) ->
  (resources w !! r = None -> Q cudaErrorInvalidResourceHandle w1) ->
  wp (cudaGraphicsUnregisterResource r) Q F w.
Proof.
  intros w1 HQ HE. unfold wp, cudaGraphicsUnregisterResource, bind, log. simpl.
  destruct (resources w !! r) as [x|] eqn:Hr; [now apply (HQ x) | now apply HE].
Qed.

Lemma wp_glDeleteBuffers2 b Q F w :
  Q tt (set_gl_buffers (delete (snd b) (delete (fst b) (gl_buffers w)))
          (set_memory
             (foldr delete (memory w)
                (omap (fun n => mjoin (gl_buffers w !! n)) [fst b; snd b]))
             (logged (glDeleteBuffers_ (fst b) (snd b)) w))) ->
  wp (glDeleteBuffers2 b) Q F w.
Proof. auto. Qed.

End ReleaseRules.

(** One step of symbolic execution, with the calls of [_finalize]. *)
Ltac wp_next :=
  first
    [ wp_step
    | lazymatch goal with
      | |- wp (delete_array _) _ _ _ =>
          apply wp_delete_array; [intros ? | intros ? ? ? | intros ? ?]
      | |- wp (cudaFree _) _ _ _ =>
          apply wp_cudaFree; [intros ? | intros ? ? ? | intros ? ?]
      | |- wp (cudaFreeHost _) _ _ _ =>
          apply wp_cudaFreeHost; [intros ? | intros ? ? ? | intros ? ?]
      | |- wp (cudaEventDestroy _) _ _ _ => apply wp_cudaEventDestroy
      | |- wp (cudaGraphicsUnregisterResource _) _ _ _ =>
          apply wp_cudaGraphicsUnregisterResource; [intros ? ? | intros ?]
      | |- wp (glDeleteBuffers2 _) _ _ _ => apply wp_glDeleteBuffers2
      end ].

(** An array element that is known to be there. *)
Ltac index_absurd :=
  match goal with
  | H : Some _ = None |- _ => discriminate H
  end.

(** Symbolic execution of a run that must return, through [_finalize] too. *)
Ltac wp_go :=
  repeat (wp_next; cbn beta iota; world_simpl;
          try code_absurd; try fill_absurd; try index_absurd).

(** ** Construction from a fresh world *)

(** A lookup in a memory built by insertions at distinct handles. *)
Ltac lookup_solve :=
  repeat first [rewrite lookup_insert_eq | rewrite lookup_insert_ne by lia];
  first [reflexivity | eassumption].

(** Clearing blocks that were just allocated leaves the memory as it is. *)
Ltac fill_resolve :=
  repeat match goal with
         | H : fill_block ?p ?N ?M = Some ?m |- _ =>
             rewrite (fill_block_new M p N) in H by (first [lia | lookup_solve]);
             rewrite insert_id in H by lookup_solve;
             injection H as <-
         end.

(** Handles handed out one after the other are distinct. *)
Ltac nodup_solve :=
  repeat (apply NoDup_cons_2;
          [rewrite ?not_elem_of_cons; repeat split;
           first [lia | apply not_elem_of_nil]|]);
  apply NoDup_nil_2.

(** The stores of the world reached, in terms of the world at the start. *)
Ltac stores_rewrite :=
  repeat match goal with
         | H : memory _ = _ |- _ => rewrite H
         | H : gl_buffers _ = _ |- _ => rewrite H
         | H : resources _ = _ |- _ => rewrite H
         | H : next_handle _ = _ |- _ => rewrite H
         end.

Section Building.

Context {T : Type} {ST : Scalar T}.

#[local] Abbreviation World := (@World T).
#[local] Abbreviation System := (@BodySystemCUDA T).
#[local] Abbreviation M := (@M T).

(** What holds on return for one reason and that the run returns for
    another hold together. *)
Lemma wp_conj_sure {A} (m : M A) (Q Q' : A -> World -> Prop) (w : World) :
  wp m Q no_failure w -> wp m Q' any_failure w ->
  wp m (fun a w' => Q a w' /\ Q' a w') no_failure w.
Proof. unfold wp. destruct (m w); auto. Qed.

Lemma wp_sure_any {A} (m : M A) (Q : A -> World -> Prop) (w : World) :
  wp m Q no_failure w -> wp m Q any_failure w.
Proof. intros H. eapply wp_weaken; [exact H | intros f []]. Qed.

(** The first loop only queries: apart from the trace the world is the one
    before. *)
Lemma query_weights_total (n : nat) (i : Z) (w : World) :
  0 <= i -> i + Z.of_nat n <= Z.of_nat (length (devices w)) ->
  wp (query_weights n i)
     (fun ws w' => length ws = n /\ w' = set_trace (trace w') w)
     no_failure w.
Proof.
  revert i w. induction n as [|n IH]; intros i w Hi Hlen; cbn [query_weights].
  - apply wp_ret. split; [reflexivity|]. now destruct w.
  - wp_step. apply wp_cudaGetDeviceProperties; cbv zeta.
    + intros props Hp. cbn beta iota. wp_step. wp_step; [|congruence].
      wp_step. eapply wp_mono; [apply (IH (i + 1)); world_simpl; lia|].
      intros ws w' (Hl & Hw). apply wp_ret. cbn [length]. rewrite Hl.
      split; [reflexivity|]. rewrite Hw at 1. reflexivity.
    + intros Hnone. apply lookup_ge_None in Hnone. lia.
Qed.

Lemma divide_workload_total (nd n : Z) (w : World) :
  0 <= nd <= Z.of_nat (length (devices w)) ->
  wp (divide_workload nd n)
     (fun ds w' => length ds = Z.to_nat nd /\ w' = set_trace (trace w') w)
     no_failure w.
Proof.
  intros Hnd. unfold divide_workload. wp_step.
  eapply wp_mono; [apply query_weights_total; lia|].
  intros ws w' (Hl & Hw). apply wp_ret. split; [|exact Hw].
  unfold partition_weights. now rewrite length_map, partition_loop_length, length_map.
Qed.

(** The loop of the [m_bUseSysMem] branch: every device gets an event and
    sees the three host buffers at their own addresses. *)
Lemma map_host_buffers_total (nd : Z) (hPos : Z * Z) (hVel : Z) (ds : list DeviceData)
    (i : Z) (w : World) :
  0 <= i -> i + Z.of_nat (length ds) <= Z.of_nat (length (devices w)) ->
  is_Some (memory w !! fst hPos) -> is_Some (memory w !! snd hPos) ->
  is_Some (memory w !! hVel) ->
  wp (map_host_buffers nd hPos hVel ds i)
     (fun ds' w' =>
        length ds' = length ds /\ (same_stores w w' /\ devices w' = devices w) /\
        Forall (fun d => dPos d = hPos /\ dVel d = hVel) ds')
     no_failure w.
Proof.
  revert i w. induction ds as [|d ds IH]; intros i w Hi Hlen H0 H1 Hv;
    cbn [map_host_buffers].
  - apply wp_ret. unfold same_stores. auto 6.
  - cbn [length] in Hlen.
    destruct (1 <? nd); wp_sure; try lia.
    all: try match goal with
             | E : memory _ !! _ = None |- _ =>
                 exfalso; revert E; apply not_eq_None_Some; assumption
             end.
    all: (eapply wp_mono; [apply (IH (i + 1)); world_simpl; try lia; assumption|]).
    all: intros ds' w' (Hl & ((Hm & Hg & Hr) & Hd) & Hall); apply wp_ret; world_simpl.
    all: cbn [length]; rewrite Hl; unfold same_stores.
    all: repeat split; auto.
    all: constructor; [cbn; split; [now destruct hPos | reflexivity] | assumption].
Qed.

(** The loop of the [m_bUseP2P] branch. *)
Lemma share_with_peers_total (d0 : DeviceData) (ds : list DeviceData) (i : Z) (w : World) :
  0 <= i -> i + Z.of_nat (length ds) <= Z.of_nat (length (devices w)) ->
  wp (share_with_peers d0 ds i)
     (fun ds' w' => length ds' = length ds /\ same_stores w w' /\ devices w' = devices w)
     no_failure w.
Proof.
  revert i w. induction ds as [|d ds IH]; intros i w Hi Hlen; cbn [share_with_peers].
  - apply wp_ret. unfold same_stores. auto 6.
  - cbn [length] in Hlen. wp_sure; try lia.
    all: (eapply wp_mono; [apply (IH (i + 1)); world_simpl; lia|]).
    all: intros ds' w' (Hl & (Hm & Hg & Hr) & Hd); apply wp_ret; world_simpl.
    all: cbn [length]; rewrite Hl; unfold same_stores; auto 6.
Qed.

(** One round of the loop over the pixel buffer objects: a buffer object
    without a data store gets one, a copy of [data], and is registered. *)
Lemma create_pbo_total (buffer memSize data : Z) (src : list Byte.byte) (w : World)
    (Q : Z -> World -> Prop) :
  gl_buffers w !! buffer = Some None ->
  memory w !! data = Some src -> 0 <= memSize <= Z.of_nat (length src) ->
  (forall w',
     memory w' = <[Z.pos (next_handle w) := take (Z.to_nat memSize) src]> (memory w) ->
     gl_buffers w' = <[buffer := Some (Z.pos (next_handle w))]> (gl_buffers w) ->
     resources w' = <[Z.pos (Pos.succ (next_handle w)) :=
                        (buffer, cudaGraphicsMapFlagsNone, false)]> (resources w) ->
     next_handle w' = Pos.succ (Pos.succ (next_handle w)) ->
     devices w' = devices w ->
     Q (Z.pos (Pos.succ (next_handle w))) w') ->
  wp (create_pbo buffer memSize data) Q no_failure w.
Proof.
  intros Hb Hd Hs HQ. unfold create_pbo.
  wp_step. wp_step. wp_step. apply wp_glBufferData; cbn zeta; world_simpl.
  { intros E. congruence. }
  2: { intros old _ Hall. exfalso. apply (Hall src Hd). lia. }
  intros old src' Hold Hsrc _. assert (old = None) by congruence.
  assert (src' = src) by congruence. subst old src'.
  wp_step. wp_step. world_simpl.
  match goal with |- context [negb ?b] => destruct (negb b) end.
  all: wp_sure.
  all: try (apply HQ; world_simpl; reflexivity).
  all: exfalso; match goal with
                | E : <[?k := _]> _ !! ?k = None |- _ =>
                    rewrite lookup_insert_eq in E; discriminate E
                end.
Qed.

(** Handles from the next one on are fresh. *)
Lemma fresh_memory (w : World) k :
  fresh_world w -> Z.pos (next_handle w) <= k -> memory w !! k = None.
Proof. intros Hf Hk. now destruct (Hf k Hk). Qed.

Lemma fresh_gl_buffers (w : World) k :
  fresh_world w -> Z.pos (next_handle w) <= k -> gl_buffers w !! k = None.
Proof. intros Hf Hk. now destruct (Hf k Hk) as (_ & ? & _). Qed.

Lemma fresh_resources (w : World) k :
  fresh_world w -> Z.pos (next_handle w) <= k -> resources w !! k = None.
Proof. intros Hf Hk. now destruct (Hf k Hk) as (_ & _ & ?). Qed.

Lemma fresh_world_trace (w : World) t : fresh_world w -> fresh_world (set_trace t w).
Proof. intros Hf k Hk. exact (Hf k Hk). Qed.

Lemma initialize_constructs (mode : MemoryMode) (n : Z) (s : System) (w : World) :
  fresh_world w ->
  m_bInitialized s = false ->
  (m_bUsePBO s, m_bUseSysMem s) = mode_flags mode ->
  m_currentRead s = 0 -> m_currentWrite s = 1 ->
  1 <= m_numDevices s <= Z.of_nat (length (devices w)) ->
  (mode <> HostMapped -> 0 <= m_devID s < Z.of_nat (length (devices w))) ->
  snd (m_hPos s) = NULL ->
  0 <= n -> sizeof * 4 * n < 2 ^ 32 ->
  wp (_initialize n s)
     (fun s' w' => Constructed mode s' w' /\ built_from mode w s' w' /\
                   devices w' = devices w)
     no_failure w.
Proof.
  intros Hfresh Hi Hflags Hr Hw Hnd Hdev Hnull Hn Hsize.
  pose proof sizeof_range as Hsz.
  assert (Hn30 : n < 2 ^ 30) by nia.
  set (N := n * 4 * sizeof).
  assert (HN : wrap32 (sizeof * 4 * n) = N)
    by (rewrite wrap32_small by nia; unfold N; lia).
  assert (Hn32 : wrap32 n = n) by (apply wrap32_small; lia).
  assert (Hcount : wrap32 (n * 4) = n * 4) by (apply wrap32_small; lia).
  assert (HN0 : 0 <= N) by (unfold N; nia).
  unfold _initialize. rewrite Hi. wp_step. wp_step; [|discriminate].
  cbv zeta. cbn [m_numBodies m_numDevices set_m_numBodies m_bUseSysMem m_bUsePBO
                 m_bUseP2P m_devID m_hPos m_pbo m_pGRes].
  rewrite HN, Hn32, ?Hcount.
  wp_step. eapply wp_mono; [apply divide_workload_total; lia|].
  intros ds w1 (Hds & Hw1). cbn beta.
  assert (Hfresh1 : fresh_world w1) by (rewrite Hw1; now apply fresh_world_trace).
  assert (Hdev1 : devices w1 = devices w) by (rewrite Hw1; reflexivity).
  assert (Hmem1 : memory w1 = memory w) by (rewrite Hw1; reflexivity).
  assert (Hgl1 : gl_buffers w1 = gl_buffers w) by (rewrite Hw1; reflexivity).
  assert (Hres1 : resources w1 = resources w) by (rewrite Hw1; reflexivity).
  assert (Hnh1 : next_handle w1 = next_handle w) by (rewrite Hw1; reflexivity).
  clear Hw1.
  destruct ds as [|d0 ds]; [cbn in Hds; lia|].
  destruct mode; cbn in Hflags; injection Hflags as Hpbo Hsys; rewrite ?Hpbo, ?Hsys.
  2: { (* HostMapped *)
    wp_sure. fill_resolve.
    eapply wp_mono; [apply map_host_buffers_total; world_simpl; cbn [fst snd];
                     try (rewrite ?Hdev1, ?Hds; lia);
                     try (eexists; lookup_solve)|].
    intros ds' w' (Hl & ((Hm & Hg & Hres) & Hd') & Hall). world_simpl. wp_sure.
    destruct ds' as [|d0' ds']; [discriminate|].
    apply Forall_cons in Hall as [[Hp0 Hv0] _].
    split; [|split; [|congruence]].
    - unfold Constructed. cbn. rewrite Hpbo, Hsys, Hr, Hw, Hm. fold N.
      split; [reflexivity|]. split; [reflexivity|]. split; [lia|]. split; [auto|].
      cbn [length] in *. split; [lia|]. split; [lia|].
      split; [nodup_solve|].
      split; [|auto].
      repeat (apply Forall_cons; split; [split; [unfold NULL; lia | block_holds]|]).
      apply Forall_nil_2.
    - unfold built_from. cbn [own_blocks own_buffers own_resources]. cbn.
      rewrite Hm, Hg, Hres, Hmem1, Hgl1, Hres1, Hnh1.
      repeat split; intros q Hq;
        rewrite ?elem_of_cons, ?not_elem_of_cons, ?elem_of_nil in Hq.
      all: first [ contradiction
                 | apply (fresh_memory w q Hfresh); lia
                 | rewrite !lookup_insert_ne by lia; reflexivity ]. }
  - (* DeviceLocal *)
    specialize (Hdev ltac:(discriminate)). rewrite <- Hdev1 in Hdev.
    wp_sure; try (exfalso; lia); try discriminate.
    replace (sizeof * (n * 4)) with N in * by (unfold N; lia).
    fill_resolve.
    match goal with E : head _ = Some _ |- _ => cbn in E; injection E as <- end.
    destruct (m_bUseP2P s).
    + eapply wp_mono; [apply share_with_peers_total; world_simpl; cbn [tail length] in *;
                       try (rewrite ?Hdev1; lia)|].
      intros peers w' (Hl & (Hm & Hg & Hres) & Hd'). world_simpl. wp_sure.
      split; [|split; [|congruence]].
      * unfold Constructed. cbn. rewrite Hpbo, Hsys, Hr, Hw, Hm. fold N.
        cbn [length tail] in *.
        split; [reflexivity|]. split; [reflexivity|]. split; [lia|]. split; [auto|].
        split; [lia|]. split; [lia|].
        split; [nodup_solve|].
        split; [|exact Hnull].
        repeat (apply Forall_cons; split; [split; [unfold NULL; lia | block_holds]|]).
        apply Forall_nil_2.
      * unfold built_from. cbn [own_blocks own_buffers own_resources]. cbn.
        rewrite Hm, Hg, Hres, Hmem1, Hgl1, Hres1, Hnh1.
        repeat split; intros q Hq;
          rewrite ?elem_of_cons, ?not_elem_of_cons, ?elem_of_nil in Hq.
        all: first [ contradiction
                   | apply (fresh_memory w q Hfresh); lia
                   | rewrite !lookup_insert_ne by lia; reflexivity ].
    + wp_sure.
      split; [|split; [|congruence]].
      * unfold Constructed. cbn. rewrite Hpbo, Hsys, Hr, Hw. fold N.
        cbn [length tail] in *.
        split; [reflexivity|]. split; [reflexivity|]. split; [lia|]. split; [auto|].
        split; [lia|]. split; [lia|].
        split; [nodup_solve|].
        split; [|exact Hnull].
        repeat (apply Forall_cons; split; [split; [unfold NULL; lia | block_holds]|]).
        apply Forall_nil_2.
      * unfold built_from. cbn [own_blocks own_buffers own_resources]. cbn.
        rewrite Hmem1, Hgl1, Hres1, Hnh1.
        repeat split; intros q Hq;
          rewrite ?elem_of_cons, ?not_elem_of_cons, ?elem_of_nil in Hq.
        all: first [ contradiction
                   | apply (fresh_memory w q Hfresh); lia
                   | rewrite !lookup_insert_ne by lia; reflexivity ].
  - (* RenderShared *)
    specialize (Hdev ltac:(discriminate)). rewrite <- Hdev1 in Hdev.
    wp_sure; try (exfalso; lia); try discriminate.
    replace (sizeof * (n * 4)) with N in * by (unfold N; lia).
    fill_resolve.
    match goal with E : head _ = Some _ |- _ => cbn in E; injection E as <- end.
    cbn [fst snd].
    eapply create_pbo_total with (src := replicate (Z.to_nat N) Byte.x00); world_simpl.
    { rewrite lookup_insert_ne by lia. apply lookup_insert_eq. }
    { lookup_solve. }
    { rewrite length_replicate. lia. }
    intros w2 Hm2 Hg2 Hr2 Hn2 Hd2. wp_step.
    eapply create_pbo_total with (src := replicate (Z.to_nat N) Byte.x00); world_simpl.
    { rewrite Hg2, lookup_insert_ne by lia. apply lookup_insert_eq. }
    { rewrite Hm2. lookup_solve. }
    { rewrite length_replicate. lia. }
    intros w3 Hm3 Hg3 Hr3 Hn3 Hd3. rewrite Hn2 in *. wp_sure.
    rewrite take_replicate, Nat.min_id in *.
    destruct (m_bUseP2P s).
    + eapply wp_mono; [apply share_with_peers_total; world_simpl; cbn [tail length] in *;
                       try (rewrite ?Hd3, ?Hd2, ?Hdev1; lia)|].
      intros peers w' (Hl & (Hm & Hg & Hres) & Hd'). world_simpl. wp_sure.
      split; [|split; [|congruence]].
      * unfold Constructed. cbn. unfold store_of. world_simpl.
        rewrite Hpbo, Hsys, Hr, Hw. stores_rewrite. fold N.
        repeat first [rewrite lookup_insert_eq | rewrite lookup_insert_ne by lia].
        cbn [length tail] in *.
        split; [reflexivity|]. split; [reflexivity|]. split; [lia|]. split; [auto|].
        split; [lia|]. split; [lia|].
        split; [nodup_solve|].
        split.
        { repeat (apply Forall_cons; split; [split; [unfold NULL; lia | block_holds]|]).
          apply Forall_nil_2. }
        split; [exact Hnull|].
        split; [lia|]. split; [lia|]. split; [unfold NULL; lia|].
        split; [unfold NULL; lia|].
        split; eexists _, _; split; reflexivity.
      * unfold built_from. cbn [own_blocks own_buffers own_resources]. cbn.
        unfold store_of. world_simpl. stores_rewrite.
        repeat first [rewrite lookup_insert_eq | rewrite lookup_insert_ne by lia].
        repeat split; intros q Hq;
          rewrite ?elem_of_cons, ?not_elem_of_cons, ?elem_of_nil in Hq.
        all: first [ contradiction
                   | apply (fresh_memory w q Hfresh); lia
                   | apply (fresh_gl_buffers w q Hfresh); lia
                   | apply (fresh_resources w q Hfresh); lia
                   | rewrite !lookup_insert_ne by lia; reflexivity ].
    + wp_sure.
      split; [|split; [|congruence]].
      * unfold Constructed. cbn. unfold store_of. world_simpl.
        rewrite Hpbo, Hsys, Hr, Hw. stores_rewrite. fold N.
        repeat first [rewrite lookup_insert_eq | rewrite lookup_insert_ne by lia].
        cbn [length tail] in *.
        split; [reflexivity|]. split; [reflexivity|]. split; [lia|]. split; [auto|].
        split; [lia|]. split; [lia|].
        split; [nodup_solve|].
        split.
        { repeat (apply Forall_cons; split; [split; [unfold NULL; lia | block_holds]|]).
          apply Forall_nil_2. }
        split; [exact Hnull|].
        split; [lia|]. split; [lia|]. split; [unfold NULL; lia|].
        split; [unfold NULL; lia|].
        split; eexists _, _; split; reflexivity.
      * unfold built_from. cbn [own_blocks own_buffers own_resources]. cbn.
        unfold store_of. world_simpl. stores_rewrite.
        repeat first [rewrite lookup_insert_eq | rewrite lookup_insert_ne by lia].
        repeat split; intros q Hq;
          rewrite ?elem_of_cons, ?not_elem_of_cons, ?elem_of_nil in Hq.
        all: first [ contradiction
                   | apply (fresh_memory w q Hfresh); lia
                   | apply (fresh_gl_buffers w q Hfresh); lia
                   | apply (fresh_resources w q Hfresh); lia
                   | rewrite !lookup_insert_ne by lia; reflexivity ].
Qed.

(** Calls that leave the three stores alone, and a new damping, keep a
    system as it was built. *)
Lemma own_blocks_same (mode : MemoryMode) (x : T) (s : System) (w w' : World) :
  gl_buffers w' = gl_buffers w ->
  own_blocks mode (set_m_damping x s) w' = own_blocks mode s w.
Proof. intros Hg. destruct mode; cbn; unfold store_of; now rewrite ?Hg. Qed.

Lemma Constructed_same_stores (mode : MemoryMode) (x : T) (s : System) (w w' : World) :
  same_stores w w' -> Constructed mode s w -> Constructed mode (set_m_damping x s) w'.
Proof.
  intros (Hm & Hg & Hres). unfold Constructed.
  rewrite (own_blocks_same mode x s w w' Hg). cbn. now rewrite Hm, Hg, Hres.
Qed.

Lemma built_from_same_stores (mode : MemoryMode) (x : T) (s : System) (w0 w w' : World) :
  same_stores w w' -> built_from mode w0 s w -> built_from mode w0 (set_m_damping x s) w'.
Proof.
  intros (Hm & Hg & Hres). unfold built_from.
  rewrite (own_blocks_same mode x s w w' Hg).
  replace (own_buffers mode (set_m_damping x s)) with (own_buffers mode s)
    by (now destruct mode).
  replace (own_resources mode (set_m_damping x s)) with (own_resources mode s)
    by (now destruct mode).
  now rewrite Hm, Hg, Hres.
Qed.

Lemma constructor_constructs (mode : MemoryMode) (numBodies numDevices blockSize : Z)
    (useP2P : bool) (deviceId : Z) (w : World) :
  fresh_world w ->
  1 <= numDevices <= Z.of_nat (length (devices w)) ->
  (mode <> HostMapped -> 0 <= deviceId < Z.of_nat (length (devices w))) ->
  0 <= numBodies -> sizeof * 4 * numBodies < 2 ^ 32 ->
  wp (BodySystemCUDA_new numBodies numDevices blockSize (mode_flags mode).1
        (mode_flags mode).2 useP2P deviceId)
     (fun s w' => Constructed mode s w' /\ built_from mode w s w' /\
                  m_numBodies s = numBodies /\ m_numDevices s = numDevices)
     no_failure w.
Proof.
  intros Hfresh Hnd Hdev Hn Hsize. pose proof sizeof_range as Hsz.
  assert (Hconv : to_int32 numBodies = numBodies).
  { unfold to_int32. rewrite wrap32_small by nia.
    destruct (Z.ltb_spec numBodies (2 ^ 31)); [reflexivity | nia]. }
  unfold BodySystemCUDA_new. cbv zeta. rewrite Hconv. wp_step.
  eapply wp_mono.
  { apply wp_conj_sure;
      [apply (initialize_constructs mode) | apply initialize_state];
      cbn; try lia; try reflexivity; try assumption.
    now destruct mode. }
  intros s1 w1 ((Hc & Hb & Hd) & _ & _ & Hbodies & Hnd1 & _). cbn beta in *.
  rewrite wrap32_small in Hbodies by nia. cbn in Hnd1.
  wp_step. unfold setSoftening. cbv zeta. wp_step.
  eapply wp_mono.
  { apply wp_conj_sure; [|eapply wp_weaken; [apply setSoftening_loop_wp | easy]].
    eapply wp_weaken; [eapply wp_mono; [apply setSoftening_loop_devices; lia|]|].
    - intros ? w2 _. exact I.
    - intros f (_ & _ & Hlt). rewrite Hd, Hnd1 in Hlt. lia. }
  intros ? w2 (_ & _ & Hm & Hg & Hres). cbn beta. wp_step. unfold setDamping. wp_step.
  split; [apply (Constructed_same_stores mode _ s1 w1 w2); unfold same_stores; auto|].
  split; [apply (built_from_same_stores mode _ s1 w w1 w2); unfold same_stores; auto|].
  split; [exact Hbodies | exact Hnd1].
Qed.

(** X7. In a world where unused handles name nothing, with at least one
    device and no more than the platform has, a valid [deviceId] where it is
    used, and a body count whose array size fits 32 bits, the constructor
    returns in every memory mode, with or without peer access.  The system
    it returns is built as [Constructed] says: its buffers are distinct,
    live and large enough; they did not exist before, and nothing else in
    memory, among the buffer objects or among the resources has changed. *)
Theorem constructor_builds (mode : MemoryMode) (numBodies numDevices blockSize : Z)
    (useP2P : bool) (deviceId : Z) (w : World) :
  fresh_world w ->
  1 <= numDevices <= Z.of_nat (length (devices w)) ->
  (mode <> HostMapped -> 0 <= deviceId < Z.of_nat (length (devices w))) ->
  0 <= numBodies -> sizeof * 4 * numBodies < 2 ^ 32 ->
  exists s w',
    BodySystemCUDA_new numBodies numDevices blockSize (mode_flags mode).1
      (mode_flags mode).2 useP2P deviceId w = Ok s w' /\
    Constructed mode s w' /\ built_from mode w s w' /\
    m_numBodies s = numBodies /\ m_numDevices s = numDevices.
Proof.
  intros Hfresh Hnd Hdev Hn Hsize.
  exact (wp_returns _ _ _
           (constructor_constructs mode numBodies numDevices blockSize useP2P deviceId w
              Hfresh Hnd Hdev Hn Hsize)).
Qed.

End Building.

(** ** The arrays of a system as it was built *)

Lemma holds_insert_longer (m : gmap Z (list Byte.byte)) p old new q size :
  m !! p = Some old -> (length old <= length new)%nat ->
  holds m q size -> holds (<[p := new]> m) q size.
Proof.
  intros Hold Hlen (b & Hb & Hl). destruct (decide (p = q)) as [-> | Hne].
  - exists new. rewrite lookup_insert_eq. split; [reflexivity|].
    assert (b = old) by congruence. subst b. lia.
  - exists b. now rewrite lookup_insert_ne.
Qed.

Lemma length_overwrite (X old : list Byte.byte) :
  (length X <= length old)%nat -> length (X ++ drop (length X) old) = length old.
Proof. intros H. rewrite length_app, length_drop. lia. Qed.

Section Arrays.

Context {T : Type} {ST : Scalar T}.

#[local] Abbreviation World := (@World T).
#[local] Abbreviation System := (@BodySystemCUDA T).
#[local] Abbreviation M := (@M T).

Lemma device0_lookup (s : System) :
  (0 < length (m_deviceData s))%nat -> m_deviceData s !! 0%nat = Some (device0 s).
Proof. unfold device0. destruct (m_deviceData s); cbn; [lia | reflexivity]. Qed.

(** The stores of a built system can change in two ways without harm: a
    block is overwritten by one that is not shorter, and the map flags of
    a resource change. *)
Lemma Constructed_update (mode : MemoryMode) (s : System) (w w' : World) (r wr : Z) :
  Constructed mode s w ->
  (r = 0 /\ wr = 1) \/ (r = 1 /\ wr = 0) ->
  (forall q size, holds (memory w) q size -> holds (memory w') q size) ->
  gl_buffers w' = gl_buffers w ->
  (forall x b f, resources w !! x = Some (b, f, false) ->
                 exists f', resources w' !! x = Some (b, f', false)) ->
  Constructed mode (set_current r wr s) w' /\
  own_blocks mode (set_current r wr s) w' = own_blocks mode s w.
Proof.
  intros (Hi & Hflags & Hn & Hrw & Hlen0 & Hlen & Hnd & Hall & Hmode) Hr Hholds Hg Hres.
  assert (Hown : own_blocks mode (set_current r wr s) w' = own_blocks mode s w).
  { destruct mode; cbn; unfold store_of; now rewrite ?Hg. }
  split; [|exact Hown].
  unfold Constructed. rewrite Hown. cbn.
  split; [exact Hi|]. split; [exact Hflags|]. split; [exact Hn|].
  split; [exact Hr|]. split; [exact Hlen0|]. split; [exact Hlen|].
  split; [exact Hnd|]. split.
  { eapply Forall_impl; [exact Hall|]. intros p [Hp Hh]. split; [exact Hp|].
    now apply Hholds. }
  destruct mode; try exact Hmode.
  destruct Hmode as (H1 & H2 & H3 & H4 & H5 & (f0 & st0 & Hr0 & Hg0) & (f1 & st1 & Hr1 & Hg1)).
  do 5 (split; [assumption|]). rewrite Hg. split.
  - destruct (Hres _ _ _ Hr0) as (f' & Hf'). eauto.
  - destruct (Hres _ _ _ Hr1) as (f' & Hf'). eauto.
Qed.

Lemma set_current_id (s : System) :
  set_current (m_currentRead s) (m_currentWrite s) s = s.
Proof. now destruct s. Qed.

(** Overwriting the start of a live block with the caller's array. *)
Lemma copy_block_overwrite (m : gmap Z (list Byte.byte)) dst src X old :
  m !! src = Some X -> m !! dst = Some old -> (length X <= length old)%nat ->
  copy_block dst src (Z.of_nat (length X)) m
  = Some (<[dst := X ++ drop (length X) old]> m).
Proof.
  intros Hs Hd Hl.
  rewrite (copy_block_defined m dst src _ X old Hs Hd) by lia.
  rewrite Nat2Z.id, firstn_all. reflexivity.
Qed.

Lemma setArray_constructed (mode : MemoryMode) (array : BodyArray) (data : Z)
    (X : list Byte.byte) (s : System) (w : World) :
  Constructed mode s w ->
  memory w !! data = Some X ->
  Z.of_nat (length X) = m_numBodies s * 4 * sizeof ->
  wp (setArray array data s)
     (fun s' w' =>
        s' = set_current 0 1 s /\
        Constructed mode s' w' /\
        own_blocks mode s' w' = own_blocks mode s w /\
        exists old,
          memory w !! write_target mode array s w = Some old /\
          memory w' = <[write_target mode array s w := X ++ drop (length X) old]> (memory w))
     no_failure w.
Proof.
  intros Hc HX HlenX.
  pose proof Hc as (Hi & Hflags & Hn & Hrw & Hlen0 & Hlen & Hnd & Hall & Hmode).
  destruct (array_bytes_exact _ Hn) as [Ha Hb].
  pose proof (device0_lookup s Hlen0) as Hd0.
  unfold setArray. rewrite Hi.
  cbn [m_bUsePBO m_bUseSysMem set_current m_numBodies m_currentRead m_pbo m_hPos
       m_hVel m_deviceData].
  rewrite Ha, Hb, <- HlenX, Hd0.
  assert (Hfinish : forall t old (w' : World),
            memory w !! t = Some old -> (length X <= length old)%nat ->
            memory w' = <[t := X ++ drop (length X) old]> (memory w) ->
            gl_buffers w' = gl_buffers w -> resources w' = resources w ->
            Constructed mode (set_current 0 1 s) w' /\
            own_blocks mode (set_current 0 1 s) w' = own_blocks mode s w).
  { intros t old w' Hold Hl Hm Hg Hres.
    apply (Constructed_update mode s w w' 0 1 Hc); [auto | | exact Hg |].
    - intros q size Hh. rewrite Hm.
      apply (holds_insert_longer _ t old); [exact Hold | | exact Hh].
      rewrite length_overwrite; lia.
    - intros x b f Hx. rewrite Hres. eauto. }
  destruct mode; cbn in Hflags; injection Hflags as Hpbo Hsys; rewrite Hpbo, ?Hsys;
    cbn [own_blocks] in Hall; rewrite !Forall_cons in Hall.
  all: pose proof (fun t old Hold Hl =>
         copy_block_overwrite (memory w) t data X old HX Hold Hl) as Hcopy.
  - (* DeviceLocal *)
    destruct Hall as ((_ & Hh0) & (_ & Hhv) & (_ & Hdv) & (_ & Hd0p) & (_ & Hd1p) & _).
    destruct array.
    + destruct Hd0p as (old & Hold & Hl).
      specialize (Hcopy _ old Hold ltac:(lia)). wp_run.
      split; [reflexivity|].
      match goal with
      | |- Constructed _ _ ?W /\ _ =>
          destruct (Hfinish _ old W Hold ltac:(lia) eq_refl eq_refl eq_refl) as [Hc' Hown]
      end.
      split; [exact Hc'|]. split; [exact Hown|].
      exists old. split; [exact Hold | reflexivity].
    + destruct Hdv as (old & Hold & Hl).
      specialize (Hcopy _ old Hold ltac:(lia)). wp_run.
      split; [reflexivity|].
      match goal with
      | |- Constructed _ _ ?W /\ _ =>
          destruct (Hfinish _ old W Hold ltac:(lia) eq_refl eq_refl eq_refl) as [Hc' Hown]
      end.
      split; [exact Hc'|]. split; [exact Hown|].
      exists old. split; [exact Hold | reflexivity].
  - (* HostMapped *)
    destruct Hall as ((_ & Hh0) & (_ & Hh1) & (_ & Hhv) & _).
    destruct array.
    + destruct Hh0 as (old & Hold & Hl).
      specialize (Hcopy _ old Hold ltac:(lia)). wp_run.
      split; [reflexivity|].
      match goal with
      | |- Constructed _ _ ?W /\ _ =>
          destruct (Hfinish _ old W Hold ltac:(lia) eq_refl eq_refl eq_refl) as [Hc' Hown]
      end.
      split; [exact Hc'|]. split; [exact Hown|].
      exists old. split; [exact Hold | reflexivity].
    + destruct Hhv as (old & Hold & Hl).
      specialize (Hcopy _ old Hold ltac:(lia)). wp_run.
      split; [reflexivity|].
      match goal with
      | |- Constructed _ _ ?W /\ _ =>
          destruct (Hfinish _ old W Hold ltac:(lia) eq_refl eq_refl eq_refl) as [Hc' Hown]
      end.
      split; [exact Hc'|]. split; [exact Hown|].
      exists old. split; [exact Hold | reflexivity].
  - (* RenderShared *)
    destruct Hall as ((_ & Hh0) & (_ & Hhv) & (_ & Hdv) & (_ & Hst0) & (_ & Hst1) & _).
    destruct array.
    2: { destruct Hdv as (old & Hold & Hl).
      specialize (Hcopy _ old Hold ltac:(lia)). wp_run.
      split; [reflexivity|].
      match goal with
      | |- Constructed _ _ ?W /\ _ =>
          destruct (Hfinish _ old W Hold ltac:(lia) eq_refl eq_refl eq_refl) as [Hc' Hown]
      end.
      split; [exact Hc'|]. split; [exact Hown|].
      exists old. split; [exact Hold | reflexivity]. }
    destruct Hmode as (_ & _ & _ & _ & _ & (f0 & st0 & Hr0 & Hg0) & _).
    unfold store_of in Hst0. rewrite Hg0 in Hst0.
    destruct Hst0 as (old & Hold & Hl).
    specialize (Hcopy _ old Hold ltac:(lia)). wp_run.
    apply wp_glBufferSubData; cbn zeta; world_simpl;
      [intros store' d m Hb' Hd' Hsz Hcp | intros Hno | intros store' d Hb' Hd' Hsz Hcp].
    2: { exfalso. specialize (Hno st0 old Hg0 Hold). lia. }
    2: { exfalso. congruence. }
    assert (store' = st0) by congruence. subst store'.
    rewrite Hcopy in Hcp. injection Hcp as <-.
    wp_run.
    match goal with
    | |- wp (if ?c then _ else _) _ _ _ => destruct c
    end; wp_run.
    all: split; [reflexivity|].
    all: match goal with
         | |- Constructed _ _ ?W /\ _ =>
             destruct (Hfinish _ old W Hold ltac:(lia) eq_refl eq_refl eq_refl)
               as [Hc' Hown]
         end.
    all: split; [exact Hc'|]; split; [exact Hown|].
    all: exists old; unfold write_target, store_of; rewrite Hg0.
    all: split; [exact Hold | reflexivity].
Qed.


Lemma length_copy (src old : list Byte.byte) (n : nat) :
  (n <= length src)%nat -> (n <= length old)%nat ->
  length (take n src ++ drop n old) = length old.
Proof. intros H1 H2. rewrite length_app, length_take, length_drop. lia. Qed.

Lemma getArray_constructed (mode : MemoryMode) (array : BodyArray) (s : System) (w : World) :
  Constructed mode s w ->
  wp (getArray array s)
     (fun p w' =>
        p = host_buffer mode array s /\
        Constructed mode s w' /\
        own_blocks mode s w' = own_blocks mode s w /\
        match mode with
        | HostMapped => w' = w
        | _ =>
            let count := Z.to_nat (m_numBodies s * 4 * sizeof) in
            exists src old,
              memory w !! read_source mode array s w = Some src /\
              memory w !! p = Some old /\
              memory w' = <[p := take count src ++ drop count old]> (memory w)
        end)
     no_failure w.
Proof.
  intros Hc.
  pose proof Hc as (Hi & Hflags & Hn & Hrw & Hlen0 & Hlen & Hnd & Hall & Hmode).
  destruct (array_bytes_exact _ Hn) as [Ha Hb].
  pose proof (device0_lookup s Hlen0) as Hd0.
  set (N := m_numBodies s * 4 * sizeof) in *.
  assert (Hfinish : forall dst src old (w' : World),
            memory w !! dst = Some old ->
            (Z.to_nat N <= length src)%nat -> (Z.to_nat N <= length old)%nat ->
            memory w' = <[dst := take (Z.to_nat N) src ++ drop (Z.to_nat N) old]> (memory w) ->
            gl_buffers w' = gl_buffers w ->
            (forall x b f, resources w !! x = Some (b, f, false) ->
                           exists f', resources w' !! x = Some (b, f', false)) ->
            Constructed mode s w' /\ own_blocks mode s w' = own_blocks mode s w).
  { intros dst src old w' Hold Hl1 Hl2 Hm Hg Hres.
    rewrite <- (set_current_id s) at 1 3.
    apply (Constructed_update mode s w w' _ _ Hc); [exact Hrw | | exact Hg | exact Hres].
    intros q size Hh. rewrite Hm.
    apply (holds_insert_longer _ dst old); [exact Hold | | exact Hh].
    rewrite length_copy; lia. }
  assert (Hcopy : forall dst src sb old,
            memory w !! src = Some sb -> memory w !! dst = Some old ->
            N <= Z.of_nat (length sb) -> N <= Z.of_nat (length old) ->
            copy_block dst src N (memory w)
            = Some (<[dst := take (Z.to_nat N) sb ++ drop (Z.to_nat N) old]> (memory w))).
  { intros dst src sb old Hs Hd H1 H2. apply copy_block_defined; try assumption.
    unfold N. pose proof sizeof_range. nia. }
  unfold getArray. rewrite Hi, Ha, Hd0.
  assert (Hr01 : m_currentRead s = 0 \/ m_currentRead s = 1) by tauto.
  rewrite (to_int32_bit _ Hr01). cbv zeta.
  destruct mode; cbn in Hflags; injection Hflags as Hpbo Hsys; rewrite Hpbo, ?Hsys;
    cbn [own_blocks] in Hall; rewrite !Forall_cons in Hall; cbn [negb].
  - (* DeviceLocal *)
    destruct Hall as ((_ & Hh0) & (_ & Hhv) & (_ & Hdv) & (_ & Hd0p) & (_ & Hd1p) & _).
    destruct array.
    + destruct Hh0 as (old & Hold & Hl).
      destruct Hr01 as [Hr | Hr]; rewrite Hr.
      * destruct Hd0p as (sb & Hsb & Hsl).
        pose proof (Hcopy _ _ sb old Hsb Hold Hsl Hl) as Hcp.
        wp_run. change (negb (NULL =? NULL)) with false. cbv iota. wp_run.
        split; [reflexivity|].
        match goal with
        | |- Constructed _ _ ?W /\ _ =>
            destruct (Hfinish _ sb old W Hold ltac:(lia) ltac:(lia) eq_refl eq_refl
                        ltac:(eauto)) as [Hc' Hown]
        end.
        split; [exact Hc'|]. split; [exact Hown|].
        exists sb, old. unfold read_source. rewrite ?Hr. cbn.
        split; [exact Hsb|]. split; [exact Hold | reflexivity].
      * destruct Hd1p as (sb & Hsb & Hsl).
        pose proof (Hcopy _ _ sb old Hsb Hold Hsl Hl) as Hcp.
        wp_run. change (negb (NULL =? NULL)) with false. cbv iota. wp_run.
        split; [reflexivity|].
        match goal with
        | |- Constructed _ _ ?W /\ _ =>
            destruct (Hfinish _ sb old W Hold ltac:(lia) ltac:(lia) eq_refl eq_refl
                        ltac:(eauto)) as [Hc' Hown]
        end.
        split; [exact Hc'|]. split; [exact Hown|].
        exists sb, old. unfold read_source. rewrite ?Hr. cbn.
        split; [exact Hsb|]. split; [exact Hold | reflexivity].
    + destruct Hhv as (old & Hold & Hl). destruct Hdv as (sb & Hsb & Hsl).
      pose proof (Hcopy _ _ sb old Hsb Hold Hsl Hl) as Hcp.
      wp_run. change (negb (NULL =? NULL)) with false. cbv iota. wp_run.
      split; [reflexivity|].
      match goal with
      | |- Constructed _ _ ?W /\ _ =>
          destruct (Hfinish _ sb old W Hold ltac:(lia) ltac:(lia) eq_refl eq_refl
                      ltac:(eauto)) as [Hc' Hown]
      end.
      split; [exact Hc'|]. split; [exact Hown|].
      exists sb, old. unfold read_source. rewrite ?Hr. cbn.
      split; [exact Hsb|]. split; [exact Hold | reflexivity].
  - (* HostMapped *)
    destruct array; destruct Hr01 as [Hr | Hr]; rewrite ?Hr; wp_run.
    all: split; [cbn; rewrite ?Hr; reflexivity|].
    all: split; [exact Hc|]; split; reflexivity.
  - (* RenderShared *)
    destruct Hall as ((_ & Hh0) & (_ & Hhv) & (_ & Hdv) & (_ & Hst0) & (_ & Hst1) & _).
    destruct array.
    2: { destruct Hhv as (old & Hold & Hl). destruct Hdv as (sb & Hsb & Hsl).
      pose proof (Hcopy _ _ sb old Hsb Hold Hsl Hl) as Hcp.
      wp_run. change (negb (NULL =? NULL)) with false. cbv iota. wp_run.
      split; [reflexivity|].
      match goal with
      | |- Constructed _ _ ?W /\ _ =>
          destruct (Hfinish _ sb old W Hold ltac:(lia) ltac:(lia) eq_refl eq_refl
                      ltac:(eauto)) as [Hc' Hown]
      end.
      split; [exact Hc'|]. split; [exact Hown|].
      exists sb, old. unfold read_source. rewrite ?Hr. cbn.
      split; [exact Hsb|]. split; [exact Hold | reflexivity]. }
    destruct Hmode as (_ & Hb01 & Hr01' & Hrn0 & Hrn1 & (f0 & st0 & Hres0 & Hg0)
                       & (f1 & st1 & Hres1 & Hg1)).
    unfold store_of in Hst0, Hst1. rewrite Hg0 in Hst0. rewrite Hg1 in Hst1.
    destruct Hh0 as (old & Hold & Hl).
    destruct Hr01 as [Hr | Hr]; rewrite Hr.
    + destruct Hst0 as (sb & Hsb & Hsl).
      pose proof (Hcopy _ _ sb old Hsb Hold Hsl Hl) as Hcp.
      wp_run.
      match goal with
      | |- context [negb (?r =? NULL)] =>
          replace (r =? NULL) with false by (symmetry; now apply Z.eqb_neq)
      end.
      cbn [negb]. wp_run.
      split; [reflexivity|].
      match goal with
      | |- Constructed _ _ ?W /\ _ =>
          destruct (Hfinish _ sb old W Hold ltac:(lia) ltac:(lia) eq_refl eq_refl)
            as [Hc' Hown]
      end.
      { intros x bx fx Hx. world_simpl.
        match goal with
        | |- context [<[?r := _]> _ !! x] => destruct (decide (x = r)) as [-> | Hne]
        end.
        - rewrite lookup_insert_eq. eexists. repeat f_equal. congruence.
        - rewrite !lookup_insert_ne by auto. eauto. }
      split; [exact Hc'|]. split; [exact Hown|].
      exists sb, old. unfold read_source, store_of. rewrite ?Hr. cbn. rewrite ?Hg0, ?Hg1.
      split; [exact Hsb|]. split; [exact Hold | reflexivity].
    + destruct Hst1 as (sb & Hsb & Hsl).
      pose proof (Hcopy _ _ sb old Hsb Hold Hsl Hl) as Hcp.
      wp_run.
      match goal with
      | |- context [negb (?r =? NULL)] =>
          replace (r =? NULL) with false by (symmetry; now apply Z.eqb_neq)
      end.
      cbn [negb]. wp_run.
      split; [reflexivity|].
      match goal with
      | |- Constructed _ _ ?W /\ _ =>
          destruct (Hfinish _ sb old W Hold ltac:(lia) ltac:(lia) eq_refl eq_refl)
            as [Hc' Hown]
      end.
      { intros x bx fx Hx. world_simpl.
        match goal with
        | |- context [<[?r := _]> _ !! x] => destruct (decide (x = r)) as [-> | Hne]
        end.
        - rewrite lookup_insert_eq. eexists. repeat f_equal. congruence.
        - rewrite !lookup_insert_ne by auto. eauto. }
      split; [exact Hc'|]. split; [exact Hown|].
      exists sb, old. unfold read_source, store_of. rewrite ?Hr. cbn. rewrite ?Hg0, ?Hg1.
      split; [exact Hsb|]. split; [exact Hold | reflexivity].
Qed.

(** The blocks the two functions work on are the system's own. *)
Lemma write_target_own (mode : MemoryMode) (array : BodyArray) (s : System) (w : World) :
  write_target mode array s w ∈ own_blocks mode s w.
Proof. destruct array, mode; cbn; set_solver. Qed.

Lemma host_buffer_own (mode : MemoryMode) (array : BodyArray) (s : System) (w : World) :
  host_buffer mode array s ∈ own_blocks mode s w.
Proof. destruct array, mode; cbn; try destruct (m_currentRead s =? 0); set_solver. Qed.

(** X8. On a system as [_initialize] builds it, [getArray] returns for
    both arrays and [setArray] returns for both arrays when the caller's
    array is live and has the size of an array.  Both leave the system as it
    was built.  [getArray] returns one of the system's own blocks and
    changes no other block of memory; [setArray] changes nothing outside the
    system's own blocks. *)
Theorem arrays_stay_inside (mode : MemoryMode) (s : System) (w : World) :
  Constructed mode s w ->
  (forall array, exists p w',
     getArray array s w = Ok p w' /\
     p = host_buffer mode array s /\ p ∈ own_blocks mode s w /\
     Constructed mode s w' /\
     forall q, q <> p -> memory w' !! q = memory w !! q) /\
  (forall array data X,
     memory w !! data = Some X ->
     Z.of_nat (length X) = m_numBodies s * 4 * sizeof ->
     exists s' w',
       setArray array data s w = Ok s' w' /\
       Constructed mode s' w' /\
       forall q, q ∉ own_blocks mode s w -> memory w' !! q = memory w !! q).
Proof.
  intros Hc. split.
  - intros array.
    destruct (wp_returns _ _ _ (getArray_constructed mode array s w Hc))
      as (p & w' & Hrun & -> & Hc' & _ & Hm).
    exists (host_buffer mode array s), w'. split; [exact Hrun|].
    split; [reflexivity|]. split; [apply host_buffer_own|]. split; [exact Hc'|].
    intros q Hq. destruct mode.
    + destruct Hm as (src & old & _ & _ & ->). now rewrite lookup_insert_ne.
    + now subst w'.
    + destruct Hm as (src & old & _ & _ & ->). now rewrite lookup_insert_ne.
  - intros array data X HX Hlen.
    destruct (wp_returns _ _ _ (setArray_constructed mode array data X s w Hc HX Hlen))
      as (s' & w' & Hrun & -> & Hc' & _ & old & _ & Hm).
    exists (set_current 0 1 s), w'. split; [exact Hrun|]. split; [exact Hc'|].
    intros q Hq. rewrite Hm. apply lookup_insert_ne.
    intros <-. apply Hq. apply write_target_own.
Qed.

(** X9. The velocity array comes back as it was written, in every memory
    mode: on a system as [_initialize] builds it,
    [setArray(BODYSYSTEM_VELOCITY, data)] followed by
    [getArray(BODYSYSTEM_VELOCITY)] both return, and the array returned
    begins with the bytes of the caller's array. *)
Theorem velocity_round_trip (mode : MemoryMode) (s : System) (w : World) (data : Z)
    (X : list Byte.byte) :
  Constructed mode s w ->
  memory w !! data = Some X ->
  Z.of_nat (length X) = m_numBodies s * 4 * sizeof ->
  exists s1 w1 p w2,
    setArray BODYSYSTEM_VELOCITY data s w = Ok s1 w1 /\
    getArray BODYSYSTEM_VELOCITY s1 w1 = Ok p w2 /\
    begins_with (memory w2) p X.
Proof.
  intros Hc HX Hlen.
  destruct (wp_returns _ _ _
              (setArray_constructed mode BODYSYSTEM_VELOCITY data X s w Hc HX Hlen))
    as (s1 & w1 & Hset & -> & Hc1 & Hown & old & Hold & Hm1).
  destruct (wp_returns _ _ _
              (getArray_constructed mode BODYSYSTEM_VELOCITY _ w1 Hc1))
    as (p & w2 & Hget & -> & Hc2 & _ & Hm2).
  exists (set_current 0 1 s), w1, (host_buffer mode BODYSYSTEM_VELOCITY (set_current 0 1 s)), w2.
  split; [exact Hset|]. split; [exact Hget|].
  assert (Htake : forall rest : list Byte.byte, take (length X) (X ++ rest) = X).
  { intros rest. rewrite take_app_le by lia. apply firstn_all. }
  destruct mode; cbn [host_buffer write_target read_source] in *.
  - destruct Hm2 as (src & old2 & Hsrc & _ & ->).
    change (device0 (set_current 0 1 s)) with (device0 s) in Hsrc.
    rewrite Hm1, lookup_insert_eq in Hsrc. injection Hsrc as <-.
    eexists. rewrite lookup_insert_eq. split; [reflexivity|].
    cbn [m_numBodies set_current]. rewrite <- Hlen, Nat2Z.id.
    rewrite take_app_le by (rewrite length_take, length_app; lia).
    rewrite take_take, Nat.min_id. apply Htake.
  - subst w2. eexists. rewrite Hm1.
    change (m_hVel (set_current 0 1 s)) with (m_hVel s).
    rewrite lookup_insert_eq. split; [reflexivity | apply Htake].
  - destruct Hm2 as (src & old2 & Hsrc & _ & ->).
    change (device0 (set_current 0 1 s)) with (device0 s) in Hsrc.
    rewrite Hm1, lookup_insert_eq in Hsrc. injection Hsrc as <-.
    eexists. rewrite lookup_insert_eq. split; [reflexivity|].
    cbn [m_numBodies set_current]. rewrite <- Hlen, Nat2Z.id.
    rewrite take_app_le by (rewrite length_take, length_app; lia).
    rewrite take_take, Nat.min_id. apply Htake.
Qed.

(** X10. The two arrays do not disturb each other.  On a system as
    [_initialize] builds it, writing the positions, then the velocities from
    a caller's array that is not one of the system's blocks, and reading both
    back returns the positions and the velocities that were written, in
    every memory mode. *)
Theorem arrays_independent (mode : MemoryMode) (s : System) (w : World)
    (pdata vdata : Z) (X V : list Byte.byte) :
  Constructed mode s w ->
  memory w !! pdata = Some X -> memory w !! vdata = Some V ->
  Z.of_nat (length X) = m_numBodies s * 4 * sizeof ->
  Z.of_nat (length V) = m_numBodies s * 4 * sizeof ->
  vdata ∉ own_blocks mode s w ->
  exists s1 w1 s2 w2 p w3 v w4,
    setArray BODYSYSTEM_POSITION pdata s w = Ok s1 w1 /\
    setArray BODYSYSTEM_VELOCITY vdata s1 w1 = Ok s2 w2 /\
    getArray BODYSYSTEM_POSITION s2 w2 = Ok p w3 /\
    getArray BODYSYSTEM_VELOCITY s2 w3 = Ok v w4 /\
    begins_with (memory w4) p X /\ begins_with (memory w4) v V.
Proof.
  intros Hc HX HV HlenX HlenV Hout.
  pose proof Hc as (_ & _ & _ & _ & _ & _ & Hnd & _).
  destruct (wp_returns _ _ _
              (setArray_constructed mode BODYSYSTEM_POSITION pdata X s w Hc HX HlenX))
    as (s1 & w1 & Hset1 & -> & Hc1 & Hown1 & old1 & Hold1 & Hm1).
  assert (HV1 : memory w1 !! vdata = Some V).
  { rewrite Hm1, lookup_insert_ne; [exact HV|].
    intros E. apply Hout. rewrite <- E. apply write_target_own. }
  destruct (wp_returns _ _ _
              (setArray_constructed mode BODYSYSTEM_VELOCITY vdata V _ w1 Hc1 HV1 HlenV))
    as (s2 & w2 & Hset2 & -> & Hc2 & Hown2 & old2 & Hold2 & Hm2).
  destruct (wp_returns _ _ _ (getArray_constructed mode BODYSYSTEM_POSITION _ w2 Hc2))
    as (p & w3 & Hget1 & -> & Hc3 & Hown3 & Hm3).
  destruct (wp_returns _ _ _ (getArray_constructed mode BODYSYSTEM_VELOCITY _ w3 Hc3))
    as (v & w4 & Hget2 & -> & Hc4 & Hown4 & Hm4).
  eexists _, w1, _, w2, _, w3, _, w4.
  split; [exact Hset1|]. split; [exact Hset2|]. split; [exact Hget1|].
  split; [exact Hget2|].
  assert (Htake : forall A rest rest' : list Byte.byte,
            take (length A) (take (length A) (A ++ rest) ++ rest') = A).
  { intros A rest rest'.
    rewrite take_app_le by (rewrite length_take, length_app; lia).
    rewrite take_take, Nat.min_id, take_app_le by lia. apply firstn_all. }
  assert (Htake' : forall A rest : list Byte.byte, take (length A) (A ++ rest) = A).
  { intros A rest. rewrite take_app_le by lia. apply firstn_all. }
  assert (HnX : Z.to_nat (m_numBodies s * 4 * sizeof) = length X) by lia.
  assert (HnV : Z.to_nat (m_numBodies s * 4 * sizeof) = length V) by lia.
  assert (Hst : own_blocks mode (set_current 0 1 (set_current 0 1 s)) w2
                = own_blocks mode s w)
    by (now rewrite Hown2, Hown1).
  clear Hown1 Hown2 Hown3 Hown4.
  change (set_current 0 1 (set_current 0 1 s)) with (set_current 0 1 s) in *.
  cbn [m_numBodies set_current] in *.
  destruct mode; cbn [host_buffer write_target read_source own_blocks m_hPos m_hVel
                      set_current m_currentRead m_pbo m_deviceData] in *;
    change (device0 (set_current 0 1 s)) with (device0 s) in *;
    change (0 =? 0) with true in *; cbv iota in *.
  all: rewrite !NoDup_cons, !not_elem_of_cons in Hnd; destruct_and!.
  - destruct Hm3 as (src3 & old3 & Hs3 & Ho3 & Hm3).
    destruct Hm4 as (src4 & old4 & Hs4 & Ho4 & Hm4).
    rewrite Hm2, lookup_insert_ne, Hm1, lookup_insert_eq in Hs3 by auto.
    injection Hs3 as <-.
    rewrite Hm3, lookup_insert_ne, Hm2, lookup_insert_eq in Hs4 by auto.
    injection Hs4 as <-.
    split; eexists; rewrite Hm4.
    + rewrite lookup_insert_ne, Hm3, lookup_insert_eq by auto.
      split; [reflexivity|]. rewrite HnX. apply Htake.
    + rewrite lookup_insert_eq. split; [reflexivity|]. rewrite HnV. apply Htake.
  - subst w3 w4. split; eexists; rewrite Hm2.
    + rewrite lookup_insert_ne, Hm1, lookup_insert_eq by auto.
      split; [reflexivity | apply Htake'].
    + rewrite lookup_insert_eq. split; [reflexivity | apply Htake'].
  - injection Hst as Hst _. rewrite Hst in Hm3.
    destruct Hm3 as (src3 & old3 & Hs3 & Ho3 & Hm3).
    destruct Hm4 as (src4 & old4 & Hs4 & Ho4 & Hm4).
    rewrite Hm2, lookup_insert_ne, Hm1, lookup_insert_eq in Hs3 by auto.
    injection Hs3 as <-.
    rewrite Hm3, lookup_insert_ne, Hm2, lookup_insert_eq in Hs4 by auto.
    injection Hs4 as <-.
    split; eexists; rewrite Hm4.
    + rewrite lookup_insert_ne, Hm3, lookup_insert_eq by auto.
      split; [reflexivity|]. rewrite HnX. apply Htake.
    + rewrite lookup_insert_eq. split; [reflexivity|]. rewrite HnV. apply Htake.
Qed.

End Arrays.

(** ** What [_finalize] gives back *)

Ltac neq_solve := first [assumption | apply not_eq_sym; assumption].

(** A release that cannot go wrong: the block is live and not null. *)
Ltac gone_absurd :=
  match goal with
  | H : _ !! ?p = None, Hb : _ !! ?p = Some _ |- _ =>
      exfalso; rewrite ?lookup_delete_ne in H by neq_solve;
      rewrite Hb in H; discriminate H
  | H : ?p = NULL, H' : ?p <> NULL |- _ => exfalso; exact (H' H)
  | H : ?p <> NULL, H' : ?p = NULL |- _ => exfalso; exact (H H')
  end.

(** Lookups in what is left after the releases. *)
Ltac released_case Hq :=
  rewrite ?not_elem_of_cons, ?elem_of_cons, ?elem_of_nil in Hq;
  first
    [ contradiction
    | destruct_and?; rewrite ?lookup_delete_ne by neq_solve; reflexivity
    | repeat (destruct Hq as [-> | Hq]); try contradiction;
      repeat first [rewrite lookup_delete_eq | rewrite lookup_delete_ne by neq_solve];
      reflexivity ].

Ltac released_solve :=
  cbn [own_blocks own_buffers own_resources]; world_simpl;
  repeat split; intros ?;
  match goal with
  | |- context [bool_decide ?P] =>
      let Hq := fresh "Hq" in
      destruct (bool_decide_reflect P) as [Hq | Hq]; released_case Hq
  end.

Ltac wp_free :=
  repeat (wp_next; cbn beta iota; world_simpl;
          try match goal with
              | E : Some _ = Some ?a |- _ => is_var a; injection E as <-
              end;
          try code_absurd; try index_absurd; try gone_absurd).

Section Finalize.

Context {T : Type} {ST : Scalar T}.

#[local] Abbreviation World := (@World T).
#[local] Abbreviation System := (@BodySystemCUDA T).
#[local] Abbreviation M := (@M T).

(** Destroying the events of devices that are all there touches no store. *)
Lemma destroy_events_total (checked : bool) (ds : list DeviceData) (n : nat) (i : Z)
    (w : World) :
  0 <= i -> i + Z.of_nat n <= Z.of_nat (length ds) ->
  wp (destroy_events checked ds n i) (fun _ w' => same_stores w w') no_failure w.
Proof.
  revert i w. induction n as [|n IH]; intros i w Hi Hlen; cbn [destroy_events].
  - apply wp_ret. unfold same_stores. auto.
  - destruct (lookup_lt_is_Some_2 ds (Z.to_nat i)) as [d Hd]; [lia|].
    rewrite Hd. destruct checked; wp_go.
    all: (eapply wp_mono; [apply (IH (i + 1)); lia|]).
    all: intros ? w' (Hm & Hg & Hr); world_simpl; unfold same_stores; auto.
Qed.

Lemma finalize_releases (mode : MemoryMode) (s : System) (w : World) :
  Constructed mode s w ->
  wp (_finalize s)
     (fun s' w' => released mode s w w' /\ m_bInitialized s' = false)
     no_failure w.
Proof.
  intros Hc.
  pose proof Hc as (Hi & Hflags & Hn & Hrw & Hlen0 & Hlen & Hnd & Hall & Hmode).
  pose proof (device0_lookup s Hlen0) as Hd0.
  assert (Hpeers : 1 + Z.of_nat (Z.to_nat (m_numDevices s - 1))
                   <= Z.of_nat (length (m_deviceData s))) by (clear - Hlen Hlen0; lia).
  assert (Hevery : 0 + Z.of_nat (Z.to_nat (m_numDevices s))
                   <= Z.of_nat (length (m_deviceData s))) by (clear - Hlen; lia).
  unfold _finalize. rewrite Hi, Hd0.
  destruct mode; cbn in Hflags; injection Hflags as Hpbo Hsys; rewrite Hpbo, ?Hsys;
    cbn [own_blocks] in Hall, Hnd; rewrite !Forall_cons in Hall;
    rewrite !NoDup_cons, !not_elem_of_cons in Hnd; destruct_and!.
  all: repeat match goal with
              | H : holds _ _ _ |- _ => destruct H as (? & ? & _)
              end.
  all: wp_step; wp_step; [|discriminate].
  - (* DeviceLocal *)
    wp_free.
    destruct (m_bUseP2P s).
    + eapply wp_mono; [apply destroy_events_total; [clear; lia | exact Hpeers]|].
      intros ? w' (Hm & Hg & Hres). wp_free.
      split; [|reflexivity]. unfold released. rewrite Hm, Hg, Hres.
      released_solve.
    + wp_free. split; [|reflexivity]. unfold released. released_solve.
  - (* HostMapped *)
    wp_free.
    eapply wp_mono; [apply destroy_events_total; [clear; lia | exact Hevery]|].
    intros ? w' (Hm & Hg & Hres). wp_free.
    split; [|reflexivity]. unfold released. rewrite Hm, Hg, Hres.
    released_solve.
  - (* RenderShared *)
    repeat match goal with
           | H : exists _, _ |- _ => destruct H as (? & ? & ? & ?)
           end.
    unfold store_of in *.
    repeat match goal with
           | H : gl_buffers w !! _ = Some (Some _) |- _ => rewrite H in *
           end.
    wp_free.
    split; [|reflexivity]. unfold released.
    cbn [own_blocks own_buffers own_resources]. world_simpl. unfold store_of.
    cbn [omap list_omap].
    repeat match goal with
           | H : gl_buffers w !! _ = Some (Some _) |- _ => rewrite !H
           end.
    cbn [mjoin option_join foldr].
    released_solve.
Qed.

(** Releasing what was built since [w0] leads back to the stores of [w0]. *)
Lemma built_released (mode : MemoryMode) (w0 : World) (s : System) (w w' : World) :
  built_from mode w0 s w -> released mode s w w' ->
  memory w' = memory w0 /\ gl_buffers w' = gl_buffers w0 /\ resources w' = resources w0.
Proof.
  intros (Hb1 & Hb2 & Hb3 & Hb4 & Hb5 & Hb6) (Hr1 & Hr2 & Hr3).
  split; [|split]; apply map_eq; intros q.
  - rewrite Hr1. case_bool_decide; [symmetry; now apply Hb1 | now apply Hb2].
  - rewrite Hr2. case_bool_decide; [symmetry; now apply Hb3 | now apply Hb4].
  - rewrite Hr3. case_bool_decide; [symmetry; now apply Hb5 | now apply Hb6].
Qed.

(** X11. On a system as [_initialize] builds it, in any state its arrays
    are in, [_finalize] returns: every release finds its block live, every
    resource registered.  Afterwards the system is not initialised, the
    blocks, buffer objects and resources of the system are gone, and every
    other block, buffer object and resource is as it was. *)
Theorem finalize_gives_back (mode : MemoryMode) (s : System) (w : World) :
  Constructed mode s w ->
  exists s' w',
    _finalize s w = Ok s' w' /\ m_bInitialized s' = false /\ released mode s w w'.
Proof.
  intros Hc.
  destruct (wp_returns _ _ _ (finalize_releases mode s w Hc)) as (s' & w' & Hrun & Hrel & Hi).
  exists s', w'. auto.
Qed.

(** X12. Construction followed by destruction leaks no memory, no buffer
    object and no interop resource: from a world where unused handles name
    nothing, in every memory mode, both the constructor and the destructor
    return, and memory, buffer objects and resources are then exactly those
    from before the construction. *)
Theorem construct_destroy_restores (mode : MemoryMode)
    (numBodies numDevices blockSize : Z) (useP2P : bool) (deviceId : Z) (w : World) :
  fresh_world w ->
  1 <= numDevices <= Z.of_nat (length (devices w)) ->
  (mode <> HostMapped -> 0 <= deviceId < Z.of_nat (length (devices w))) ->
  0 <= numBodies -> sizeof * 4 * numBodies < 2 ^ 32 ->
  exists s w1 s' w2,
    BodySystemCUDA_new numBodies numDevices blockSize (mode_flags mode).1
      (mode_flags mode).2 useP2P deviceId w = Ok s w1 /\
    BodySystemCUDA_delete s w1 = Ok s' w2 /\
    m_bInitialized s' = false /\ m_numBodies s' = 0 /\
    memory w2 = memory w /\ gl_buffers w2 = gl_buffers w /\ resources w2 = resources w.
Proof.
  intros Hfresh Hnd Hdev Hn Hsize.
  destruct (wp_returns _ _ _
              (constructor_constructs mode numBodies numDevices blockSize useP2P deviceId w
                 Hfresh Hnd Hdev Hn Hsize))
    as (s & w1 & Hnew & Hc & Hb & _).
  destruct (wp_returns _ _ _ (finalize_releases mode s w1 Hc))
    as (s' & w2 & Hfin & Hrel & Hi).
  exists s, w1, (set_m_numBodies 0 s'), w2.
  split; [exact Hnew|]. split.
  { unfold BodySystemCUDA_delete. now rewrite (bind_Ok _ _ _ _ _ Hfin). }
  split; [exact Hi|]. split; [reflexivity|].
  exact (built_released mode w s w1 w2 Hb Hrel).
Qed.

End Finalize.

(** ** Events created and events destroyed *)

Section Events.

Context {T : Type} {ST : Scalar T}.

#[local] Abbreviation World := (@World T).
#[local] Abbreviation System := (@BodySystemCUDA T).
#[local] Abbreviation M := (@M T).

Lemma created_events_snoc (t : list (@Call T)) (c : @Call T) :
  created_events (t ++ [c])
  = created_events t ++ match c with cudaEventCreate_ e => [e] | _ => [] end.
Proof. unfold created_events. rewrite omap_app. cbn. now destruct c. Qed.

Lemma destroyed_events_snoc (t : list (@Call T)) (c : @Call T) :
  destroyed_events (t ++ [c])
  = destroyed_events t ++ match c with cudaEventDestroy_ e => [e] | _ => [] end.
Proof. unfold destroyed_events. rewrite omap_app. cbn. now destruct c. Qed.

End Events.

(** The events of a trace that was extended call by call. *)
Ltac events_simpl :=
  world_simpl;
  rewrite ?created_events_snoc, ?destroyed_events_snoc;
  cbn beta iota; rewrite ?app_nil_r, <- ?app_assoc; cbn [app].

Section EventBalance.

Context {T : Type} {ST : Scalar T}.

#[local] Abbreviation World := (@World T).
#[local] Abbreviation System := (@BodySystemCUDA T).
#[local] Abbreviation M := (@M T).

Lemma query_weights_events (n : nat) (i : Z) (w : World) :
  wp (query_weights n i)
     (fun _ w' => created_events (trace w') = created_events (trace w)) any_failure w.
Proof.
  revert i w. induction n as [|n IH]; intros i w; cbn [query_weights].
  - now apply wp_ret.
  - wp_step. apply wp_cudaGetDeviceProperties; cbv zeta; intros; cbn beta iota.
    all: wp_step; wp_step; [|exact I].
    all: wp_step; eapply wp_mono; [apply IH|].
    all: intros ws w' Hw; apply wp_ret; rewrite Hw; events_simpl; reflexivity.
Qed.

Lemma map_host_buffers_events (nd : Z) (hPos : Z * Z) (hVel : Z) (ds : list DeviceData)
    (i : Z) (w : World) :
  wp (map_host_buffers nd hPos hVel ds i)
     (fun ds' w' => created_events (trace w') = created_events (trace w) ++ map event ds')
     any_failure w.
Proof.
  revert i w. induction ds as [|d ds IH]; intros i w; cbn [map_host_buffers].
  - apply wp_ret. now rewrite app_nil_r.
  - destruct (1 <? nd); wp_exec.
    all: eapply wp_mono; [apply IH|].
    all: intros ds' w' Hw; apply wp_ret; rewrite Hw; events_simpl; reflexivity.
Qed.

Lemma share_with_peers_events (d0 : DeviceData) (ds : list DeviceData) (i : Z) (w : World) :
  wp (share_with_peers d0 ds i)
     (fun ds' w' => created_events (trace w') = created_events (trace w) ++ map event ds')
     any_failure w.
Proof.
  revert i w. induction ds as [|d ds IH]; intros i w; cbn [share_with_peers].
  - apply wp_ret. now rewrite app_nil_r.
  - wp_exec.
    all: eapply wp_mono; [apply IH|].
    all: intros ds' w' Hw; apply wp_ret; rewrite Hw; events_simpl; reflexivity.
Qed.

Lemma create_pbo_events (buffer memSize data : Z) (w : World) :
  wp (create_pbo buffer memSize data)
     (fun _ w' => created_events (trace w') = created_events (trace w)) any_failure w.
Proof.
  unfold create_pbo. wp_step. wp_step. wp_step.
  apply wp_glBufferData; cbn zeta; world_simpl; intros; try exact I.
  all: wp_step; wp_step; world_simpl.
  all: match goal with |- context [negb ?b] => destruct (negb b) end.
  all: wp_exec.
  all: events_simpl; reflexivity.
Qed.

Lemma divide_workload_events (nd n : Z) (w : World) :
  wp (divide_workload nd n)
     (fun _ w' => created_events (trace w') = created_events (trace w)) any_failure w.
Proof.
  unfold divide_workload. wp_step.
  eapply wp_mono; [apply query_weights_events|].
  intros ws w' Hw. now apply wp_ret.
Qed.

(** [_initialize] creates the events of [device_events], in the order of
    the devices, and no other. *)
Lemma initialize_events (n : Z) (s : System) (w : World) :
  wp (_initialize n s)
     (fun s' w' => created_events (trace w') = created_events (trace w) ++ device_events s')
     any_failure w.
Proof.
  unfold _initialize. wp_step. wp_step; [|exact I].
  cbv zeta. cbn [m_numBodies m_numDevices set_m_numBodies m_bUseSysMem m_bUsePBO
                 m_bUseP2P m_devID m_hPos m_pbo m_pGRes].
  wp_step. eapply wp_mono; [apply divide_workload_events|].
  intros ds w1 Hw1. cbn beta.
  unfold device_events.
  destruct (m_bUseSysMem s) eqn:Hsys.
  - wp_exec.
    eapply wp_mono; [apply map_host_buffers_events|].
    intros ds' w' Hw'. wp_exec. cbn. rewrite Hsys. cbn.
    rewrite Hw'. events_simpl. now rewrite Hw1.
  - destruct (m_bUsePBO s) eqn:Hpbo.
    + wp_exec. eapply wp_mono; [apply create_pbo_events|].
      intros r0 w2 Hw2. wp_exec. eapply wp_mono; [apply create_pbo_events|].
      intros r1 w3 Hw3. wp_exec.
      destruct (m_bUseP2P s) eqn:Hp2p.
      * eapply wp_mono; [apply share_with_peers_events|].
        intros peers w' Hw'. wp_exec. cbn. rewrite Hsys, Hp2p. cbn.
        rewrite Hw'. events_simpl. rewrite Hw3, Hw2. events_simpl. now rewrite Hw1.
      * wp_exec. cbn. rewrite Hsys, Hp2p. cbn.
        events_simpl. rewrite Hw3, Hw2. events_simpl. now rewrite Hw1.
    + wp_exec.
      destruct (m_bUseP2P s) eqn:Hp2p.
      * eapply wp_mono; [apply share_with_peers_events|].
        intros peers w' Hw'. wp_exec. cbn. rewrite Hsys, Hp2p. cbn.
        rewrite Hw'. events_simpl. now rewrite Hw1.
      * wp_exec. cbn. rewrite Hsys, Hp2p. cbn.
        events_simpl. now rewrite Hw1.
Qed.

Lemma destroy_events_events (checked : bool) (ds : list DeviceData) (n : nat) (i : Z)
    (w : World) :
  0 <= i ->
  wp (destroy_events checked ds n i)
     (fun _ w' =>
        destroyed_events (trace w')
        = destroyed_events (trace w) ++ map event (take n (drop (Z.to_nat i) ds)))
     any_failure w.
Proof.
  revert i w. induction n as [|n IH]; intros i w Hi; cbn [destroy_events].
  - apply wp_ret. cbn. now rewrite app_nil_r.
  - wp_step. apply wp_defined; [intros d Hd | intros; exact I].
    wp_step. apply wp_cudaEventDestroy. cbn beta.
    wp_step. destruct checked; wp_exec.
    all: eapply wp_mono; [apply (IH (i + 1)); lia|].
    all: intros ? w' Hw'; rewrite Hw'; events_simpl.
    all: rewrite (drop_S _ _ _ Hd); cbn [take map].
    all: replace (Z.to_nat (i + 1)) with (S (Z.to_nat i)) by lia; reflexivity.
Qed.

(** [_finalize] destroys the events of [device_events], in the order of
    the devices, except with [m_bUsePBO] outside the [m_bUseSysMem] branch,
    where it destroys none. *)
Lemma finalize_events (s : System) (w : World) :
  length (m_deviceData s) = Z.to_nat (m_numDevices s) ->
  (0 < length (m_deviceData s))%nat ->
  wp (_finalize s)
     (fun _ w' =>
        destroyed_events (trace w')
        = destroyed_events (trace w)
            ++ (if m_bUsePBO s && negb (m_bUseSysMem s) then [] else device_events s))
     any_failure w.
Proof.
  intros Hlen Hlen0. pose proof (device0_lookup s Hlen0) as Hd0.
  assert (Hall : take (Z.to_nat (m_numDevices s)) (drop (Z.to_nat 0) (m_deviceData s))
                 = m_deviceData s).
  { change (Z.to_nat 0) with 0%nat. cbn [drop]. apply take_ge. lia. }
  assert (Hrest : device0 s
                    :: take (Z.to_nat (m_numDevices s - 1))
                         (drop (Z.to_nat 1) (m_deviceData s))
                  = m_deviceData s).
  { change (Z.to_nat 1) with 1%nat. unfold device0.
    destruct (m_deviceData s) as [|d ds]; [cbn in Hlen0; lia|].
    cbn [lookup list_lookup default drop]. f_equal. apply take_ge.
    cbn [length] in Hlen. lia. }
  assert (Hfirst : take 1 (m_deviceData s) = [device0 s]).
  { unfold device0. destruct (m_deviceData s) as [|d ds]; [cbn in Hlen0; lia|].
    reflexivity. }
  unfold _finalize, device_events. rewrite Hd0. wp_step. wp_step; [|exact I].
  destruct (m_bUseSysMem s) eqn:Hsys.
  - rewrite andb_false_r. cbn [orb].
    repeat (wp_next; cbn beta iota; world_simpl; try exact I).
    all: eapply wp_mono; [apply destroy_events_events; lia|].
    all: intros ? w' Hw'; wp_exec; rewrite Hw', Hall; events_simpl; reflexivity.
  - cbn [orb negb]. rewrite andb_true_r.
    destruct (m_bUsePBO s) eqn:Hpbo.
    + repeat (wp_next; cbn beta iota; world_simpl; try exact I).
      all: try match goal with E : Some _ = Some ?a |- _ => injection E as <- end.
      all: events_simpl; rewrite ?app_nil_r; reflexivity.
    + repeat (wp_next; cbn beta iota; world_simpl; try exact I).
      all: try match goal with E : Some _ = Some ?a |- _ => injection E as <- end.
      all: destruct (m_bUseP2P s).
      all: try (eapply wp_mono; [apply destroy_events_events; lia|];
                intros ? w' Hw'; wp_exec; rewrite Hw'; events_simpl;
                rewrite <- Hrest at 2; reflexivity).
      all: wp_exec; events_simpl; rewrite Hfirst; reflexivity.
Qed.

(** X13. Every event [_initialize] creates is recorded in the array of
    devices: one per device in the [m_bUseSysMem] branch or with
    [m_bUseP2P], the event of device 0 alone otherwise.  [_finalize] destroys
    exactly these events, in the same order, except on a system with
    [m_bUsePBO] outside the [m_bUseSysMem] branch, where it destroys none: the
    events of a render-shared system are never destroyed. *)
Theorem events_created_and_destroyed (s : System) (w : World) :
  (forall n s' w',
     _initialize n s w = Ok s' w' ->
     created_events (trace w') = created_events (trace w) ++ device_events s') /\
  (length (m_deviceData s) = Z.to_nat (m_numDevices s) ->
   (0 < length (m_deviceData s))%nat ->
   device_events s <> [] /\
   forall s' w',
     _finalize s w = Ok s' w' ->
     destroyed_events (trace w')
     = destroyed_events (trace w)
         ++ (if m_bUsePBO s && negb (m_bUseSysMem s) then [] else device_events s)).
Proof.
  split.
  - intros n s' w' H. exact (wp_Ok _ _ _ _ _ _ (initialize_events n s w) H).
  - intros Hlen Hlen0. split.
    + unfold device_events.
      destruct (m_deviceData s) as [|d ds]; [cbn in Hlen0; lia|].
      destruct (m_bUseSysMem s || m_bUseP2P s); discriminate.
    + intros s' w' H. exact (wp_Ok _ _ _ _ _ _ (finalize_events s w Hlen Hlen0) H).
Qed.

End EventBalance.
(** ** Loading a file into a system *)

(** Symbolic execution of a run in which no assertion can fail. *)
Ltac wp_calm :=
  repeat (wp_next; cbn beta iota; try exact I; try code_absurd;
          try match goal with |- _ <> failed_assert => discriminate end).

Section Tipsy.

Context {T : Type} {ST : Scalar T}.

#[local] Abbreviation World := (@World T).
#[local] Abbreviation System := (@BodySystemCUDA T).
#[local] Abbreviation M := (@M T).

#[local] Abbreviation no_assertion := (fun f : failure => f <> failed_assert).

Variable read_tipsy_file : string -> M (Z * Z * Z * Z).

Lemma wp_no_assertion {A} (m : M A) (Q : A -> World -> Prop) (w : World) :
  wp m Q any_failure w -> wp m (fun _ _ => True) no_assertion w ->
  wp m Q no_assertion w.
Proof. unfold wp, any_failure. destruct (m w); auto. Qed.

Lemma wp_no_assertion_inv {A} (m : M A) (Q : A -> World -> Prop) (w : World) :
  wp m Q no_assertion w ->
  m w <> AssertionFailed /\ forall a w', m w = Ok a w' -> Q a w'.
Proof.
  unfold wp. destruct (m w) as [a w1| | |]; intros H.
  - split; [discriminate|]. intros a' w' E. now inversion E; subst.
  - now contradiction H.
  - split; discriminate.
  - split; discriminate.
Qed.

Lemma query_weights_calm (n : nat) (i : Z) (w : World) :
  wp (query_weights n i) (fun _ _ => True) no_assertion w.
Proof.
  revert i w. induction n as [|n IH]; intros i w; cbn [query_weights].
  - now apply wp_ret.
  - wp_step. apply wp_cudaGetDeviceProperties; cbv zeta; intros; cbn beta iota.
    all: wp_step; wp_step; [|discriminate].
    all: wp_step; eapply wp_mono; [apply IH|].
    all: intros ws w' _; now apply wp_ret.
Qed.

Lemma divide_workload_calm (nd n : Z) (w : World) :
  wp (divide_workload nd n) (fun _ _ => True) no_assertion w.
Proof.
  unfold divide_workload. wp_step.
  eapply wp_mono; [apply query_weights_calm|].
  intros ws w' _. now apply wp_ret.
Qed.

Lemma map_host_buffers_calm (nd : Z) (hPos : Z * Z) (hVel : Z) (ds : list DeviceData)
    (i : Z) (w : World) :
  wp (map_host_buffers nd hPos hVel ds i) (fun _ _ => True) no_assertion w.
Proof.
  revert i w. induction ds as [|d ds IH]; intros i w; cbn [map_host_buffers].
  - now apply wp_ret.
  - destruct (1 <? nd); wp_calm.
    all: eapply wp_mono; [apply IH|].
    all: intros ds' w' _; now apply wp_ret.
Qed.

Lemma share_with_peers_calm (d0 : DeviceData) (ds : list DeviceData) (i : Z) (w : World) :
  wp (share_with_peers d0 ds i) (fun _ _ => True) no_assertion w.
Proof.
  revert i w. induction ds as [|d ds IH]; intros i w; cbn [share_with_peers].
  - now apply wp_ret.
  - wp_calm.
    all: eapply wp_mono; [apply IH|].
    all: intros ds' w' _; now apply wp_ret.
Qed.

Lemma create_pbo_calm (buffer memSize data : Z) (w : World) :
  wp (create_pbo buffer memSize data) (fun _ _ => True) no_assertion w.
Proof.
  unfold create_pbo. wp_step. wp_step. wp_step.
  apply wp_glBufferData; cbn zeta; world_simpl; intros; try discriminate.
  all: wp_step; wp_step; world_simpl.
  all: match goal with |- context [negb ?b] => destruct (negb b) end.
  all: wp_calm.
Qed.

Lemma destroy_events_calm (checked : bool) (ds : list DeviceData) (n : nat) (i : Z)
    (w : World) :
  wp (destroy_events checked ds n i) (fun _ _ => True) no_assertion w.
Proof.
  revert i w. induction n as [|n IH]; intros i w; cbn [destroy_events].
  - now apply wp_ret.
  - destruct checked; wp_calm.
    all: apply IH.
Qed.

Lemma initialize_calm (n : Z) (s : System) (w : World) :
  m_bInitialized s = false ->
  wp (_initialize n s) (fun _ _ => True) no_assertion w.
Proof.
  intros Hi. unfold _initialize. rewrite Hi. wp_step. wp_step; [|discriminate].
  cbv zeta. cbn [m_numBodies m_numDevices set_m_numBodies m_bUseSysMem m_bUsePBO
                 m_bUseP2P m_devID m_hPos m_pbo m_pGRes].
  wp_step. eapply wp_mono; [apply divide_workload_calm|].
  intros ds w1 _. cbn beta.
  destruct (m_bUseSysMem s).
  - wp_calm.
    all: eapply wp_mono; [apply map_host_buffers_calm|].
    all: intros ds' w' _; wp_calm.
  - destruct (m_bUsePBO s).
    + wp_calm.
      all: eapply wp_mono; [apply create_pbo_calm|].
      all: intros r0 w2 _; wp_calm.
      all: eapply wp_mono; [apply create_pbo_calm|].
      all: intros r1 w3 _; wp_calm.
      all: destruct (m_bUseP2P s); wp_calm.
      all: eapply wp_mono; [apply share_with_peers_calm|].
      all: intros peers w' _; wp_calm.
    + wp_calm.
      all: destruct (m_bUseP2P s); wp_calm.
      all: eapply wp_mono; [apply share_with_peers_calm|].
      all: intros peers w' _; wp_calm.
Qed.

Lemma finalize_calm (s : System) (w : World) :
  m_bInitialized s = true ->
  wp (_finalize s) (fun _ _ => True) no_assertion w.
Proof.
  intros Hi. unfold _finalize. rewrite Hi. wp_step. wp_step; [|discriminate].
  destruct (m_bUseSysMem s).
  - wp_calm.
    all: eapply wp_mono; [apply destroy_events_calm|].
    all: intros ? w' _; wp_calm.
  - destruct (m_bUsePBO s); [|destruct (m_bUseP2P s)]; wp_calm.
    all: eapply wp_mono; [apply destroy_events_calm|].
    all: intros ? w' _; wp_calm.
Qed.

Lemma setArray_calm (array : BodyArray) (data : Z) (s : System) (w : World) :
  m_bInitialized s = true ->
  wp (setArray array data s) (fun _ _ => True) no_assertion w.
Proof.
  intros Hi. unfold setArray. rewrite Hi.
  wp_step. wp_step; [|discriminate].
  cbn [m_bUsePBO m_bUseSysMem set_current m_numBodies m_currentRead m_pbo m_hPos m_hVel
       m_deviceData].
  destruct array, (m_bUsePBO s), (m_bUseSysMem s); wp_calm.
  all: apply wp_glBufferSubData; cbn zeta; intros; try discriminate.
  all: wp_calm.
  all: match goal with |- context [negb ?b] => destruct (negb b) end.
  all: wp_calm.
Qed.

Lemma vector_delete_calm (storage : Z) (Q : unit -> World -> Prop) (w : World) :
  (forall w', Q tt w') -> wp (vector_delete storage) Q no_assertion w.
Proof.
  intros HQ. unfold vector_delete. destruct (storage =? NULL); [now apply wp_ret|].
  unfold wp. destruct (memory w !! storage); [apply HQ | discriminate].
Qed.

Lemma loadTipsyFile_wp (filename : string) (s : System) (w : World) :
  (forall w0, read_tipsy_file filename w0 <> AssertionFailed) ->
  wp (loadTipsyFile read_tipsy_file filename s)
     (fun s' _ =>
        m_bInitialized s' = true /\
        m_currentRead s' = 0 /\ m_currentWrite s' = 1 /\
        m_numDevices s' = m_numDevices s /\ m_blockSize s' = m_blockSize s /\
        m_bUsePBO s' = m_bUsePBO s /\ m_bUseSysMem s' = m_bUseSysMem s /\
        m_bUseP2P s' = m_bUseP2P s /\ m_devID s' = m_devID s /\
        m_damping s' = m_damping s /\
        exists w0 positions velocities ids nBodies w1,
          read_tipsy_file filename w0 = Ok (positions, velocities, ids, nBodies) w1 /\
          m_numBodies s' = wrap32 nBodies)
     no_assertion w.
Proof.
  intros Hread. unfold loadTipsyFile.
  apply wp_bind.
  apply (wp_mono _ (fun s0 _ => m_bInitialized s0 = false /\ same_config s s0)).
  { destruct (m_bInitialized s) eqn:Hi.
    - apply wp_no_assertion.
      + eapply wp_mono; [apply finalize_state|]. now intros s0 w0 (_ & H0 & _ & Hc).
      + now apply finalize_calm.
    - apply wp_ret. split; [exact Hi|]. unfold same_config. tauto. }
  intros s0 w0 (Hi0 & Hc0).
  apply wp_bind. unfold wp at 1.
  destruct (read_tipsy_file filename w0) as [[[[positions velocities] ids] nBodies] w1| | |]
    eqn:Hfile; [| destruct (Hread w0 Hfile) | discriminate | discriminate].
  apply wp_bind. apply wp_no_assertion; [|now apply initialize_calm].
  eapply wp_mono; [apply initialize_state|].
  intros s1 w2 (_ & Hi1 & Hn1 & Hc1).
  apply wp_bind. apply wp_no_assertion; [|now apply setArray_calm].
  eapply wp_mono; [now apply setArray_wp|].
  intros s2 w3 (-> & _).
  apply wp_bind. apply wp_no_assertion; [|now apply setArray_calm].
  eapply wp_mono; [now apply setArray_wp|].
  intros s3 w4 (-> & _).
  apply wp_bind, vector_delete_calm. intros w5.
  apply wp_bind, vector_delete_calm. intros w6.
  apply wp_bind, vector_delete_calm. intros w7.
  apply wp_ret.
  unfold same_config in Hc0, Hc1. destruct_and!.
  cbn. repeat (split; [congruence|]).
  exists w0, positions, velocities, ids, nBodies, w1. now split.
Qed.

(** X14. [loadTipsyFile] may be called on a system in any state: whether
    the system is initialised or not, no assertion of [_finalize],
    [_initialize] or [setArray] fails.  When it returns, the system is
    initialised for the number of bodies the reader gave (as an
    [unsigned int]), the buffer indices are 0 and 1, and the number of
    devices, the block size, the memory flags, the device and the damping are
    those it had. *)
Theorem loadTipsyFile_reloads (filename : string) (s : System) (w : World) :
  (forall w0, read_tipsy_file filename w0 <> AssertionFailed) ->
  loadTipsyFile read_tipsy_file filename s w <> AssertionFailed /\
  forall s' w',
    loadTipsyFile read_tipsy_file filename s w = Ok s' w' ->
    m_bInitialized s' = true /\
    m_currentRead s' = 0 /\ m_currentWrite s' = 1 /\
    m_numDevices s' = m_numDevices s /\ m_blockSize s' = m_blockSize s /\
    m_bUsePBO s' = m_bUsePBO s /\ m_bUseSysMem s' = m_bUseSysMem s /\
    m_bUseP2P s' = m_bUseP2P s /\ m_devID s' = m_devID s /\
    m_damping s' = m_damping s /\
    exists w0 positions velocities ids nBodies w1,
      read_tipsy_file filename w0 = Ok (positions, velocities, ids, nBodies) w1 /\
      m_numBodies s' = wrap32 nBodies.
Proof.
  intros Hread.
  exact (wp_no_assertion_inv _ _ _ (loadTipsyFile_wp filename s w Hread)).
Qed.

End Tipsy.
(** ** Body counts past the 32-bit sizes *)

Lemma fill_block_length ptr size (m m' : gmap Z (list Byte.byte)) p :
  fill_block ptr size m = Some m' ->
  length <$> (m' !! p) = length <$> (m !! p).
Proof.
  intros H. apply fill_block_Some in H as (b & Hb & Hs & ->).
  destruct (decide (ptr = p)) as [-> | Hne].
  - rewrite lookup_insert_eq, Hb. cbn. f_equal.
    rewrite length_app, length_replicate, length_drop. lia.
  - now rewrite lookup_insert_ne.
Qed.

Lemma copy_block_short dst src count (m : gmap Z (list Byte.byte)) d :
  m !! dst = Some d -> Z.of_nat (length d) < count ->
  copy_block dst src count m = None.
Proof.
  intros Hd Hl. unfold copy_block. rewrite Hd.
  destruct (m !! src); [|reflexivity].
  destruct (Z.leb_spec count (Z.of_nat (length d))); [lia|].
  now rewrite andb_false_r.
Qed.

Section Limits.

Context {T : Type} {ST : Scalar T}.

#[local] Abbreviation World := (@World T).
#[local] Abbreviation System := (@BodySystemCUDA T).
#[local] Abbreviation M := (@M T).

(** The size of a block of a memory, when it is there. *)
#[local] Abbreviation block_size m p := (length <$> (m !! p)).

(** In the [m_bUseSysMem] branch the three host buffers get
    [sizeof(T) * 4 * numBodies] bytes as an [unsigned int]. *)
Lemma initialize_host_sizes (n : Z) (s : System) (w : World) :
  m_bUseSysMem s = true ->
  wp (_initialize n s)
     (fun s' w' =>
        let size := Some (Z.to_nat (wrap32 (sizeof * 4 * n))) in
        block_size (memory w') (fst (m_hPos s')) = size /\
        block_size (memory w') (snd (m_hPos s')) = size /\
        block_size (memory w') (m_hVel s') = size)
     any_failure w.
Proof.
  intros Hsys. unfold _initialize. wp_step. wp_step; [|exact I].
  cbv zeta. cbn [m_numBodies m_numDevices set_m_numBodies m_bUseSysMem m_bUsePBO
                 m_bUseP2P m_devID m_hPos m_pbo m_pGRes].
  rewrite Hsys. apply wp_bind, wp_any. intros ds w1. cbn beta.
  wp_exec.
  eapply wp_mono; [apply map_host_buffers_wp|].
  intros ds' w' (_ & Hm & _). world_simpl. wp_exec. cbn. rewrite Hm.
  repeat match goal with
         | H : fill_block _ _ _ = Some ?m |- context [?m !! ?p] =>
             rewrite (fill_block_length _ _ _ _ p H)
         end.
  repeat split.
  all: repeat first [rewrite lookup_insert_eq | rewrite lookup_insert_ne by lia].
  all: cbn; now rewrite length_replicate.
Qed.

(** A copy of more bytes than the destination holds. *)
Lemma setArray_past_the_end (array : BodyArray) (data : Z) (s : System) (w : World)
    (size : nat) :
  m_bInitialized s = true -> m_bUseSysMem s = true -> m_bUsePBO s = false ->
  block_size (memory w) (fst (m_hPos s)) = Some size ->
  block_size (memory w) (m_hVel s) = Some size ->
  Z.of_nat size < array_bytes (m_numBodies s) ->
  setArray array data s w = Undefined.
Proof.
  intros Hi Hsys Hpbo Hp Hv Hsize.
  destruct (memory w !! fst (m_hPos s)) as [bp|] eqn:Ebp; [|discriminate].
  destruct (memory w !! m_hVel s) as [bv|] eqn:Ebv; [|discriminate].
  cbn in Hp, Hv. injection Hp as Hp. injection Hv as Hv.
  unfold setArray, bind, assert, memcpy, log, defined. rewrite Hi.
  cbn [m_bUsePBO m_bUseSysMem set_current m_numBodies m_currentRead m_pbo m_hPos m_hVel
       m_deviceData].
  rewrite Hpbo, Hsys.
  destruct array; cbn; world_simpl.
  - now rewrite (copy_block_short _ _ _ _ bp Ebp) by lia.
  - now rewrite (copy_block_short _ _ _ _ bv Ebv) by lia.
Qed.

(** X15. The sizes of the buffers are computed in 32 bits.  A system with
    [useSysMem] for [numBodies] bodies whose arrays take 2^32 bytes or more
    ([numBodies] below 2^30) is constructed with host buffers of
    [sizeof(T) * 4 * numBodies mod 2^32] bytes, and every [setArray] on it
    copies past the end of its buffer. *)
Theorem large_system_overflows (numBodies numDevices blockSize : Z) (useP2P : bool)
    (deviceId : Z) (w : World) (s : System) (w' : World) :
  0 <= numBodies < 2 ^ 30 -> 2 ^ 32 <= sizeof * 4 * numBodies ->
  BodySystemCUDA_new numBodies numDevices blockSize false true useP2P deviceId w
  = Ok s w' ->
  m_numBodies s = numBodies /\
  (forall p, p = fst (m_hPos s) \/ p = snd (m_hPos s) \/ p = m_hVel s ->
     exists b, memory w' !! p = Some b /\
               Z.of_nat (length b) = (sizeof * 4 * numBodies) mod 2 ^ 32) /\
  forall array data, setArray array data s w' = Undefined.
Proof.
  intros Hn Hbig Hnew. pose proof sizeof_range as Hsz.
  assert (Hconv : to_int32 numBodies = numBodies).
  { unfold to_int32. rewrite wrap32_small by lia.
    destruct (Z.ltb_spec numBodies (2 ^ 31)); [reflexivity | lia]. }
  assert (Hpost :
    wp (BodySystemCUDA_new numBodies numDevices blockSize false true useP2P deviceId)
       (fun s' w' =>
          (m_bInitialized s' = true /\ m_numBodies s' = numBodies /\
           m_bUseSysMem s' = true /\ m_bUsePBO s' = false) /\
          let size := Some (Z.to_nat (wrap32 (sizeof * 4 * numBodies))) in
          block_size (memory w') (fst (m_hPos s')) = size /\
          block_size (memory w') (snd (m_hPos s')) = size /\
          block_size (memory w') (m_hVel s') = size)
       any_failure w).
  { unfold BodySystemCUDA_new. cbv zeta. rewrite Hconv. wp_step.
    eapply wp_mono.
    { apply wp_conj; [apply initialize_state | now apply initialize_host_sizes]. }
    intros s1 w1 ((_ & Hi1 & Hn1 & Hc1) & Hsizes). cbn beta in *.
    rewrite wrap32_small in Hn1 by lia. wp_step.
    eapply wp_mono; [eapply wp_weaken; [apply setSoftening_wp | easy]|].
    intros s2 w2 (-> & _ & Hm & _). cbn beta.
    unfold setDamping. apply wp_ret. cbn. rewrite Hm.
    unfold same_config in Hc1. cbn in Hc1.
    cbv zeta in Hsizes. destruct_and!. repeat split; assumption. }
  pose proof (wp_Ok _ _ _ _ _ _ Hpost Hnew) as ((Hi & Hb & Hsys & Hpbo) & Hp0 & Hp1 & Hv).
  cbv zeta in Hp0, Hp1, Hv.
  assert (Hrange : 0 <= wrap32 (sizeof * 4 * numBodies) < 2 ^ 32)
    by (unfold wrap32; apply Z.mod_pos_bound; lia).
  split; [exact Hb|]. split.
  - intros p [-> | [-> | ->]].
    all: match goal with
         | H : block_size _ ?q = _ |- context [_ !! ?q] =>
             destruct (memory w' !! q) as [b|]; [|discriminate H];
             cbn in H; injection H as H; exists b; split; [reflexivity|];
             rewrite H; unfold wrap32 in *; lia
         end.
  - intros array data.
    apply (setArray_past_the_end array data s w'
             (Z.to_nat (wrap32 (sizeof * 4 * numBodies)))); try assumption.
    rewrite Hb. unfold array_bytes.
    rewrite (wrap32_small (numBodies * 4)) by lia.
    rewrite wrap64_small by nia. nia.
Qed.

End Limits.
(** ** Sample runs of the further properties *)

Lemma staged_world_fresh : fresh_world staged_world.
Proof.
  intros k Hk. change (1000 <= k) in Hk.
  unfold staged_world, empty_world. world_simpl.
  repeat split; try apply lookup_empty.
  rewrite lookup_insert_ne by lia. apply lookup_singleton_ne. lia.
Qed.

(** The constructor returns in [staged_world], and builds [staged_system]. *)
Lemma staged_system_built (mode : MemoryMode) (numDevices : Z) (useP2P : bool) :
  1 <= numDevices <= 2 ->
  BodySystemCUDA_new 1 numDevices 256 (mode_flags mode).1 (mode_flags mode).2 useP2P 0
    staged_world
  = Ok (staged_system mode numDevices useP2P).1 (staged_system mode numDevices useP2P).2 /\
  Constructed mode (staged_system mode numDevices useP2P).1
    (staged_system mode numDevices useP2P).2.
Proof.
  intros Hnd.
  destruct (wp_returns _ _ _
              (constructor_constructs mode 1 numDevices 256 useP2P 0 staged_world
                 staged_world_fresh
                 ltac:(cbn; lia) ltac:(cbn; lia) ltac:(lia) ltac:(cbn; lia)))
    as (s & w' & E & HC & _).
  unfold staged_system. rewrite E. cbn. auto.
Qed.

Lemma staged_system_constructed (mode : MemoryMode) (numDevices : Z) (useP2P : bool) :
  1 <= numDevices <= 2 ->
  Constructed mode (staged_system mode numDevices useP2P).1
    (staged_system mode numDevices useP2P).2.
Proof. intros Hnd. now apply staged_system_built. Qed.

Lemma constructor_builds_witness :
  exists s w',
    BodySystemCUDA_new 1 2 256 (mode_flags RenderShared).1 (mode_flags RenderShared).2
      true 0 staged_world = Ok s w' /\
    Constructed RenderShared s w' /\ built_from RenderShared staged_world s w' /\
    m_numBodies s = 1 /\ m_numDevices s = 2.
Proof.
  apply (constructor_builds RenderShared 1 2 256 true 0 staged_world);
    [exact staged_world_fresh | cbn; lia | cbn; lia | lia | cbn; lia].
Defined.

Lemma arrays_stay_inside_witness :
  exists s' w',
    setArray BODYSYSTEM_POSITION 1 (staged_system RenderShared 2 true).1
      (staged_system RenderShared 2 true).2 = Ok s' w' /\
    Constructed RenderShared s' w'.
Proof.
  destruct (arrays_stay_inside RenderShared _ _
              (staged_system_constructed RenderShared 2 true ltac:(lia)))
    as [_ Hset].
  destruct (Hset BODYSYSTEM_POSITION 1 sample_array) as (s' & w' & E & HC & _);
    [vm_compute; reflexivity | vm_compute; reflexivity |].
  exists s', w'. split; assumption.
Defined.

Lemma velocity_round_trip_witness :
  exists s1 w1 p w2,
    setArray BODYSYSTEM_VELOCITY 2 (staged_system HostMapped 2 false).1
      (staged_system HostMapped 2 false).2 = Ok s1 w1 /\
    getArray BODYSYSTEM_VELOCITY s1 w1 = Ok p w2 /\
    begins_with (memory w2) p sample_velocity.
Proof.
  apply (velocity_round_trip HostMapped _ _ 2 sample_velocity);
    [apply staged_system_constructed; lia | vm_compute; reflexivity
    | vm_compute; reflexivity].
Defined.

Lemma arrays_independent_witness :
  exists s1 w1 s2 w2 p w3 v w4,
    setArray BODYSYSTEM_POSITION 1 (staged_system DeviceLocal 2 true).1
      (staged_system DeviceLocal 2 true).2 = Ok s1 w1 /\
    setArray BODYSYSTEM_VELOCITY 2 s1 w1 = Ok s2 w2 /\
    getArray BODYSYSTEM_POSITION s2 w2 = Ok p w3 /\
    getArray BODYSYSTEM_VELOCITY s2 w3 = Ok v w4 /\
    begins_with (memory w4) p sample_array /\
    begins_with (memory w4) v sample_velocity.
Proof.
  apply (arrays_independent DeviceLocal _ _ 1 2 sample_array sample_velocity);
    [apply staged_system_constructed; lia | vm_compute; reflexivity
    | vm_compute; reflexivity | vm_compute; reflexivity | vm_compute; reflexivity |].
  apply (bool_decide_eq_false_1 _). vm_compute. reflexivity.
Defined.

Lemma finalize_gives_back_witness :
  exists s' w',
    _finalize (staged_system RenderShared 1 false).1 (staged_system RenderShared 1 false).2
    = Ok s' w' /\
    m_bInitialized s' = false /\
    released RenderShared (staged_system RenderShared 1 false).1
      (staged_system RenderShared 1 false).2 w'.
Proof.
  apply (finalize_gives_back RenderShared); apply staged_system_constructed; lia.
Defined.

Lemma construct_destroy_restores_witness :
  exists s w1 s' w2,
    BodySystemCUDA_new 1 2 256 (mode_flags DeviceLocal).1 (mode_flags DeviceLocal).2
      true 0 staged_world = Ok s w1 /\
    BodySystemCUDA_delete s w1 = Ok s' w2 /\
    m_bInitialized s' = false /\ m_numBodies s' = 0 /\
    memory w2 = memory staged_world /\ gl_buffers w2 = gl_buffers staged_world /\
    resources w2 = resources staged_world.
Proof.
  apply (construct_destroy_restores DeviceLocal 1 2 256 true 0 staged_world);
    [exact staged_world_fresh | cbn; lia | cbn; lia | lia | cbn; lia].
Defined.

Lemma events_created_and_destroyed_witness :
  device_events (staged_system RenderShared 2 true).1 <> [] /\
  forall s' w',
    _finalize (staged_system RenderShared 2 true).1 (staged_system RenderShared 2 true).2
    = Ok s' w' ->
    destroyed_events (trace w')
    = destroyed_events (trace (staged_system RenderShared 2 true).2) ++ [].
Proof.
  apply (proj2 (events_created_and_destroyed (staged_system RenderShared 2 true).1
                  (staged_system RenderShared 2 true).2));
    [vm_compute; reflexivity | vm_compute; lia].
Defined.

Lemma loadTipsyFile_reloads_witness :
  loadTipsyFile sample_reader "bodies.tipsy" (staged_system DeviceLocal 1 false).1
    (staged_system DeviceLocal 1 false).2 <> AssertionFailed.
Proof.
  apply (loadTipsyFile_reloads sample_reader "bodies.tipsy"
           (staged_system DeviceLocal 1 false).1 (staged_system DeviceLocal 1 false).2).
  intros w0. unfold sample_reader, ret. discriminate.
Defined.

Lemma large_system_overflows_witness :
  m_numBodies large_system.1 = 2 ^ 28 /\
  setArray BODYSYSTEM_POSITION 1 large_system.1 large_system.2 = Undefined.
Proof.
  destruct (large_system_overflows (2 ^ 28) 1 256 false 0 staged_world
              large_system.1 large_system.2)
    as (Hn & _ & Hset); [lia | cbn; lia | vm_compute; reflexivity |].
  split; [exact Hn | apply Hset].
Defined.
(** ** No device, no body, and counts past 32 bits *)

Section Nothing.

Context {T : Type} {ST : Scalar T}.

#[local] Abbreviation World := (@World T).
#[local] Abbreviation System := (@BodySystemCUDA T).
#[local] Abbreviation M := (@M T).

(** The partitioner exits at the first device that is missing, whatever the
    number of bodies. *)
Lemma divide_workload_exits (numDevices bodies : Z) (w : World) :
  Z.of_nat (length (devices w)) < numDevices ->
  divide_workload numDevices bodies w = ExitFailure.
Proof.
  intros Hlen. apply wp_exits. unfold divide_workload. wp_step.
  eapply wp_mono; [apply query_weights_exits; lia|]. intros ws w' [].
Qed.

Lemma initialize_exits (n : Z) (s : System) (w : World) :
  m_bInitialized s = false ->
  Z.of_nat (length (devices w)) < m_numDevices s ->
  _initialize n s w = ExitFailure.
Proof.
  intros Hi Hlen. apply wp_exits. unfold _initialize. rewrite Hi.
  wp_step. wp_step; [|discriminate]. cbv zeta. cbn [m_numDevices set_m_numBodies].
  wp_step. unfold divide_workload. wp_step.
  eapply wp_mono; [apply query_weights_exits; lia|]. intros ws w' [].
Qed.

(** A system built for no body still has its buffers: the constructor
    returns, and the block of [m_hPos[0]] is new. *)
Lemma constructor_no_body (mode : MemoryMode) (numDevices blockSize : Z) (useP2P : bool)
    (deviceId : Z) (w : World) :
  fresh_world w ->
  1 <= numDevices <= Z.of_nat (length (devices w)) ->
  (mode <> HostMapped -> 0 <= deviceId < Z.of_nat (length (devices w))) ->
  exists s w',
    BodySystemCUDA_new 0 numDevices blockSize (mode_flags mode).1 (mode_flags mode).2
      useP2P deviceId w = Ok s w' /\
    m_bInitialized s = true /\ m_numBodies s = 0 /\
    fst (m_hPos s) <> NULL /\
    memory w !! fst (m_hPos s) = None /\
    is_Some (memory w' !! fst (m_hPos s)).
Proof.
  intros Hfresh Hnd Hdev. pose proof sizeof_range as Hsz.
  destruct (wp_returns _ _ _
              (constructor_constructs mode 0 numDevices blockSize useP2P deviceId w
                 Hfresh Hnd Hdev ltac:(lia) ltac:(lia)))
    as (s & w' & Hnew & HC & HB & Hn & _).
  exists s, w'. split; [exact Hnew|].
  destruct HC as (Hi & _ & _ & _ & _ & _ & _ & Hlive & _).
  destruct HB as (Hnone & _).
  assert (Hin : fst (m_hPos s) ∈ own_blocks mode s w')
    by (destruct mode; cbn [own_blocks]; apply elem_of_cons; left; reflexivity).
  rewrite Forall_forall in Hlive. destruct (Hlive _ Hin) as (Hnull & b & Hb & _).
  split; [exact Hi|]. split; [exact Hn|]. split; [exact Hnull|].
  split; [now apply Hnone|]. rewrite Hb. eauto.
Qed.

(** C9. With no device the partitioner's table is empty, and with no body
    it holds one slot of offset 0 and count 0 for every device: no slot is
    given any bodies.  Neither case is treated apart.  The partitioner
    queries every device: it returns, without touching memory, when the
    devices asked for exist, and exits when one is missing.  [_initialize]
    goes on after it: with no body and at least one device the constructor
    returns an initialised system for which it has allocated buffers that
    were not there before. *)
Theorem C9_nothing_to_divide (numDevices bodies : Z) (w : World) :
  numDevices = 0 \/ bodies = 0 ->
  (0 <= numDevices <= Z.of_nat (length (devices w)) ->
   exists table w',
     divide_workload numDevices bodies w = Ok table w' /\
     length table = Z.to_nat numDevices /\
     Forall (fun d => numBodies d = 0 /\ offset d = 0) table /\
     memory w' = memory w /\
     (numDevices = 0 -> table = [] /\ w' = w)) /\
  (Z.of_nat (length (devices w)) < numDevices ->
   divide_workload numDevices bodies w = ExitFailure /\
   forall blockSize usePBO useSysMem useP2P deviceId,
     BodySystemCUDA_new bodies numDevices blockSize usePBO useSysMem useP2P deviceId w
     = ExitFailure) /\
  (forall (mode : MemoryMode) (blockSize : Z) (useP2P : bool) (deviceId : Z),
     bodies = 0 -> fresh_world w ->
     1 <= numDevices <= Z.of_nat (length (devices w)) ->
     (mode <> HostMapped -> 0 <= deviceId < Z.of_nat (length (devices w))) ->
     exists s w',
       BodySystemCUDA_new bodies numDevices blockSize (mode_flags mode).1
         (mode_flags mode).2 useP2P deviceId w = Ok s w' /\
       m_bInitialized s = true /\ m_numBodies s = 0 /\
       fst (m_hPos s) <> NULL /\
       memory w !! fst (m_hPos s) = None /\
       is_Some (memory w' !! fst (m_hPos s))).
Proof.
  intros Hcase. split; [|split].
  - intros Hnd. now apply divide_workload_idle.
  - intros Hlen. split; [now apply divide_workload_exits|].
    intros blockSize usePBO useSysMem useP2P deviceId.
    unfold BodySystemCUDA_new. cbv zeta. unfold bind at 1.
    rewrite initialize_exits; [reflexivity | reflexivity | exact Hlen].
  - intros mode blockSize useP2P deviceId -> Hfresh Hnd Hdev.
    now apply constructor_no_body.
Qed.

End Nothing.

Lemma C9_nothing_to_divide_witness :
  (exists w', divide_workload 0 5 sample_world = Ok [] w') /\
  (exists table w',
     divide_workload 2 0 sample_world = Ok table w' /\
     Forall (fun d => numBodies d = 0 /\ offset d = 0) table) /\
  divide_workload 3 0 sample_world = ExitFailure.
Proof.
  split; [|split].
  - destruct (proj1 (C9_nothing_to_divide 0 5 sample_world ltac:(left; reflexivity)))
      as (table & w' & Hrun & _ & _ & _ & Hz); [simpl; lia|].
    destruct (Hz eq_refl) as [-> _]. exists w'. exact Hrun.
  - destruct (proj1 (C9_nothing_to_divide 2 0 sample_world ltac:(right; reflexivity)))
      as (table & w' & Hrun & _ & Hall & _); [simpl; lia|].
    exists table, w'. auto.
  - apply (C9_nothing_to_divide 3 0 sample_world ltac:(right; reflexivity)).
    simpl. lia.
Defined.

(** C9, as stated, fails in each of its parts.  With no body and three
    devices asked of a platform that has two, the partitioner and the
    constructor exit.  With no body and one device the constructor is no
    no-op: it allocates the (empty) buffers and creates the event.  With no
    device and device memory the constructor goes on to
    [m_deviceData[0].event] of an array without elements. *)
Lemma C9_counterexample :
  length (devices sample_world) = 2%nat /\
  divide_workload 3 0 sample_world = ExitFailure /\
  BodySystemCUDA_new 0 3 256 false false false 0 sample_world = ExitFailure /\
  (exists s w',
     BodySystemCUDA_new 0 1 256 false false false 0 sample_world = Ok s w' /\
     m_bInitialized s = true /\
     created_events (trace w') = [event (device0 s)] /\
     memory sample_world !! fst (m_hPos s) = None /\
     memory w' !! fst (m_hPos s) = Some []) /\
  BodySystemCUDA_new 1 0 256 false false false 0 sample_world = Undefined.
Proof.
  split; [reflexivity|]. split; [vm_compute; reflexivity|].
  split; [vm_compute; reflexivity|]. split; [|vm_compute; reflexivity].
  eexists _, _. split; [vm_compute; reflexivity|].
  repeat split; vm_compute; reflexivity.
Qed.

(** C5, as stated, fails on initialised systems that the constructor
    returns.  Built for one body on no device with [useSysMem], the system
    takes [setArray(BODYSYSTEM_POSITION, data)], and [getArray] then reads
    [m_deviceData[0]] of an array without elements.  Built for 2^28 bodies
    with [useSysMem], its buffers hold 0 bytes, and [setArray] copies 2^32
    bytes into them, whatever the caller's array. *)
Lemma C5_counterexample :
  (BodySystemCUDA_new 1 0 256 false true false 0 sample_world
   = Ok (sample_system HostMapped 0).1 (sample_system HostMapped 0).2 /\
   m_bInitialized (sample_system HostMapped 0).1 = true /\
   m_numBodies (sample_system HostMapped 0).1 = 1 /\
   memory (sample_system HostMapped 0).2 !! 1000 = Some sample_array /\
   exists s1 w1,
     setArray BODYSYSTEM_POSITION 1000 (sample_system HostMapped 0).1
       (sample_system HostMapped 0).2 = Ok s1 w1 /\
     getArray BODYSYSTEM_POSITION s1 w1 = Undefined) /\
  (BodySystemCUDA_new (2 ^ 28) 1 256 false true false 0 staged_world
   = Ok large_system.1 large_system.2 /\
   m_bInitialized large_system.1 = true /\
   m_numBodies large_system.1 = 2 ^ 28 /\
   forall data,
     setArray BODYSYSTEM_POSITION data large_system.1 large_system.2 = Undefined).
Proof.
  split.
  - split; [vm_compute; reflexivity|]. split; [vm_compute; reflexivity|].
    split; [vm_compute; reflexivity|]. split; [vm_compute; reflexivity|].
    destruct (setArray BODYSYSTEM_POSITION 1000 (sample_system HostMapped 0).1
                (sample_system HostMapped 0).2) as [s1 w1| | |] eqn:E;
      vm_compute in E; try discriminate E.
    injection E as <- <-.
    eexists _, _. split; [reflexivity|]. vm_compute. reflexivity.
  - split; [vm_compute; reflexivity|]. split; [vm_compute; reflexivity|].
    split; [vm_compute; reflexivity|].
    intros data.
    apply (setArray_past_the_end BODYSYSTEM_POSITION data large_system.1 large_system.2 0);
      vm_compute; reflexivity.
Qed.

(** C7, as stated, fails from 2^30 bodies on: [m_numBodies * 4] is a 32-bit
    product.  On the system the constructor returns for 2^30 bodies in
    device memory, [getArray(BODYSYSTEM_POSITION)] copies 0 bytes, not the
    2^34 bytes of the array. *)
Lemma C7_counterexample :
  BodySystemCUDA_new (2 ^ 30) 1 256 false false false 0 sample_world
  = Ok wrapped_system.1 wrapped_system.2 /\
  m_bInitialized wrapped_system.1 = true /\
  (m_bUsePBO wrapped_system.1, m_bUseSysMem wrapped_system.1) = mode_flags DeviceLocal /\
  m_numBodies wrapped_system.1 * 4 * sizeof (T:=Float32.float) = 2 ^ 34 /\
  exists p w',
    getArray BODYSYSTEM_POSITION wrapped_system.1 wrapped_system.2 = Ok p w' /\
    trace w' = trace wrapped_system.2 ++ [cudaMemcpy_ 1 4 0 cudaMemcpyDeviceToHost].
Proof.
  split; [vm_compute; reflexivity|]. split; [vm_compute; reflexivity|].
  split; [vm_compute; reflexivity|]. split; [vm_compute; reflexivity|].
  destruct (getArray BODYSYSTEM_POSITION wrapped_system.1 wrapped_system.2)
    as [p w'| | |] eqn:E; vm_compute in E; try discriminate E.
  injection E as <- <-.
  eexists _, _. split; [reflexivity|]. vm_compute. reflexivity.
Qed.
